(** * Report formats of gvmd: trust, canonical form, composition, feed

    A shallow embedding of [src/manage_sql_report_formats.c].  Every
    definition below follows one C function of that file; the comment in
    front of it names the function and says how its effects are threaded.

    Conventions.
    - C [int] and [long long] values are [Z]; the only arithmetic the file
      does on them is comparison, [&] and parsing, so no wrap-around occurs.
    - A [gchar*] that may be [NULL] is an [option string]; a string the code
      dereferences without a check is a [string].
    - SQL tables are lists of rows in insertion order; a statement is a
      function on those lists.
    - Calls that leave the process (file system, [gpgv], the generator
      script) take their outcome from an explicit environment record, so
      every theorem quantifies over all outcomes. *)

From Stdlib Require Import ZArith List String Ascii Bool Lia Arith.
From Stdlib Require Import Permutation Sorted Finite.
From Stdlib Require Import DecimalString DecimalNat DecimalZ.
Import ListNotations.

Local Open Scope string_scope.
Local Open Scope list_scope.
Local Open Scope Z_scope.

(** String concatenation, kept apart from list append. *)
Infix "+++" := String.append (right associativity, at level 60).

(* ================================================================== *)
(** ** The C library, as far as the file uses it *)
(* ================================================================== *)

Module CLib.

Definition LLONG_MIN : Z := - 2 ^ 63.
Definition LLONG_MAX : Z := 2 ^ 63 - 1.

(** [<sys/wait.h>], glibc: the low seven bits of a wait status hold the
    terminating signal, bits 8..15 the exit code. *)
Definition WIFEXITED (status : Z) : bool := Z.land status 127 =? 0.
Definition WEXITSTATUS (status : Z) : Z := Z.shiftr (Z.land status 65280) 8.

(** [strcmp]; [strcoll] under [LC_ALL = "C"] is the same function.  Bytes
    compare as [unsigned char], a proper prefix is smaller.  C fixes only
    the sign of the result. *)
Definition strcmp (a b : string) : Z :=
  match String.compare a b with
  | Eq => 0
  | Lt => -1
  | Gt => 1
  end.

Definition strcoll : string -> string -> Z := strcmp.

Definition strlen (s : string) : Z := Z.of_nat (String.length s).

(** What [printf ("%s", p)] prints; glibc prints [(null)] for [NULL]. *)
Definition fmt_s (p : option string) : string :=
  match p with
  | Some s => s
  | None => "(null)"
  end.

(** [printf ("%lli", z)] and [printf ("%i", z)]. *)
Definition fmt_lli (z : Z) : string := NilZero.string_of_int (Z.to_int z).

(** [printf ("%u", n)]. *)
Definition fmt_u (n : nat) : string := NilZero.string_of_uint (Nat.to_uint n).

(** *** [strtoll (s, &end, 0)] *)

Definition isspace (c : ascii) : bool :=
  let n := nat_of_ascii c in
  ((n =? 32) || ((9 <=? n) && (n <=? 13)))%nat.

Fixpoint skip_space (s : string) : string :=
  match s with
  | String c t => if isspace c then skip_space t else s
  | EmptyString => s
  end.

(** Value of a digit in bases up to 36, as [strtoll] reads it. *)
Definition digit_value (c : ascii) : option Z :=
  let n := nat_of_ascii c in
  if ((48 <=? n) && (n <=? 57))%nat then Some (Z.of_nat (n - 48))
  else if ((97 <=? n) && (n <=? 122))%nat then Some (Z.of_nat (n - 87))
  else if ((65 <=? n) && (n <=? 90))%nat then Some (Z.of_nat (n - 55))
  else None.

Definition digit_in (base : Z) (c : ascii) : option Z :=
  match digit_value c with
  | Some d => if d <? base then Some d else None
  | None => None
  end.

(** Reads digits of [base]; returns the number read, whether any digit was
    read, and the unread rest. *)
Fixpoint read_digits (base : Z) (s : string) (acc : Z) (any : bool)
  : Z * bool * string :=
  match s with
  | String c t =>
      match digit_in base c with
      | Some d => read_digits base t (acc * base + d) true
      | None => (acc, any, s)
      end
  | EmptyString => (acc, any, s)
  end.

Definition clamp_llong (z : Z) : Z :=
  if z <? LLONG_MIN then LLONG_MIN
  else if LLONG_MAX <? z then LLONG_MAX
  else z.

(** Base 0: a [0x] prefix followed by a hex digit selects base 16, a
    leading [0] base 8, anything else base 10.  The result saturates at
    [LLONG_MIN] and [LLONG_MAX]; with no digits it is 0 and nothing is
    consumed. *)
Definition strtoll_end (s : string) : Z * string :=
  let s1 := skip_space s in
  let '(neg, s2) :=
    match s1 with
    | String "-" t => (true, t)
    | String "+" t => (false, t)
    | _ => (false, s1)
    end in
  let '(base, s3) :=
    match s2 with
    | String "0" (String x (String h t)) =>
        if (Ascii.eqb x "x" || Ascii.eqb x "X")
           && match digit_in 16 h with Some _ => true | None => false end
        then (16, String h t)
        else (8, s2)
    | String "0" _ => (8, s2)
    | _ => (10, s2)
    end in
  let '(n, any, rest) := read_digits base s3 0 false in
  if any
  then (clamp_llong (if neg then - n else n), rest)
  else (0, s).

Definition strtoll (s : string) : Z := fst (strtoll_end s).

End CLib.

Import CLib.

(** Trust values of [manage.h], as [report_format_trust] documents them:
    1 yes, 2 no, 3 unknown. *)
Definition TRUST_YES : Z := 1.
Definition TRUST_NO : Z := 2.
Definition TRUST_UNKNOWN : Z := 3.

(* ================================================================== *)
(** ** Signature utils: [verify_signature] *)
(* ================================================================== *)

Module Verifier.

(** Outcome of [g_spawn_sync]: it returns [FALSE] and leaves
    [exit_status] unwritten, or returns [TRUE] with the child's wait
    status. *)
Inductive spawn_result : Type :=
| SpawnFailed
| SpawnReturned (wait_status : Z).

(** Everything [verify_signature] gets from outside the process.
    [stale_exit_status] is the content of the automatic variable
    [exit_status], which the function declares without an initialiser. *)
Record env : Type := {
  mkstemp_installer : option string;
  installer_written : bool;
  mkstemp_signature : option string;
  signature_written : bool;
  g_spawn_sync : string -> string -> spawn_result;
  stale_exit_status : Z
}.

(** The files present under [/tmp], by name. *)
Definition tmp_files : Type := list string.

Definition g_remove (file : string) (tmp : tmp_files) : tmp_files :=
  filter (fun f => negb (String.eqb f file)) tmp.

(** [verify_signature (installer, installer_size, signature,
    signature_size, &trust)].  The result is the return value, the value
    of [*trust] afterwards and the files left under [/tmp]. *)
Definition verify_signature (E : env) (installer signature : string)
    (trust : Z) (tmp : tmp_files) : Z * Z * tmp_files :=
  match mkstemp_installer E with
  | None => (-1, trust, tmp)
  | Some installer_file =>
      let tmp := installer_file :: tmp in
      if negb (installer_written E) then (-1, trust, tmp)
      else
        match mkstemp_signature E with
        | None => (-1, trust, tmp)
        | Some signature_file =>
            let tmp := signature_file :: tmp in
            if negb (signature_written E) then (-1, trust, tmp)
            else
              let '(spawned, exit_status) :=
                match g_spawn_sync E installer signature with
                | SpawnFailed => (false, stale_exit_status E)
                | SpawnReturned status => (true, status)
                end in
              let trust :=
                if negb spawned
                   || negb (WIFEXITED exit_status)
                   || negb (WEXITSTATUS exit_status =? 0)
                then
                  if WEXITSTATUS exit_status =? 1
                  then TRUST_NO
                  else TRUST_UNKNOWN
                else TRUST_YES in
              (0, trust,
               g_remove signature_file (g_remove installer_file tmp))
        end
  end.

(** The temporary files were written and the verifier can be started. *)
Definition files_ready (E : env) : bool :=
  match mkstemp_installer E, mkstemp_signature E with
  | Some _, Some _ => installer_written E && signature_written E
  | _, _ => false
  end.

End Verifier.

(* ================================================================== *)
(** ** Signature utils: [find_signature] *)
(* ================================================================== *)

Module Signature.

(** Outcome of [g_file_get_contents]; on an error it stores [NULL]. *)
Inductive read_result : Type :=
| ReadOk (contents : string)
| ReadNoent
| ReadError.

(** The two signature trees, addressed by location and base name:
    [GVM_NVT_DIR/<location>/<base>] and
    [GVMD_STATE_DIR/signatures/<location>/<base>], and [realpath] on a
    file of the second tree. *)
Record trees : Type := {
  feed_file : string -> string -> read_result;
  private_file : string -> string -> read_result;
  private_realpath : string -> string -> option string
}.

Definition is_slash (c : ascii) : bool := Ascii.eqb c "/".

Fixpoint drop_while {A} (f : A -> bool) (l : list A) : list A :=
  match l with
  | x :: t => if f x then drop_while f t else l
  | [] => []
  end.

Fixpoint take_while {A} (f : A -> bool) (l : list A) : list A :=
  match l with
  | x :: t => if f x then x :: take_while f t else []
  | [] => []
  end.

(** glib's [g_path_get_basename]: ["."] for the empty string, ["/"] for a
    string of slashes, else the last component without trailing
    slashes. *)
Definition g_path_get_basename (file_name : string) : string :=
  match file_name with
  | EmptyString => "."
  | _ =>
      match drop_while is_slash (rev (list_ascii_of_string file_name)) with
      | [] => "/"
      | cs =>
          string_of_list_ascii
            (rev (take_while (fun c => negb (is_slash c)) cs))
      end
  end.

(** First element of [g_strsplit (s, ".", 2)], or [s] itself when the
    vector is empty. *)
Definition before_dot (s : string) : string :=
  string_of_list_ascii
    (take_while (fun c => negb (Ascii.eqb c ".")) (list_ascii_of_string s)).

(** [find_signature (location, installer_filename, &signature,
    &signature_size, &uuid)] for a caller that passes [uuid], as both
    callers in this file do.  [signature0] is what [*signature] held
    before the call.  The result is the return value, [*signature] and
    [*uuid]. *)
Definition find_signature (T : trees) (location installer_filename : string)
    (signature0 : option string) : Z * option string * option string :=
  let installer_basename := g_path_get_basename installer_filename in
  if 0 <? strlen installer_basename then
    let signature_basename := installer_basename +++ ".asc" in
    match feed_file T location signature_basename with
    | ReadOk s => (0, Some s, None)
    | ReadNoent =>
        match private_file T location signature_basename with
        | ReadOk s =>
            match private_realpath T location signature_basename with
            | None => (-1, Some s, None)
            | Some real =>
                (0, Some s, Some (before_dot (g_path_get_basename real)))
            end
        | _ => (-1, None, None)
        end
    | ReadError => (-1, None, None)
    end
  else (-1, signature0, None).

End Signature.

(* ================================================================== *)
(** ** The tables *)
(* ================================================================== *)

Module Db.

Record report_format_row : Type := {
  rf_id : Z;
  rf_uuid : string;
  rf_name : string;
  rf_owner : option Z;
  rf_summary : string;
  rf_description : string;
  rf_extension : string;
  rf_content_type : string;
  rf_signature : string;
  rf_trust : Z;
  rf_trust_time : Z;
  rf_flags : Z;
  rf_creation_time : Z;
  rf_modification_time : Z
}.

(** [type_min] and [type_max] are [NULL] in rows the feed wrote without a
    bound; an integer read of a [NULL] cell yields 0. *)
Record param_row : Type := {
  p_id : Z;
  p_report_format : Z;
  p_name : string;
  p_type : Z;
  p_value : string;
  p_type_min : option Z;
  p_type_max : option Z;
  p_type_regex : string;
  p_fallback : string
}.

Record option_row : Type := {
  o_id : Z;
  o_report_format_param : Z;
  o_value : string
}.

Record user_row : Type := {
  u_id : Z;
  u_uuid : string
}.

(** The tables of this file, and the last value each id sequence gave
    out.  Of [report_formats_trash] only [original_uuid] is read by the
    functions embedded here. *)
Record t : Type := {
  report_formats : list report_format_row;
  report_format_params : list param_row;
  report_format_param_options : list option_row;
  report_formats_trash_original_uuids : list string;
  resources_predefined : list Z;
  users : list user_row;
  report_formats_seq : Z;
  report_format_params_seq : Z;
  report_format_param_options_seq : Z
}.

Definition cell_int64 (c : option Z) : Z :=
  match c with
  | Some z => z
  | None => 0
  end.

(** [(SELECT id FROM users WHERE users.uuid = '%s')] *)
Definition user_id (d : t) (uuid : string) : option Z :=
  match find (fun u => String.eqb (u_uuid u) uuid) (users d) with
  | Some u => Some (u_id u)
  | None => None
  end.

(** SQL [a = b] on nullable integers used as a condition: unknown counts
    as false. *)
Definition sql_eq_int (a b : option Z) : bool :=
  match a, b with
  | Some x, Some y => x =? y
  | _, _ => false
  end.

Definition find_report_format (d : t) (id : Z) : option report_format_row :=
  find (fun r => rf_id r =? id) (report_formats d).

Definition find_report_format_by_uuid (d : t) (uuid : string)
  : option report_format_row :=
  find (fun r => String.eqb (rf_uuid r) uuid) (report_formats d).

(** [resource_predefined ("report_format", resource)] *)
Definition report_format_predefined (d : t) (report_format : Z) : Z :=
  if existsb (Z.eqb report_format) (resources_predefined d) then 1 else 0.

Definition params_of (d : t) (report_format : Z) : list param_row :=
  filter (fun p => p_report_format p =? report_format)
         (report_format_params d).

Definition find_param (d : t) (report_format : Z) (name : string)
  : option param_row :=
  find (fun p => (p_report_format p =? report_format)
                 && String.eqb (p_name p) name)
       (report_format_params d).

(** The rows [init_param_option_iterator] yields, ascending by id; the
    table is kept in id order. *)
Definition options_of (d : t) (param : Z) : list option_row :=
  filter (fun o => o_report_format_param o =? param)
         (report_format_param_options d).

End Db.

(* ================================================================== *)
(** ** Parameter types and value validation *)
(* ================================================================== *)

Module Param.

Import Db.

(** Modelled from the spec: [report_format_param_type_t] and
    [report_format_param_type_from_name] live in [manage.h] and
    [manage_report_formats.c], which are not part of the source tree at
    hand.  The spec lists the types integer, string, text, selection,
    report-format-list and boolean, and says an unrecognised name is
    rejected. *)
Definition REPORT_FORMAT_PARAM_TYPE_BOOLEAN : Z := 0.
Definition REPORT_FORMAT_PARAM_TYPE_INTEGER : Z := 1.
Definition REPORT_FORMAT_PARAM_TYPE_SELECTION : Z := 2.
Definition REPORT_FORMAT_PARAM_TYPE_STRING : Z := 3.
Definition REPORT_FORMAT_PARAM_TYPE_TEXT : Z := 4.
Definition REPORT_FORMAT_PARAM_TYPE_REPORT_FORMAT_LIST : Z := 5.
Definition REPORT_FORMAT_PARAM_TYPE_ERROR : Z := 100.

Definition report_format_param_type_from_name (name : string) : Z :=
  if String.eqb name "boolean" then REPORT_FORMAT_PARAM_TYPE_BOOLEAN
  else if String.eqb name "integer" then REPORT_FORMAT_PARAM_TYPE_INTEGER
  else if String.eqb name "selection"
       then REPORT_FORMAT_PARAM_TYPE_SELECTION
  else if String.eqb name "string" then REPORT_FORMAT_PARAM_TYPE_STRING
  else if String.eqb name "text" then REPORT_FORMAT_PARAM_TYPE_TEXT
  else if String.eqb name "report_format_list"
       then REPORT_FORMAT_PARAM_TYPE_REPORT_FORMAT_LIST
  else REPORT_FORMAT_PARAM_TYPE_ERROR.

Definition report_format_param_type_name (type : Z) : option string :=
  if type =? REPORT_FORMAT_PARAM_TYPE_BOOLEAN then Some "boolean"
  else if type =? REPORT_FORMAT_PARAM_TYPE_INTEGER then Some "integer"
  else if type =? REPORT_FORMAT_PARAM_TYPE_SELECTION then Some "selection"
  else if type =? REPORT_FORMAT_PARAM_TYPE_STRING then Some "string"
  else if type =? REPORT_FORMAT_PARAM_TYPE_TEXT then Some "text"
  else if type =? REPORT_FORMAT_PARAM_TYPE_REPORT_FORMAT_LIST
       then Some "report_format_list"
  else None.

(** [report_format_param_type]: the first row's [type].  Every call
    embedded here comes after the row was inserted; without a row the
    value is taken as 0. *)
Definition report_format_param_type (d : t) (report_format : Z)
    (name : string) : Z :=
  match find_param d report_format name with
  | Some p => p_type p
  | None => 0
  end.

(** [report_format_param_type_min]: [min] starts as 0 and keeps that
    value when no row matches. *)
Definition report_format_param_type_min (d : t) (report_format : Z)
    (name : string) : Z :=
  match find_param d report_format name with
  | Some p => cell_int64 (p_type_min p)
  | None => 0
  end.

Definition report_format_param_type_max (d : t) (report_format : Z)
    (name : string) : Z :=
  match find_param d report_format name with
  | Some p => cell_int64 (p_type_max p)
  | None => 0
  end.

Definition isalnum (c : ascii) : bool :=
  let n := nat_of_ascii c in
  (((48 <=? n) && (n <=? 57)) || ((65 <=? n) && (n <=? 90))
   || ((97 <=? n) && (n <=? 122)))%nat.

Definition list_class (c : ascii) : bool :=
  isalnum c || Ascii.eqb c "-" || Ascii.eqb c "_".

(** The pattern [^(?:[[:alnum:]-_]+)?(?:,(?:[[:alnum:]-_])+)*$] of
    [validate_param_value], as an automaton: [need] says that the token
    begun by a comma has no character yet.  [$] also matches in front of
    a final newline. *)
Fixpoint list_match (s : string) (need : bool) : bool :=
  match s with
  | EmptyString => negb need
  | String c t =>
      if list_class c then list_match t false
      else if Ascii.eqb c "," then negb need && list_match t true
      else if Ascii.eqb c "010"
           then negb need && match t with EmptyString => true | _ => false end
      else false
  end.

(** [validate_param_value (report_format, param, name, value)]:
    0 success, 1 fail. *)
Definition validate_param_value (d : t) (report_format param : Z)
    (name value : string) : Z :=
  let type := report_format_param_type d report_format name in
  if type =? REPORT_FORMAT_PARAM_TYPE_INTEGER then
    let min := report_format_param_type_min d report_format name in
    let actual := strtoll value in
    if actual <? min then 1
    else
      let max := report_format_param_type_max d report_format name in
      if max <? actual then 1 else 0
  else if type =? REPORT_FORMAT_PARAM_TYPE_SELECTION then
    if existsb (fun o => strcmp (o_value o) value =? 0) (options_of d param)
    then 0 else 1
  else if (type =? REPORT_FORMAT_PARAM_TYPE_STRING)
          || (type =? REPORT_FORMAT_PARAM_TYPE_TEXT) then
    let min := report_format_param_type_min d report_format name in
    let actual := strlen value in
    if actual <? min then 1
    else
      let max := report_format_param_type_max d report_format name in
      if max <? actual then 1 else 0
  else if type =? REPORT_FORMAT_PARAM_TYPE_REPORT_FORMAT_LIST then
    if list_match value false then 0 else 1
  else 0.

End Param.

(* ================================================================== *)
(** ** [create_report_format] *)
(* ================================================================== *)

(** How a call ends: it returns, an [assert] stops the process, or a loop
    was cut off by the bound the model puts on it (shown below never to
    happen). *)
Inductive outcome : Type :=
| Returned (code : Z)
| Aborted
| Unfinished.

(** Early [return]: [inl code] leaves the function, [inr x] goes on. *)
Definition early (A : Type) : Type := (Z + A)%type.

Definition bind_early {A B : Type} (m : early A) (k : A -> early B) : early B :=
  match m with
  | inl code => inl code
  | inr x => k x
  end.

Notation "x <- m ;; k" := (bind_early m (fun x => k))
  (at level 61, m at next level, right associativity).
Notation "' p <- m ;; k" := (bind_early m (fun x => let 'p := x in k))
  (at level 61, p pattern, m at next level, right associativity).

Module Create.

Import Db Param Signature.

(** [create_report_format_param_t] of [manage.h]. *)
Record create_report_format_param_t : Type := {
  fallback : option string;
  name : string;
  type : option string;
  type_max : option string;
  type_min : option string;
  value : string
}.

(** An item of [files]: the file name, a terminating NUL, the contents in
    base64 and a terminating NUL. *)
Definition file_t : Type := (string * string)%type.

(** The pointer array [files]; [None] is the [NULL] that terminates it. *)
Definition files_array : Type := list (option file_t).

Definition terminated (files : list file_t) : files_array :=
  map Some files ++ [None].

(** [compare_files] *)
Definition compare_files (one two : option file_t) : Z :=
  match one, two with
  | None, None => 0
  | None, Some _ => 1
  | Some _, None => -1
  | Some file_one, Some file_two => strcoll (fst file_one) (fst file_two)
  end.

(** [g_ptr_array_sort (files, compare_files)].  glib sorts with a stable
    merge sort; the result of a stable sort does not depend on the
    algorithm, so it is written here as a stable insertion sort. *)
Fixpoint sort_insert (x : option file_t) (l : files_array) : files_array :=
  match l with
  | [] => [x]
  | y :: t =>
      if compare_files x y <=? 0 then x :: y :: t else y :: sort_insert x t
  end.

Fixpoint g_ptr_array_sort (files : files_array) : files_array :=
  match files with
  | [] => []
  | x :: t => sort_insert x (g_ptr_array_sort t)
  end.

(** The loop over [files] up to the first [NULL]. *)
Fixpoint format_files (files : files_array) : string :=
  match files with
  | Some (file_name, content) :: t => file_name +++ content +++ format_files t
  | _ => ""
  end.

Definition format_bound (bound : option string) (sentinel : Z) : early string :=
  match bound with
  | Some text =>
      let number := strtoll text in
      if number =? sentinel then inl 6 else inr (fmt_lli number)
  | None => inr ""
  end.

(** The loop over [params] of the verification block; [index] is the
    position of the head of [params] in the whole array.  An index past
    the end of [params_options] reads its terminating [NULL]. *)
Fixpoint format_params (params : list create_report_format_param_t)
    (params_options : list (option (list string))) (index : nat)
  : early string :=
  match params with
  | [] => inr ""
  | param :: rest =>
      min <- format_bound (type_min param) LLONG_MIN ;;
      max <- format_bound (type_max param) LLONG_MAX ;;
      options <- match nth_error params_options index with
                 | Some (Some options) => inr options
                 | _ => inl (-1)
                 end ;;
      tail <- format_params rest params_options (S index) ;;
      inr (name param +++ fmt_s (type param) +++ min +++ max
           +++ fmt_s (fallback param) +++ String.concat "" options +++ tail)
  end.

(** The byte string handed to [verify_signature], lines 578 to 644 of the
    source, together with the array as the sort left it. *)
Definition canonical_format (uuid_actual : option string) (uuid : string)
    (extension content_type : option string) (global : Z)
    (files : files_array) (params : list create_report_format_param_t)
    (params_options : list (option (list string)))
  : early (string * files_array) :=
  let head :=
    match uuid_actual with Some u => u | None => uuid end
    +++ fmt_s extension +++ fmt_s content_type
    +++ fmt_lli (Z.land global 1) in
  let files := g_ptr_array_sort files in
  body <- format_params params params_options 0 ;;
  inr (head +++ format_files files +++ body +++ String "010" "", files).

Inductive io_call : Type :=
| Readlink_signature
| Mkdir_signatures
| Symlink_signature
| Remove_dir
| Mkdir_dir
| Chmod_owner_dir
| Chmod_dir
| Write_file (file_name : string)
| Chmod_file (file_name : string).

(** What the function gets from outside.  [io_ok] says for each call
    site on the file system whether the call succeeds there. *)
Record env : Type := {
  NDEBUG : bool;
  current_credentials_uuid : option string;
  trees : Signature.trees;
  verifier : Verifier.env;
  acl_user_may : string -> bool;
  acl_user_can_everything : option string -> bool;
  gvm_uuid_make : option string;
  feed_signature_realpath : bool;
  private_signature_lstat : bool;
  dir_exists : bool;
  io_ok : io_call -> bool;
  time_now : Z;
  m_now : Z
}.

(** The request, the arguments of [create_report_format]. *)
Record request : Type := {
  uuid : string;
  req_name : string;
  content_type : option string;
  extension : option string;
  summary : option string;
  description : option string;
  global : Z;
  files : files_array;
  params : list create_report_format_param_t;
  params_options : list (option (list string));
  signature : option string
}.

(** What the verification block leaves behind; [block_return] is the
    code of a [return] taken inside the block. *)
Record verified_state : Type := {
  block_return : option Z;
  format_trust : Z;
  signature_used : option string;
  files_after : files_array;
  verify_call : option (string * string);
  tmp_after : Verifier.tmp_files
}.

(** Lines 568 to 657: "Verify the signature."  Inside the block
    [signature] is never [NULL]: the block is entered with a signature
    found or with one given. *)
Definition verify_block (E : env) (q : request) (tmp : Verifier.tmp_files)
  : verified_state :=
  let '(found, format_signature, uuid_actual) :=
    find_signature (trees E) "report_formats" (uuid q) None in
  if (found =? 0)
     || match signature q with Some _ => true | None => false end
  then
    let chosen :=
      match format_signature with
      | Some s => Some s
      | None => signature q
      end in
    match canonical_format uuid_actual (uuid q) (extension q)
            (content_type q) (global q) (files q) (params q)
            (params_options q) with
    | inl code =>
        {| block_return := Some code;
           format_trust := TRUST_UNKNOWN;
           signature_used := signature q;
           files_after := g_ptr_array_sort (files q);
           verify_call := None;
           tmp_after := tmp |}
    | inr (format, sorted) =>
        let '(ret, trust, tmp') :=
          Verifier.verify_signature (verifier E) format (fmt_s chosen)
                                    TRUST_UNKNOWN tmp in
        {| block_return := if ret =? 0 then None else Some (-1);
           format_trust := trust;
           signature_used := chosen;
           files_after := sorted;
           verify_call := Some (format, fmt_s chosen);
           tmp_after := tmp' |}
    end
  else {| block_return := None;
          format_trust := TRUST_UNKNOWN;
          signature_used := signature q;
          files_after := files q;
          verify_call := None;
          tmp_after := tmp |}.

(** Modelled from the spec: [resource_with_name_exists] is defined in
    [manage_sql.c], outside the source tree at hand.  The spec makes a
    name unique among the formats of one user, so the check looks for a
    row of that name owned by the current user. *)
Definition resource_with_name_exists (d : Db.t) (user : option string)
    (candidate : string) : bool :=
  existsb (fun r => String.eqb (rf_name r) candidate
                    && sql_eq_int (rf_owner r)
                         (match user with
                          | Some u => user_id d u
                          | None => None
                          end))
          (report_formats d).

(** The [while (1)] loop that looks for a free name; [bound] limits the
    number of rounds. *)
Fixpoint candidate_name (bound : nat) (taken : string -> bool)
    (name candidate : string) (num : nat) : option string :=
  match bound with
  | O => None
  | S bound' =>
      if negb (taken candidate) then Some candidate
      else candidate_name bound' taken name
                          (name +++ " " +++ fmt_u (S num)) (S num)
  end.

(** The loop that writes the files, up to the first [NULL]. *)
Fixpoint write_files (E : env) (files : files_array) : early unit :=
  match files with
  | Some (file_name, _) :: t =>
      if strlen file_name =? 0 then inl 2
      else if negb (io_ok E (Write_file file_name)) then inl (-1)
      else if negb (io_ok E (Chmod_file file_name)) then inl (-1)
      else write_files E t
  | _ => inr tt
  end.

Definition or_empty (s : option string) : string :=
  match s with
  | Some x => x
  | None => ""
  end.

Definition insert_report_format (d : Db.t) (row_uuid row_name : string)
    (owner : option Z) (q : request) (signature : option string)
    (trust time now : Z) : Db.t * Z :=
  let id := report_formats_seq d + 1 in
  ({| report_formats :=
        report_formats d ++
        [ {| rf_id := id;
             rf_uuid := row_uuid;
             rf_name := row_name;
             rf_owner := owner;
             rf_summary := or_empty (summary q);
             rf_description := or_empty (description q);
             rf_extension := or_empty (extension q);
             rf_content_type := or_empty (content_type q);
             rf_signature := or_empty signature;
             rf_trust := trust;
             rf_trust_time := time;
             rf_flags := 0;
             rf_creation_time := now;
             rf_modification_time := now |} ];
      report_format_params := report_format_params d;
      report_format_param_options := report_format_param_options d;
      report_formats_trash_original_uuids :=
        report_formats_trash_original_uuids d;
      resources_predefined := resources_predefined d;
      users := users d;
      report_formats_seq := id;
      report_format_params_seq := report_format_params_seq d;
      report_format_param_options_seq := report_format_param_options_seq d |},
   id).

Definition insert_param (d : Db.t) (report_format : Z)
    (param : create_report_format_param_t) (min max : Z)
    (param_fallback : string) : Db.t * Z :=
  let id := report_format_params_seq d + 1 in
  ({| report_formats := report_formats d;
      report_format_params :=
        report_format_params d ++
        [ {| p_id := id;
             p_report_format := report_format;
             p_name := name param;
             p_type := report_format_param_type_from_name
                         (fmt_s (type param));
             p_value := value param;
             p_type_min := Some min;
             p_type_max := Some max;
             p_type_regex := "";
             p_fallback := param_fallback |} ];
      report_format_param_options := report_format_param_options d;
      report_formats_trash_original_uuids :=
        report_formats_trash_original_uuids d;
      resources_predefined := resources_predefined d;
      users := users d;
      report_formats_seq := report_formats_seq d;
      report_format_params_seq := id;
      report_format_param_options_seq := report_format_param_options_seq d |},
   id).

Definition insert_option (d : Db.t) (param : Z) (option_value : string)
  : Db.t :=
  let id := report_format_param_options_seq d + 1 in
  {| report_formats := report_formats d;
     report_format_params := report_format_params d;
     report_format_param_options :=
       report_format_param_options d ++
       [ {| o_id := id;
            o_report_format_param := param;
            o_value := option_value |} ];
     report_formats_trash_original_uuids :=
       report_formats_trash_original_uuids d;
     resources_predefined := resources_predefined d;
     users := users d;
     report_formats_seq := report_formats_seq d;
     report_format_params_seq := report_format_params_seq d;
     report_format_param_options_seq := id |}.

(** One round of the loop "Add params to database." *)
Definition add_param (d : Db.t) (report_format_rowid : Z)
    (param : create_report_format_param_t)
    (options : option (option (list string))) : early Db.t :=
  match type param with
  | None => inl 7
  | Some type_name =>
      if report_format_param_type_from_name type_name
         =? REPORT_FORMAT_PARAM_TYPE_ERROR
      then inl 9
      else
        min <- match type_min param with
               | Some text =>
                   let min := strtoll text in
                   if min =? LLONG_MIN then inl 6 else inr min
               | None => inr LLONG_MIN
               end ;;
        max <- match type_max param with
               | Some text =>
                   let max := strtoll text in
                   if max =? LLONG_MAX then inl 6 else inr max
               | None => inr LLONG_MAX
               end ;;
        match fallback param with
        | None => inl 5
        | Some param_fallback =>
            match find_param d report_format_rowid (name param) with
            | Some _ => inl 8
            | None =>
                let '(d, param_rowid) :=
                  insert_param d report_format_rowid param min max
                               param_fallback in
                match options with
                | Some (Some options) =>
                    let d :=
                      fold_left (fun d o => insert_option d param_rowid o)
                                options d in
                    if negb (validate_param_value d report_format_rowid
                               param_rowid (name param) (value param) =? 0)
                    then inl 3
                    else if negb (validate_param_value d report_format_rowid
                                    param_rowid (name param) param_fallback
                                  =? 0)
                    then inl 4
                    else inr d
                | _ => inl (-1)
                end
            end
        end
  end.

Fixpoint add_params (d : Db.t) (report_format_rowid : Z)
    (params : list create_report_format_param_t)
    (params_options : list (option (list string))) (index : nat)
  : early Db.t :=
  match params with
  | [] => inr d
  | param :: rest =>
      d <- add_param d report_format_rowid param
                     (nth_error params_options index) ;;
      add_params d report_format_rowid rest params_options (S index)
  end.

(** The part of the function inside the transaction, from
    [sql_begin_immediate] to [sql_commit].  [inl code] stands for a
    [sql_rollback] followed by [return code]. *)
Definition transaction (E : env) (q : request) (v : verified_state)
    (d : Db.t) : early Db.t + outcome :=
  if negb (acl_user_may E "create_report_format") then inl (inl 99)
  else if negb (global q =? 0)
          && negb (acl_user_can_everything E (current_credentials_uuid E))
  then inl (inl 99)
  else
    let collision :=
      existsb (fun r => String.eqb (rf_uuid r) (uuid q)) (report_formats d)
      || existsb (String.eqb (uuid q))
                 (report_formats_trash_original_uuids d) in
    let link : early (option string) :=
      if collision then
        match gvm_uuid_make E with
        | None => inl (-1)
        | Some new_uuid =>
            if negb (feed_signature_realpath E)
               && private_signature_lstat E
               && negb (io_ok E Readlink_signature)
            then inl (-1)
            else if negb (io_ok E Mkdir_signatures) then inl (-1)
            else if negb (io_ok E Symlink_signature) then inl (-1)
            else inr (Some new_uuid)
        end
      else inr None in
    match link with
    | inl code => inl (inl code)
    | inr new_uuid =>
        match candidate_name (S (List.length (report_formats d)))
                (resource_with_name_exists d (current_credentials_uuid E))
                (req_name q) (req_name q) 1 with
        | None => inr Unfinished
        | Some row_name =>
            if negb (global q =? 0) && negb (NDEBUG E) then inr Aborted
            else
              inl
                (_ <- (if dir_exists E && negb (io_ok E Remove_dir)
                       then inl (-1) else inr tt) ;;
                 _ <- (if negb (io_ok E Mkdir_dir)
                       then inl (-1) else inr tt) ;;
                 _ <- (if (global q =? 0) && negb (io_ok E Chmod_owner_dir)
                       then inl (-1) else inr tt) ;;
                 _ <- (if negb (io_ok E Chmod_dir)
                       then inl (-1) else inr tt) ;;
                 _ <- write_files E (files_after v) ;;
                 let owner :=
                   if negb (global q =? 0) then None
                   else match current_credentials_uuid E with
                        | Some user => user_id d user
                        | None => None
                        end in
                 let '(d, report_format_rowid) :=
                   insert_report_format d
                     (match new_uuid with Some u => u | None => uuid q end)
                     row_name owner q (signature_used v) (format_trust v)
                     (time_now E) (m_now E) in
                 add_params d report_format_rowid (params q)
                            (params_options q) 0)
        end
    end.

(** What a call leaves behind: its outcome, the tables, the created row,
    the caller's [files] array, the files under [/tmp] and the call of
    the verifier, if one was made. *)
Record result : Type := {
  res_outcome : outcome;
  res_db : Db.t;
  res_report_format : option Z;
  res_files : files_array;
  res_tmp : Verifier.tmp_files;
  res_verify_call : option (string * string)
}.

(** [create_report_format] *)
Definition create_report_format (E : env) (q : request) (d : Db.t)
    (tmp : Verifier.tmp_files) : result :=
  match current_credentials_uuid E, NDEBUG E with
  | None, false =>
      {| res_outcome := Aborted; res_db := d; res_report_format := None;
         res_files := files q; res_tmp := tmp; res_verify_call := None |}
  | _, _ =>
      let v := verify_block E q tmp in
      let finish (o : outcome) (d' : Db.t) (id : option Z) :=
        {| res_outcome := o; res_db := d'; res_report_format := id;
           res_files := files_after v; res_tmp := tmp_after v;
           res_verify_call := verify_call v |} in
      match block_return v with
      | Some code => finish (Returned code) d None
      | None =>
          match transaction E q v d with
          | inr o => finish o d None
          | inl (inl code) => finish (Returned code) d None
          | inl (inr d') =>
              finish (Returned 0) d' (Some (report_formats_seq d'))
          end
      end
  end.

End Create.

(* ================================================================== *)
(** ** Statements on [report_formats] shared by the functions below *)
(* ================================================================== *)

Module Sql.

Import Db.

Definition with_report_formats (d : Db.t) (rows : list report_format_row)
  : Db.t :=
  {| report_formats := rows;
     report_format_params := report_format_params d;
     report_format_param_options := report_format_param_options d;
     report_formats_trash_original_uuids :=
       report_formats_trash_original_uuids d;
     resources_predefined := resources_predefined d;
     users := users d;
     report_formats_seq := report_formats_seq d;
     report_format_params_seq := report_format_params_seq d;
     report_format_param_options_seq := report_format_param_options_seq d |}.

Definition with_params (d : Db.t) (rows : list param_row) : Db.t :=
  {| report_formats := report_formats d;
     report_format_params := rows;
     report_format_param_options := report_format_param_options d;
     report_formats_trash_original_uuids :=
       report_formats_trash_original_uuids d;
     resources_predefined := resources_predefined d;
     users := users d;
     report_formats_seq := report_formats_seq d;
     report_format_params_seq := report_format_params_seq d;
     report_format_param_options_seq := report_format_param_options_seq d |}.

Definition with_options (d : Db.t) (rows : list option_row) : Db.t :=
  {| report_formats := report_formats d;
     report_format_params := report_format_params d;
     report_format_param_options := rows;
     report_formats_trash_original_uuids :=
       report_formats_trash_original_uuids d;
     resources_predefined := resources_predefined d;
     users := users d;
     report_formats_seq := report_formats_seq d;
     report_format_params_seq := report_format_params_seq d;
     report_format_param_options_seq := report_format_param_options_seq d |}.

Definition with_predefined (d : Db.t) (resources : list Z) : Db.t :=
  {| report_formats := report_formats d;
     report_format_params := report_format_params d;
     report_format_param_options := report_format_param_options d;
     report_formats_trash_original_uuids :=
       report_formats_trash_original_uuids d;
     resources_predefined := resources;
     users := users d;
     report_formats_seq := report_formats_seq d;
     report_format_params_seq := report_format_params_seq d;
     report_format_param_options_seq := report_format_param_options_seq d |}.

(** [UPDATE report_formats SET ... WHERE cond] *)
Definition update_report_formats (d : Db.t)
    (cond : report_format_row -> bool)
    (set : report_format_row -> report_format_row) : Db.t :=
  with_report_formats d
    (map (fun r => if cond r then set r else r) (report_formats d)).

(** [UPDATE report_format_params SET ... WHERE cond] *)
Definition update_params (d : Db.t) (cond : param_row -> bool)
    (set : param_row -> param_row) : Db.t :=
  with_params d (map (fun p => if cond p then set p else p)
                     (report_format_params d)).

Definition set_modification_time (now : Z) (r : report_format_row)
  : report_format_row :=
  {| rf_id := rf_id r; rf_uuid := rf_uuid r; rf_name := rf_name r;
     rf_owner := rf_owner r; rf_summary := rf_summary r;
     rf_description := rf_description r; rf_extension := rf_extension r;
     rf_content_type := rf_content_type r; rf_signature := rf_signature r;
     rf_trust := rf_trust r; rf_trust_time := rf_trust_time r;
     rf_flags := rf_flags r; rf_creation_time := rf_creation_time r;
     rf_modification_time := now |}.

Definition set_name (new_name : string) (r : report_format_row)
  : report_format_row :=
  {| rf_id := rf_id r; rf_uuid := rf_uuid r; rf_name := new_name;
     rf_owner := rf_owner r; rf_summary := rf_summary r;
     rf_description := rf_description r; rf_extension := rf_extension r;
     rf_content_type := rf_content_type r; rf_signature := rf_signature r;
     rf_trust := rf_trust r; rf_trust_time := rf_trust_time r;
     rf_flags := rf_flags r; rf_creation_time := rf_creation_time r;
     rf_modification_time := rf_modification_time r |}.

Definition set_summary (new_summary : string) (r : report_format_row)
  : report_format_row :=
  {| rf_id := rf_id r; rf_uuid := rf_uuid r; rf_name := rf_name r;
     rf_owner := rf_owner r; rf_summary := new_summary;
     rf_description := rf_description r; rf_extension := rf_extension r;
     rf_content_type := rf_content_type r; rf_signature := rf_signature r;
     rf_trust := rf_trust r; rf_trust_time := rf_trust_time r;
     rf_flags := rf_flags r; rf_creation_time := rf_creation_time r;
     rf_modification_time := rf_modification_time r |}.

Definition set_flags (new_flags : Z) (r : report_format_row)
  : report_format_row :=
  {| rf_id := rf_id r; rf_uuid := rf_uuid r; rf_name := rf_name r;
     rf_owner := rf_owner r; rf_summary := rf_summary r;
     rf_description := rf_description r; rf_extension := rf_extension r;
     rf_content_type := rf_content_type r; rf_signature := rf_signature r;
     rf_trust := rf_trust r; rf_trust_time := rf_trust_time r;
     rf_flags := new_flags; rf_creation_time := rf_creation_time r;
     rf_modification_time := rf_modification_time r |}.

Definition set_trust (trust time : Z) (r : report_format_row)
  : report_format_row :=
  {| rf_id := rf_id r; rf_uuid := rf_uuid r; rf_name := rf_name r;
     rf_owner := rf_owner r; rf_summary := rf_summary r;
     rf_description := rf_description r; rf_extension := rf_extension r;
     rf_content_type := rf_content_type r; rf_signature := rf_signature r;
     rf_trust := trust; rf_trust_time := time;
     rf_flags := rf_flags r; rf_creation_time := rf_creation_time r;
     rf_modification_time := rf_modification_time r |}.

Definition set_value (new_value : string) (p : param_row) : param_row :=
  {| p_id := p_id p; p_report_format := p_report_format p;
     p_name := p_name p; p_type := p_type p; p_value := new_value;
     p_type_min := p_type_min p; p_type_max := p_type_max p;
     p_type_regex := p_type_regex p; p_fallback := p_fallback p |}.

End Sql.

(* ================================================================== *)
(** ** Access control, as far as this file consults it *)
(* ================================================================== *)

Module Acl.

Import Db.

Record t : Type := {
  acl_user_may : string -> bool;
  acl_user_has_access_uuid : string -> string -> bool;
  find_fails : string -> bool
}.

(** Modelled from the spec: [find_report_format_with_permission] is defined
    in [manage_sql.c], outside the source tree at hand.  The spec has it
    resolve a UUID to a format that exists and is reachable under the
    caller's permission.  The result is the return value ([true] on an
    error) and the format found, 0 for none. *)
Definition find_report_format_with_permission (A : t) (d : Db.t)
    (uuid permission : string) : bool * Z :=
  if find_fails A uuid then (true, 0)
  else
    match find_report_format_by_uuid d uuid with
    | Some r =>
        if acl_user_has_access_uuid A uuid permission
        then (false, rf_id r)
        else (false, 0)
    | None => (false, 0)
    end.

End Acl.

(* ================================================================== *)
(** ** [verify_report_format_internal] *)
(* ================================================================== *)

Module Verify.

Import Db Param Signature Sql.

(** [report_format_iterator d id] stands for the rows that
    [init_report_format_iterator] yields for [get.id = id], and
    [report_format_file_iterator] for the files of a format on disk as
    [init_report_format_file_iterator] lists them, name and base64
    contents; both are defined outside this file. *)
Record env : Type := {
  trees : Signature.trees;
  verifier : Verifier.env;
  report_format_iterator : Db.t -> option string -> list report_format_row;
  report_format_file_iterator : Z -> list (string * string);
  time_now : Z;
  m_now : Z
}.

(** [report_format_uuid] *)
Definition report_format_uuid (d : Db.t) (report_format : Z) : option string :=
  match find_report_format d report_format with
  | Some r => Some (rf_uuid r)
  | None => None
  end.

(** What the loop over the param iterator appends for one row. *)
Definition format_param_row (d : Db.t) (p : param_row) : string :=
  p_name p +++ fmt_s (report_format_param_type_name (p_type p))
  +++ (if LLONG_MIN <? cell_int64 (p_type_min p)
       then fmt_lli (cell_int64 (p_type_min p)) else "")
  +++ (if cell_int64 (p_type_max p) <? LLONG_MAX
       then fmt_lli (cell_int64 (p_type_max p)) else "")
  +++ p_type_regex p +++ p_fallback p
  +++ String.concat "" (map o_value (options_of d (p_id p))).

(** The byte string built for re-verification. *)
Definition stored_format (E : env) (d : Db.t) (report_format : Z)
    (uuid : option string) (row : report_format_row) : string :=
  match uuid with Some u => u | None => rf_uuid row end
  +++ rf_extension row +++ rf_content_type row
  +++ fmt_lli (Z.land (report_format_predefined d report_format) 1)
  +++ String.concat ""
        (map (fun f => fst f +++ snd f)
             (report_format_file_iterator E report_format))
  +++ String.concat "" (map (format_param_row d) (params_of d report_format))
  +++ String "010" "".

Record result : Type := {
  res_return : Z;
  res_db : Db.t;
  res_verify_call : option (string * string);
  res_tmp : Verifier.tmp_files
}.

(** [verify_report_format_internal] *)
Definition verify_report_format_internal (E : env) (report_format : Z)
    (d : Db.t) (tmp : Verifier.tmp_files) : result :=
  match report_format_iterator E d (report_format_uuid d report_format) with
  | [] => {| res_return := -1; res_db := d; res_verify_call := None;
             res_tmp := tmp |}
  | row :: _ =>
      let signature := rf_signature row in
      let '(_, format_signature, uuid) :=
        find_signature (trees E) "report_formats" (rf_uuid row) None in
      let update (trust : Z) (d : Db.t) :=
        update_report_formats d (fun r => rf_id r =? report_format)
          (fun r => set_modification_time (m_now E)
                      (set_trust trust (time_now E) r)) in
      if (0 <? strlen signature)
         || match format_signature with Some _ => true | None => false end
      then
        let format := stored_format E d report_format uuid row in
        let chosen :=
          match format_signature with
          | Some s => Some s
          | None => if 0 <? strlen signature then Some signature else None
          end in
        match chosen with
        | Some s =>
            let '(ret, trust, tmp') :=
              Verifier.verify_signature (verifier E) format s
                                        TRUST_UNKNOWN tmp in
            if negb (ret =? 0)
            then {| res_return := -1; res_db := d;
                    res_verify_call := Some (format, s); res_tmp := tmp' |}
            else {| res_return := 0; res_db := update trust d;
                    res_verify_call := Some (format, s); res_tmp := tmp' |}
        | None =>
            {| res_return := 0; res_db := update TRUST_UNKNOWN d;
               res_verify_call := None; res_tmp := tmp |}
        end
      else {| res_return := 0; res_db := update TRUST_UNKNOWN d;
              res_verify_call := None; res_tmp := tmp |}
  end.

End Verify.

(* ================================================================== *)
(** ** [modify_report_format] *)
(* ================================================================== *)

Module Modify.

Import Db Param Sql.

Record env : Type := {
  NDEBUG : bool;
  current_credentials_uuid : option string;
  acl : Acl.t;
  g_base64_decode : string -> string;
  m_now : Z
}.

(** [set_report_format_name] *)
Definition set_report_format_name (E : env) (d : Db.t) (report_format : Z)
    (name : string) : Db.t :=
  update_report_formats d (fun r => rf_id r =? report_format)
    (fun r => set_modification_time (m_now E) (set_name name r)).

(** [set_report_format_summary] *)
Definition set_report_format_summary (E : env) (d : Db.t) (report_format : Z)
    (summary : string) : Db.t :=
  update_report_formats d (fun r => rf_id r =? report_format)
    (fun r => set_modification_time (m_now E) (set_summary summary r)).

(** [set_report_format_active]; [REPORT_FORMAT_FLAG_ACTIVE] is 1. *)
Definition set_report_format_active (E : env) (d : Db.t) (report_format : Z)
    (active : Z) : Db.t :=
  update_report_formats d (fun r => rf_id r =? report_format)
    (fun r => set_modification_time (m_now E)
                (set_flags (if negb (active =? 0)
                            then Z.lor (rf_flags r) 1
                            else Z.land (rf_flags r) (Z.lnot 1)) r)).

(** [resource_set_predefined ("report_format", resource, enable)] *)
Definition resource_set_predefined (d : Db.t) (resource enable : Z) : Db.t :=
  let others :=
    filter (fun x => negb (x =? resource)) (resources_predefined d) in
  with_predefined d (if negb (enable =? 0) then others ++ [resource]
                     else others).

(** [set_report_format_param]: 0 success, 1 failed to find param,
    2 validation of value failed.  The row is looked up by name alone, as
    the query of the source does. *)
Definition set_report_format_param (E : env) (d : Db.t) (report_format : Z)
    (name : string) (value_64 : option string) : Z * Db.t :=
  match find (fun p => String.eqb (p_name p) name)
             (report_format_params d) with
  | None => (1, d)
  | Some row =>
      let param := p_id row in
      let value :=
        match value_64 with
        | Some v => if 0 <? strlen v then g_base64_decode E v else ""
        | None => ""
        end in
      if negb (validate_param_value d report_format param name value =? 0)
      then (2, d)
      else (0, update_params d
                 (fun p => (p_report_format p =? report_format)
                           && String.eqb (p_name p) name)
                 (set_value value))
  end.

(** The arguments of [modify_report_format]. *)
Record request : Type := {
  report_format_id : option string;
  name : option string;
  summary : option string;
  active : option string;
  param_name : option string;
  param_value : option string;
  predefined : option string
}.

Definition apply_if {A : Type} (field : option A) (f : A -> Db.t -> Db.t)
    (d : Db.t) : Db.t :=
  match field with
  | Some x => f x d
  | None => d
  end.

(** [modify_report_format] *)
Definition modify_report_format (E : env) (q : request) (d : Db.t)
  : outcome * Db.t :=
  match report_format_id q with
  | None => (Returned 2, d)
  | Some id =>
      if match predefined q with
         | Some p => negb (strcmp p "0" =? 0) && negb (strcmp p "1" =? 0)
         | None => false
         end
      then (Returned 5, d)
      else
        match current_credentials_uuid E, NDEBUG E with
        | None, false => (Aborted, d)
        | _, _ =>
            if negb (Acl.acl_user_may (acl E) "modify_report_format")
            then (Returned 99, d)
            else
              let '(failed, report_format) :=
                Acl.find_report_format_with_permission
                  (acl E) d id "modify_report_format" in
              if failed then (Returned (-1), d)
              else if report_format =? 0 then (Returned 1, d)
              else if match current_credentials_uuid E with
                      | None => true
                      | Some _ => false
                      end
                      && negb (report_format_predefined d report_format =? 0)
              then (Returned 99, d)
              else
                let d := apply_if (name q)
                           (fun n d => set_report_format_name
                                         E d report_format n) d in
                let d := apply_if (summary q)
                           (fun s d => set_report_format_summary
                                         E d report_format s) d in
                let d := apply_if (active q)
                           (fun a d => set_report_format_active
                                         E d report_format (strcmp a "0")) d in
                let d := apply_if (predefined q)
                           (fun p d => resource_set_predefined
                                         d report_format (strcmp p "0")) d in
                match param_name q with
                | Some pn =>
                    let '(ret, d) :=
                      set_report_format_param E d report_format pn
                                              (param_value q) in
                    let ret := if ret =? 1 then 3 else ret in
                    let ret := if ret =? 2 then 4 else ret in
                    (Returned ret, d)
                | None => (Returned 0, d)
                end
        end
  end.

End Modify.

(* ================================================================== *)
(** ** [apply_report_format] *)
(* ================================================================== *)

Module Compose.

Import Db Param.

(** A [gchar*] is an address; the strings [g_malloc] handed out live in
    [heap], in allocation order, and are never written again. *)
Definition gchar_p : Type := nat.

Record generator_run : Type := {
  run_report_format_id : string;
  run_xml_file : string;
  run_xml_dir : string;
  run_report_format_extra : string;
  run_output_file : string
}.

(** The state a call threads: the heap, the number of calls made so far
    that leave the process, and the calls of [run_report_format_script]. *)
Record world : Type := {
  heap : list string;
  clock : nat;
  runs : list generator_run
}.

(** The tables are only read.  [mkdtemp], [mkstemps] and [io_ok] give the
    outcome of the call made at a given value of the clock: the directory
    or file created ([None] when the call fails), and whether
    [print_report_xml_end] or [close] succeed.  [report_format_iterator]
    is as in [Verify.env]. *)
Record env : Type := {
  db : Db.t;
  acl : Acl.t;
  report_format_iterator : option string -> list report_format_row;
  mkdtemp : nat -> option string;
  mkstemps : nat -> string -> option string;
  io_ok : nat -> bool
}.

Definition deref (w : world) (p : gchar_p) : string := nth p (heap w) "".

Definition tick (w : world) : world :=
  {| heap := heap w; clock := S (clock w); runs := runs w |}.

(** The pieces of a string between commas. *)
Fixpoint split_comma (s : string) : list string :=
  match s with
  | EmptyString => [""]
  | String c t =>
      if Ascii.eqb c ","
      then "" :: split_comma t
      else match split_comma t with
           | h :: r => String c h :: r
           | [] => [String c ""]
           end
  end.

(** [g_strsplit (s, ",", -1)]: an empty vector for the empty string, else
    the pieces, each a fresh allocation. *)
Definition g_strsplit (w : world) (s : string) : list gchar_p * world :=
  let tokens := match s with EmptyString => [] | _ => split_comma s end in
  (seq (List.length (heap w)) (List.length tokens),
   {| heap := heap w ++ tokens; clock := clock w; runs := runs w |}).

(** [g_list_find_custom (list, data, strcmp) != NULL] *)
Definition g_list_find_custom (w : world) (l : list gchar_p) (data : gchar_p)
  : bool :=
  existsb (fun p => strcmp (deref w p) (deref w data) =? 0) l.

(** [g_list_remove]: drops the first element whose pointer is [data]. *)
Fixpoint g_list_remove (l : list gchar_p) (data : gchar_p) : list gchar_p :=
  match l with
  | [] => []
  | p :: t => if Nat.eqb p data then t else p :: g_list_remove t data
  end.

(** [report_format_active]: 1 if active, else 0; 0 without a row. *)
Definition report_format_active (d : Db.t) (report_format : Z) : Z :=
  match find_report_format d report_format with
  | Some r => if negb (Z.land (rf_flags r) 1 =? 0) then 1 else 0
  | None => 0
  end.

(** [report_format_extension] *)
Definition report_format_extension (d : Db.t) (report_format : Z)
  : option string :=
  match find_report_format d report_format with
  | Some r => Some (rf_extension r)
  | None => None
  end.

(** The value of the first param of type report format list. *)
Definition rf_dependencies_string (d : Db.t) (report_format : Z)
  : option string :=
  match find (fun p => (p_report_format p =? report_format)
                       && (p_type p
                           =? REPORT_FORMAT_PARAM_TYPE_REPORT_FORMAT_LIST))
             (report_format_params d) with
  | Some p => Some (p_value p)
  | None => None
  end.

Definition dquote : string := String "034" "".

(** [g_markup_escape_text] on the five markup characters. *)
Fixpoint xml_escape (s : string) : string :=
  match s with
  | EmptyString => ""
  | String c t =>
      (if Ascii.eqb c "&" then "&amp;"
       else if Ascii.eqb c "<" then "&lt;"
       else if Ascii.eqb c ">" then "&gt;"
       else if Ascii.eqb c "'" then "&apos;"
       else if Ascii.eqb c "034" then "&quot;"
       else String c "") +++ xml_escape t
  end.

(** One [<file>] element of the manifest.  The hash table [subreports] is
    kept as a list in insertion order; glib leaves the order of its
    iteration open. *)
Definition file_xml (E : env) (entry : string * string) : string :=
  let '(key, value) := entry in
  match report_format_iterator E (Some key) with
  | row :: _ =>
      "<file id=" +++ dquote +++ xml_escape key +++ dquote
      +++ " content_type=" +++ dquote
      +++ xml_escape (rf_content_type row) +++ dquote
      +++ " report_format_name=" +++ dquote
      +++ xml_escape (rf_name row) +++ dquote +++ ">"
      +++ xml_escape value +++ "</file>"
  | [] =>
      "<file id=" +++ dquote +++ xml_escape key +++ dquote +++ ">"
      +++ xml_escape value +++ "</file>"
  end.

Definition files_xml (E : env) (xml_dir : string)
    (subreports : list (string * string)) : string :=
  "<files>" +++ "<basedir>" +++ xml_escape xml_dir +++ "</basedir>"
  +++ String.concat "" (map (file_xml E) subreports) +++ "</files>".

Definition contains (subreports : list (string * string)) (key : string)
  : bool :=
  existsb (fun e => String.eqb (fst e) key) subreports.

(** From "Generate output file." to the end of the function.  The result
    of [run_report_format_script] is not looked at, so the call is only
    recorded.  When [mkstemps] fails, [close (-1)] fails as well. *)
Definition generate (E : env) (report_format : Z)
    (report_format_id xml_file xml_dir manifest : string) (w : world)
  : option string * world :=
  let out_file_ext := fmt_s (report_format_extension (db E) report_format) in
  let template :=
    xml_dir +++ "/" +++ report_format_id +++ "-XXXXXX." +++ out_file_ext in
  match mkstemps E (clock w) template with
  | None => (None, tick w)
  | Some output_file =>
      let w := tick w in
      if negb (io_ok E (clock w))
      then (None, tick (tick w))
      else
        let w := tick w in
        let w :=
          {| heap := heap w; clock := clock w;
             runs := runs w ++
                     [ {| run_report_format_id := report_format_id;
                          run_xml_file := xml_file;
                          run_xml_dir := xml_dir;
                          run_report_format_extra := manifest;
                          run_output_file := output_file |} ] |} in
        if io_ok E (clock w)
        then (Some output_file, tick w)
        else (None, tick w)
  end.

(** What the loop over the dependencies carries. *)
Record loop_state : Type := {
  ls_world : world;
  ls_used_rfps : list gchar_p;
  ls_subreports : list (string * string)
}.

(** The loop "Recursively create subreports for dependencies", over the
    pointers [g_strsplit] returned; [call] is the recursive call. *)
Fixpoint subreports_loop (E : env)
    (call : gchar_p -> string -> string -> list gchar_p -> world
            -> option (option string * list gchar_p * world))
    (deps : list gchar_p) (st : loop_state) : option loop_state :=
  match deps with
  | [] => Some st
  | current_rf_dependency :: rest =>
      let w := ls_world st in
      match mkdtemp E (clock w) with
      | None =>
          Some {| ls_world := tick w;
                  ls_used_rfps := ls_used_rfps st;
                  ls_subreports := ls_subreports st |}
      | Some subreport_dir =>
          let w := tick w in
          let subreport_xml := subreport_dir +++ "/report.xml" in
          if contains (ls_subreports st) (deref w current_rf_dependency)
          then subreports_loop E call rest
                 {| ls_world := w;
                    ls_used_rfps := ls_used_rfps st;
                    ls_subreports := ls_subreports st |}
          else
            match call current_rf_dependency subreport_xml subreport_dir
                       (ls_used_rfps st) w with
            | None => None
            | Some (subreport_file, used_rfps, w) =>
                subreports_loop E call rest
                  {| ls_world := w;
                     ls_used_rfps := used_rfps;
                     ls_subreports :=
                       match subreport_file with
                       | Some file =>
                           ls_subreports st
                           ++ [(deref w current_rf_dependency, file)]
                       | None => ls_subreports st
                       end |}
            end
      end
  end.

(** [apply_report_format (report_format_id, xml_start, xml_file, xml_dir,
    used_rfps)].  [fuel] bounds the depth of the recursion; [None] means
    the bound was reached.  Otherwise the result is the returned path
    ([None] for [NULL]), the list [*used_rfps] and the world.  [xml_start]
    is passed on unchanged and read only by [print_report_xml_end]. *)
Fixpoint apply_report_format (fuel : nat) (E : env)
    (report_format_id : gchar_p) (xml_file xml_dir : string)
    (used_rfps : list gchar_p) (w : world)
  : option (option string * list gchar_p * world) :=
  match fuel with
  | O => None
  | S fuel' =>
      let id := deref w report_format_id in
      if g_list_find_custom w used_rfps report_format_id
      then Some (None, used_rfps, w)
      else
        let '(failed, report_format) :=
          Acl.find_report_format_with_permission
            (acl E) (db E) id "get_report_formats" in
        if failed || (report_format =? 0) then Some (None, used_rfps, w)
        else if report_format_active (db E) report_format =? 0
        then Some (None, used_rfps, w)
        else
          match rf_dependencies_string (db E) report_format with
          | Some dependencies =>
              let used_rfps := used_rfps ++ [report_format_id] in
              let '(rf_dependencies, w) := g_strsplit w dependencies in
              match subreports_loop E (apply_report_format fuel' E)
                      rf_dependencies
                      {| ls_world := w;
                         ls_used_rfps := used_rfps;
                         ls_subreports := [] |} with
              | None => None
              | Some st =>
                  let used_rfps :=
                    g_list_remove (ls_used_rfps st) report_format_id in
                  let '(output_file, w) :=
                    generate E report_format id xml_file xml_dir
                             (files_xml E xml_dir (ls_subreports st))
                             (ls_world st) in
                  Some (output_file, used_rfps, w)
              end
          | None =>
              let '(output_file, w) :=
                generate E report_format id xml_file xml_dir
                         (files_xml E xml_dir []) w in
              Some (output_file, used_rfps, w)
          end
  end.

End Compose.

(* ================================================================== *)
(** ** The feed: [check_report_format] and [check_db_report_formats] *)
(* ================================================================== *)

Module Feed.

Import Db Param Sql.

(** A parsed XML element, [entity_t] of gvm-libs: its name, its text, its
    attributes and its children in document order. *)
#[warnings="-register-all"]
Inductive entity : Type :=
| Entity (name text : string) (attributes : list (string * string))
         (entities : list entity).

Definition entity_name (e : entity) : string :=
  match e with Entity name _ _ _ => name end.

Definition entity_text (e : entity) : string :=
  match e with Entity _ text _ _ => text end.

Definition entity_entities (e : entity) : list entity :=
  match e with Entity _ _ _ entities => entities end.

(** [entity_child]: the first child of that name. *)
Definition entity_child (e : entity) (name : string) : option entity :=
  find (fun c => String.eqb (entity_name c) name) (entity_entities e).

(** [entity_attribute] *)
Definition entity_attribute (e : entity) (name : string) : option string :=
  match e with
  | Entity _ _ attributes _ =>
      match find (fun a => String.eqb (fst a) name) attributes with
      | Some a => Some (snd a)
      | None => None
      end
  end.

(** [g_strstrip]: drops leading and trailing white space. *)
Definition g_strstrip (s : string) : string :=
  string_of_list_ascii
    (rev (Signature.drop_while isspace
            (rev (Signature.drop_while isspace (list_ascii_of_string s))))).

(** [sql_integer] is the number the database reads from the text of a
    bound pasted into a statement; [time_now] and [m_now] are the clocks
    of the process and of the database. *)
Record env : Type := {
  sql_integer : string -> Z;
  time_now : Z;
  m_now : Z
}.

(** The tables together with the two temporary tables of the walk. *)
Record state : Type := {
  tables : Db.t;
  report_formats_check : list report_format_row;
  report_format_params_check : list param_row
}.

Definition with_tables (s : state) (d : Db.t) : state :=
  {| tables := d;
     report_formats_check := report_formats_check s;
     report_format_params_check := report_format_params_check s |}.

(** [(SELECT id FROM report_formats WHERE uuid = '%s')] as a value. *)
Definition uuid_id (d : Db.t) (uuid : string) : option Z :=
  match find_report_format_by_uuid d uuid with
  | Some r => Some (rf_id r)
  | None => None
  end.

(** [report_format = (SELECT id FROM report_formats WHERE uuid = '%s')] *)
Definition of_uuid (d : Db.t) (uuid : string) (report_format : Z) : bool :=
  sql_eq_int (Some report_format) (uuid_id d uuid).

(** SQL [a != b] as a condition: unknown, hence false, when either side is
    [NULL]. *)
Definition sql_neq_int (a b : option Z) : bool :=
  match a, b with
  | Some x, Some y => negb (x =? y)
  | _, _ => false
  end.

Definition text_neq (a b : string) : bool := negb (String.eqb a b).

(** The comparison of a row with its copy in [report_formats_check]. *)
Definition format_differs (r c : report_format_row) : bool :=
  sql_neq_int (rf_owner r) (rf_owner c)
  || text_neq (rf_name r) (rf_name c)
  || text_neq (rf_summary r) (rf_summary c)
  || text_neq (rf_description r) (rf_description c)
  || text_neq (rf_extension r) (rf_extension c)
  || text_neq (rf_content_type r) (rf_content_type c)
  || negb (rf_trust r =? rf_trust c)
  || negb (rf_flags r =? rf_flags c).

(** The comparison of a param with its copy in
    [report_format_params_check]. *)
Definition param_differs (p c : param_row) : bool :=
  negb (p_type p =? p_type c)
  || text_neq (p_value p) (p_value c)
  || sql_neq_int (p_type_min p) (p_type_min c)
  || sql_neq_int (p_type_max p) (p_type_max c)
  || text_neq (p_fallback p) (p_fallback c).

(** [check_report_format_create].  The grants to the built-in roles go to
    a table no function embedded here reads and are left out. *)
Definition check_report_format_create (E : env) (uuid name summary
    description extension content_type : string) (s : state)
  : Z * state :=
  let d := tables s in
  let d :=
    if existsb (fun r => String.eqb (rf_uuid r) uuid) (report_formats d)
    then
      let d :=
        update_report_formats d (fun r => String.eqb (rf_uuid r) uuid)
          (fun r =>
             {| rf_id := rf_id r;
                rf_uuid := rf_uuid r;
                rf_name := g_strstrip name;
                rf_owner := None;
                rf_summary := g_strstrip summary;
                rf_description := g_strstrip description;
                rf_extension := g_strstrip extension;
                rf_content_type := g_strstrip content_type;
                rf_signature := "";
                rf_trust := TRUST_YES;
                rf_trust_time := time_now E;
                rf_flags := 1;
                rf_creation_time := rf_creation_time r;
                rf_modification_time := rf_modification_time r |}) in
      update_report_formats d
        (fun r => String.eqb (rf_uuid r) uuid
                  && existsb (fun c => (rf_id r =? rf_id c)
                                       && format_differs r c)
                             (report_formats_check s))
        (set_modification_time (m_now E))
    else
      let id := report_formats_seq d + 1 in
      {| report_formats :=
           report_formats d ++
           [ {| rf_id := id;
                rf_uuid := uuid;
                rf_name := g_strstrip name;
                rf_owner := None;
                rf_summary := g_strstrip summary;
                rf_description := g_strstrip description;
                rf_extension := g_strstrip extension;
                rf_content_type := g_strstrip content_type;
                rf_signature := "";
                rf_trust := TRUST_YES;
                rf_trust_time := time_now E;
                rf_flags := 1;
                rf_creation_time := m_now E;
                rf_modification_time := m_now E |} ];
         report_format_params := report_format_params d;
         report_format_param_options := report_format_param_options d;
         report_formats_trash_original_uuids :=
           report_formats_trash_original_uuids d;
         resources_predefined := resources_predefined d;
         users := users d;
         report_formats_seq := id;
         report_format_params_seq := report_format_params_seq d;
         report_format_param_options_seq :=
           report_format_param_options_seq d |} in
  match uuid_id d uuid with
  | Some report_format =>
      (0, with_tables s (Modify.resource_set_predefined d report_format 1))
  | None => (-1, with_tables s d)
  end.

(** A [min] or [max] element under [type]: taken when present with a text,
    and then it has to parse to the end and inside the range. *)
Definition read_bound (type_entity : entity) (which : string)
  : early (option string) :=
  match entity_child type_entity which with
  | Some bound =>
      if 0 <? strlen (entity_text bound) then
        let '(number, rest) := strtoll_end (entity_text bound) in
        if negb (String.eqb rest "") || (number =? LLONG_MAX)
           || (number =? LLONG_MIN)
        then inl (-1)
        else inr (Some (entity_text bound))
      else inr None
  | None => inr None
  end.

(** What the loop of [check_report_format_add_params] reads from one
    [param] element before it touches the tables. *)
Record read_param : Type := {
  rp_name : string;
  rp_fallback : string;
  rp_type : string;
  rp_min : option string;
  rp_max : option string;
  rp_opts : option (list string);
  rp_value : string
}.

Definition required (child : option entity) : early entity :=
  match child with
  | Some c => inr c
  | None => inl (-1)
  end.

Definition read_param_entity (param : entity) : early read_param :=
  name_child <- required (entity_child param "name") ;;
  default_child <- required (entity_child param "default") ;;
  type_child <- required (entity_child param "type") ;;
  let type := g_strstrip (entity_text type_child) in
  if report_format_param_type_from_name type
     =? REPORT_FORMAT_PARAM_TYPE_ERROR
  then inl (-1)
  else if negb (strcmp type "report_format_list" =? 0) then
    min <- read_bound type_child "min" ;;
    max <- read_bound type_child "max" ;;
    opts <- (if strcmp type "selection" =? 0
             then options <- required (entity_child type_child "options") ;;
                  inr (Some (map entity_text (entity_entities options)))
             else inr None) ;;
    value_child <- required (entity_child param "value") ;;
    inr {| rp_name := entity_text name_child;
           rp_fallback := entity_text default_child;
           rp_type := type;
           rp_min := min;
           rp_max := max;
           rp_opts := opts;
           rp_value := entity_text value_child |}
  else
    value_child <- required (entity_child param "value") ;;
    report_format <- required (entity_child value_child "report_format") ;;
    match entity_attribute report_format "id" with
    | None => inl (-1)
    | Some value =>
        inr {| rp_name := entity_text name_child;
               rp_fallback := entity_text default_child;
               rp_type := type;
               rp_min := None;
               rp_max := None;
               rp_opts := None;
               rp_value := value |}
    end.

Definition sql_bound (E : env) (bound : option string) : option Z :=
  match bound with
  | Some text => Some (sql_integer E text)
  | None => None
  end.

(** The statements of the loop for one param that was read: "Add or update
    the param", "Keep this param", "Add any options".  The result is the
    new state and whether [*update_mod_time] was set. *)
Definition store_param (E : env) (uuid : string) (rp : read_param)
    (s : state) : state * bool :=
  let d := tables s in
  let quoted_name := g_strstrip (rp_name rp) in
  let quoted_value := g_strstrip (rp_value rp) in
  let quoted_fallback := g_strstrip (rp_fallback rp) in
  let this (p : param_row) : bool :=
    String.eqb (p_name p) quoted_name
    && of_uuid d uuid (p_report_format p) in
  let '(d, changed) :=
    if existsb this (report_format_params d) then
      let d :=
        update_params d this
          (fun p =>
             {| p_id := p_id p;
                p_report_format := p_report_format p;
                p_name := p_name p;
                p_type := report_format_param_type_from_name (rp_type rp);
                p_value := quoted_value;
                p_type_min := sql_bound E (rp_min rp);
                p_type_max := sql_bound E (rp_max rp);
                p_type_regex := "";
                p_fallback := quoted_fallback |}) in
      let changed :=
        existsb
          (fun p =>
             existsb
               (fun c => String.eqb (p_name p) quoted_name
                         && String.eqb (p_name c) quoted_name
                         && (p_report_format p =? p_report_format c)
                         && param_differs p c)
               (report_format_params_check s))
          (report_format_params d) in
      let ids := map p_id (filter this (report_format_params d)) in
      (with_options d
         (filter (fun o => negb (existsb (Z.eqb (o_report_format_param o))
                                         ids))
                 (report_format_param_options d)),
       changed)
    else
      let id := report_format_params_seq d + 1 in
      ({| report_formats := report_formats d;
          report_format_params :=
            report_format_params d ++
            [ {| p_id := id;
                 p_report_format := cell_int64 (uuid_id d uuid);
                 p_name := quoted_name;
                 p_type := report_format_param_type_from_name (rp_type rp);
                 p_value := quoted_value;
                 p_type_min := sql_bound E (rp_min rp);
                 p_type_max := sql_bound E (rp_max rp);
                 p_type_regex := "";
                 p_fallback := quoted_fallback |} ];
          report_format_param_options := report_format_param_options d;
          report_formats_trash_original_uuids :=
            report_formats_trash_original_uuids d;
          resources_predefined := resources_predefined d;
          users := users d;
          report_formats_seq := report_formats_seq d;
          report_format_params_seq := id;
          report_format_param_options_seq :=
            report_format_param_options_seq d |},
       true) in
  let check :=
    filter (fun c => negb (of_uuid d uuid (p_report_format c)
                           && String.eqb (p_name c) quoted_name))
           (report_format_params_check s) in
  let d :=
    match rp_opts rp with
    | Some opts =>
        match find (fun p => String.eqb (p_name p) quoted_name
                             && of_uuid d uuid (p_report_format p))
                   (report_format_params d) with
        | Some p =>
            fold_left (fun d o => Create.insert_option d (p_id p) o) opts d
        | None => d
        end
    | None => d
    end in
  ({| tables := d;
      report_formats_check := report_formats_check s;
      report_format_params_check := check |},
   changed).

(** [check_report_format_add_params]: the loop over the children of the
    descriptor.  A [return -1] leaves what earlier rounds stored. *)
Fixpoint check_report_format_add_params (E : env) (uuid : string)
    (entities : list entity) (s : state) (update_mod_time : bool)
  : Z * state * bool :=
  match entities with
  | [] => (0, s, update_mod_time)
  | param :: rest =>
      if strcmp (entity_name param) "param" =? 0 then
        match read_param_entity param with
        | inl code => (code, s, update_mod_time)
        | inr rp =>
            let '(s, changed) := store_param E uuid rp s in
            check_report_format_add_params E uuid rest s
              (update_mod_time || changed)
        end
      else check_report_format_add_params E uuid rest s update_mod_time
  end.

(** [check_report_format_parse] *)
Definition check_report_format_parse (e : entity)
  : early (string * string * string * string * string) :=
  name <- required (entity_child e "name") ;;
  summary <- required (entity_child e "summary") ;;
  description <- required (entity_child e "description") ;;
  extension <- required (entity_child e "extension") ;;
  content_type <- required (entity_child e "content_type") ;;
  inr (entity_text name, entity_text summary, entity_text description,
       entity_text extension, entity_text content_type).

(** [check_report_format (uuid)].  [descriptor] is the parsed file
    [report_format.xml] of the directory, [None] when the file cannot be
    read or parsed. *)
Definition check_report_format (E : env) (uuid : string)
    (descriptor : option entity) (s : state) : Z * state :=
  match descriptor with
  | None => (-1, s)
  | Some e =>
      match check_report_format_parse e with
      | inl code => (code, s)
      | inr (name, summary, description, extension, content_type) =>
          let '(ret, s) :=
            check_report_format_create E uuid name summary description
                                       extension content_type s in
          if negb (ret =? 0) then (-1, s)
          else
            let '(ret, s, update_mod_time) :=
              check_report_format_add_params E uuid (entity_entities e) s
                                             false in
            if negb (ret =? 0) then (-1, s)
            else
              let d := tables s in
              let stale :=
                filter (fun c => of_uuid d uuid (p_report_format c))
                       (report_format_params_check s) in
              let '(d, update_mod_time) :=
                match stale with
                | [] => (d, update_mod_time)
                | _ =>
                    let ids := map p_id stale in
                    (with_params
                       (with_options d
                          (filter
                             (fun o => negb (existsb
                                               (Z.eqb (o_report_format_param o))
                                               ids))
                             (report_format_param_options d)))
                       (filter (fun p => negb (existsb (Z.eqb (p_id p)) ids))
                               (report_format_params d)),
                     true)
                end in
              let d :=
                if update_mod_time
                then update_report_formats d
                       (fun r => String.eqb (rf_uuid r) uuid)
                       (set_modification_time (m_now E))
                else d in
              (0, {| tables := d;
                     report_formats_check :=
                       filter (fun c => negb (String.eqb (rf_uuid c) uuid))
                              (report_formats_check s);
                     report_format_params_check :=
                       report_format_params_check s |})
      end
  end.

(** The walk over the directory of predefined formats; the result of
    [check_report_format] is not looked at. *)
Fixpoint walk (E : env) (dir : list (string * option entity)) (s : state)
  : state :=
  match dir with
  | [] => s
  | (report_format_path, descriptor) :: rest =>
      walk E rest (snd (check_report_format E report_format_path
                                            descriptor s))
  end.

(** [check_db_report_formats] from "Remember existing global report
    formats" to the end: the two temporary tables are filled, the
    directory is walked, and what is left in [report_formats_check] is
    removed from the tables.  The steps in front of it (the check of the
    trash directory and the upkeep of old and duplicate UUIDs) have run;
    [dir] lists the entries of the directory in the order
    [g_dir_read_name] gives them. *)
Definition check_db_report_formats (E : env)
    (dir : list (string * option entity)) (d : Db.t) : Db.t :=
  let global (r : report_format_row) : bool :=
    match rf_owner r with None => true | Some _ => false end in
  let s :=
    walk E dir
      {| tables := d;
         report_formats_check := filter global (report_formats d);
         report_format_params_check :=
           filter (fun p => existsb (fun r => global r
                                              && (rf_id r =? p_report_format p))
                                    (report_formats d))
                  (report_format_params d) |} in
  let d := tables s in
  let gone_uuid (uuid : string) : bool :=
    existsb (fun c => String.eqb (rf_uuid c) uuid) (report_formats_check s) in
  let gone_ids :=
    map rf_id (filter (fun r => gone_uuid (rf_uuid r)) (report_formats d)) in
  let gone_params :=
    map p_id (filter (fun p => existsb (Z.eqb (p_report_format p)) gone_ids)
                     (report_format_params d)) in
  {| report_formats :=
       filter (fun r => negb (gone_uuid (rf_uuid r))) (report_formats d);
     report_format_params :=
       filter (fun p => negb (existsb (Z.eqb (p_report_format p)) gone_ids))
              (report_format_params d);
     report_format_param_options :=
       filter (fun o => negb (existsb (Z.eqb (o_report_format_param o))
                                      gone_params))
              (report_format_param_options d);
     report_formats_trash_original_uuids :=
       report_formats_trash_original_uuids d;
     resources_predefined :=
       filter (fun x => negb (existsb (fun c => rf_id c =? x)
                                      (report_formats_check s)))
              (resources_predefined d);
     users := users d;
     report_formats_seq := report_formats_seq d;
     report_format_params_seq := report_format_params_seq d;
     report_format_param_options_seq := report_format_param_options_seq d |}.

End Feed.

(* ================================================================== *)
(** ** Concrete requests and tables, used to run the definitions *)
(* ================================================================== *)

Module Sample.

Import Db.

(** A feed that holds a signature for one format. *)
Definition trees : Signature.trees :=
  {| Signature.feed_file :=
       fun location base =>
         if String.eqb base "c402cc3e.asc"
         then Signature.ReadOk "feed-signature"
         else Signature.ReadNoent;
     Signature.private_file := fun _ _ => Signature.ReadNoent;
     Signature.private_realpath := fun _ _ => None |}.

(** A feed and a private tree without any signature. *)
Definition no_trees : Signature.trees :=
  {| Signature.feed_file := fun _ _ => Signature.ReadNoent;
     Signature.private_file := fun _ _ => Signature.ReadNoent;
     Signature.private_realpath := fun _ _ => None |}.

(** A verifier that runs and accepts. *)
Definition verifier : Verifier.env :=
  {| Verifier.mkstemp_installer := Some "/tmp/gvmd-installer-a1b2c3";
     Verifier.installer_written := true;
     Verifier.mkstemp_signature := Some "/tmp/gvmd-signature-d4e5f6";
     Verifier.signature_written := true;
     Verifier.g_spawn_sync := fun _ _ => Verifier.SpawnReturned 0;
     Verifier.stale_exit_status := 0 |}.

Definition create_env (T : Signature.trees) : Create.env :=
  {| Create.NDEBUG := false;
     Create.current_credentials_uuid := Some "user-1";
     Create.trees := T;
     Create.verifier := verifier;
     Create.acl_user_may := fun _ => true;
     Create.acl_user_can_everything := fun _ => false;
     Create.gvm_uuid_make := Some "fresh-uuid";
     Create.feed_signature_realpath := true;
     Create.private_signature_lstat := false;
     Create.dir_exists := false;
     Create.io_ok := fun _ => true;
     Create.time_now := 1600000000;
     Create.m_now := 1600000000 |}.

Definition integer_param (min : option string) : Create.create_report_format_param_t :=
  {| Create.fallback := Some "5";
     Create.name := "depth";
     Create.type := Some "integer";
     Create.type_max := Some "10";
     Create.type_min := min;
     Create.value := "3" |}.

Definition create_request (signature : option string)
    (params : list Create.create_report_format_param_t) : Create.request :=
  {| Create.uuid := "c402cc3e";
     Create.req_name := "PDF";
     Create.content_type := Some "application/pdf";
     Create.extension := Some "pdf";
     Create.summary := Some "Portable Document Format";
     Create.description := None;
     Create.global := 0;
     Create.files :=
       Create.terminated [("generate", "IyEvYmluL3No"); ("a.xsl", "PHhzbD4=")];
     Create.params := params;
     Create.params_options := map (fun _ => Some []) params;
     Create.signature := signature |}.

Definition empty_db : Db.t :=
  {| report_formats := [];
     report_format_params := [];
     report_format_param_options := [];
     report_formats_trash_original_uuids := [];
     resources_predefined := [];
     users := [ {| u_id := 1; u_uuid := "user-1" |} ];
     report_formats_seq := 0;
     report_format_params_seq := 0;
     report_format_param_options_seq := 0 |}.

Definition stored_row (signature : string) : report_format_row :=
  {| rf_id := 1;
     rf_uuid := "c402cc3e";
     rf_name := "PDF";
     rf_owner := Some 1;
     rf_summary := "Portable Document Format";
     rf_description := "";
     rf_extension := "pdf";
     rf_content_type := "application/pdf";
     rf_signature := signature;
     rf_trust := TRUST_UNKNOWN;
     rf_trust_time := 1500000000;
     rf_flags := 1;
     rf_creation_time := 1500000000;
     rf_modification_time := 1500000000 |}.

Definition one_format_db (row : report_format_row) (predefined : list Z)
  : Db.t :=
  {| report_formats := [row];
     report_format_params := [];
     report_format_param_options := [];
     report_formats_trash_original_uuids := [];
     resources_predefined := predefined;
     users := [ {| u_id := 1; u_uuid := "user-1" |} ];
     report_formats_seq := 1;
     report_format_params_seq := 0;
     report_format_param_options_seq := 0 |}.


Definition modify_env (user : option string) (ndebug : bool) : Modify.env :=
  {| Modify.NDEBUG := ndebug;
     Modify.current_credentials_uuid := user;
     Modify.acl :=
       {| Acl.acl_user_may := fun _ => true;
          Acl.acl_user_has_access_uuid := fun _ _ => true;
          Acl.find_fails := fun _ => false |};
     Modify.g_base64_decode := fun s => s;
     Modify.m_now := 1600000000 |}.

Definition rename_request : Modify.request :=
  {| Modify.report_format_id := Some "c402cc3e";
     Modify.name := Some "Renamed";
     Modify.summary := None;
     Modify.active := None;
     Modify.param_name := None;
     Modify.param_value := None;
     Modify.predefined := None |}.

Definition predefined_row : report_format_row :=
  {| rf_id := 1;
     rf_uuid := "c402cc3e";
     rf_name := "PDF";
     rf_owner := None;
     rf_summary := "Portable Document Format";
     rf_description := "";
     rf_extension := "pdf";
     rf_content_type := "application/pdf";
     rf_signature := "";
     rf_trust := TRUST_YES;
     rf_trust_time := 1500000000;
     rf_flags := 1;
     rf_creation_time := 1500000000;
     rf_modification_time := 1500000000 |}.

Definition format_row (id : Z) (uuid name : string) : report_format_row :=
  {| rf_id := id;
     rf_uuid := uuid;
     rf_name := name;
     rf_owner := Some 1;
     rf_summary := "";
     rf_description := "";
     rf_extension := "xml";
     rf_content_type := "text/xml";
     rf_signature := "";
     rf_trust := TRUST_UNKNOWN;
     rf_trust_time := 1500000000;
     rf_flags := 1;
     rf_creation_time := 1500000000;
     rf_modification_time := 1500000000 |}.

Definition list_param (id report_format : Z) (dependencies : string)
  : param_row :=
  {| p_id := id;
     p_report_format := report_format;
     p_name := "subreports";
     p_type := Param.REPORT_FORMAT_PARAM_TYPE_REPORT_FORMAT_LIST;
     p_value := dependencies;
     p_type_min := Some CLib.LLONG_MIN;
     p_type_max := Some CLib.LLONG_MAX;
     p_type_regex := "";
     p_fallback := "" |}.

(** Format A embeds B and C, and B embeds A. *)
Definition cyclic_db : Db.t :=
  {| report_formats :=
       [format_row 1 "A" "Alpha"; format_row 2 "B" "Beta";
        format_row 3 "C" "Gamma"];
     report_format_params := [list_param 1 1 "B,C"; list_param 2 2 "A"];
     report_format_param_options := [];
     report_formats_trash_original_uuids := [];
     resources_predefined := [];
     users := [ {| u_id := 1; u_uuid := "user-1" |} ];
     report_formats_seq := 3;
     report_format_params_seq := 2;
     report_format_param_options_seq := 0 |}.

Definition compose_env : Compose.env :=
  {| Compose.db := cyclic_db;
     Compose.acl :=
       {| Acl.acl_user_may := fun _ => true;
          Acl.acl_user_has_access_uuid := fun _ _ => true;
          Acl.find_fails := fun _ => false |};
     Compose.report_format_iterator :=
       fun id =>
         match id with
         | Some uuid =>
             filter (fun r => String.eqb (rf_uuid r) uuid)
                    (report_formats cyclic_db)
         | None => report_formats cyclic_db
         end;
     Compose.mkdtemp := fun n => Some ("/tmp/gvmd_" +++ CLib.fmt_u n);
     Compose.mkstemps := fun _ template => Some template;
     Compose.io_ok := fun _ => true |}.

(** The caller holds the string "A" at address 0. *)
Definition compose_world : Compose.world :=
  {| Compose.heap := ["A"]; Compose.clock := 0%nat; Compose.runs := [] |}.

(** A caller in the middle of a composition: the format "Z" is in
    progress, its id at address 1. *)
Definition compose_world_in_progress : Compose.world :=
  {| Compose.heap := ["A"; "Z"]; Compose.clock := 0%nat; Compose.runs := [] |}.

Definition generator_run (id dir manifest : string) : Compose.generator_run :=
  {| Compose.run_report_format_id := id;
     Compose.run_xml_file := dir +++ "/report.xml";
     Compose.run_xml_dir := dir;
     Compose.run_report_format_extra := manifest;
     Compose.run_output_file := dir +++ "/" +++ id +++ "-XXXXXX.xml" |}.

(** The world after composing "A" from there. *)
Definition compose_world_after : Compose.world :=
  {| Compose.heap := ["A"; "Z"; "B"; "C"; "A"];
     Compose.clock := 12%nat;
     Compose.runs :=
       [generator_run "B" "/tmp/gvmd_0"
          "<files><basedir>/tmp/gvmd_0</basedir></files>";
        generator_run "C" "/tmp/gvmd_5"
          "<files><basedir>/tmp/gvmd_5</basedir></files>";
        generator_run "A" "/tmp/r"
          (Compose.files_xml compose_env "/tmp/r"
             [("B", "/tmp/gvmd_0/B-XXXXXX.xml");
              ("C", "/tmp/gvmd_5/C-XXXXXX.xml")])] |}.

End Sample.

(* ================================================================== *)
(** ** Descriptors as the feed writes them *)
(* ================================================================== *)

Module Descriptor.

Import Db Param Feed.

(** A [param] element of [report_format.xml]. *)
Record param : Type := {
  dp_name : string;
  dp_default : string;
  dp_type : string;
  dp_min : option string;
  dp_max : option string;
  dp_options : list string;
  dp_value : string
}.

(** A descriptor, with the name of the directory it lies in. *)
Record t : Type := {
  ds_uuid : string;
  ds_name : string;
  ds_summary : string;
  ds_description : string;
  ds_extension : string;
  ds_content_type : string;
  ds_params : list param
}.

Definition leaf (name text : string) : entity := Entity name text [] [].

Definition bound_entities (which : string) (bound : option string)
  : list entity :=
  match bound with
  | Some text => [leaf which text]
  | None => []
  end.

Definition is_list_type (dp : param) : bool :=
  String.eqb (g_strstrip (dp_type dp)) "report_format_list".

Definition is_selection_type (dp : param) : bool :=
  String.eqb (g_strstrip (dp_type dp)) "selection".

(** The element tree of a param: bounds and options nest under [type], a
    report format list carries its value in [value/report_format/@id]. *)
Definition param_entity (dp : param) : entity :=
  if is_list_type dp then
    Entity "param" "" []
      [leaf "name" (dp_name dp);
       leaf "default" (dp_default dp);
       leaf "type" (dp_type dp);
       Entity "value" "" []
         [Entity "report_format" "" [("id", dp_value dp)] []]]
  else
    Entity "param" "" []
      [leaf "name" (dp_name dp);
       leaf "default" (dp_default dp);
       Entity "type" (dp_type dp) []
         (bound_entities "min" (dp_min dp)
          ++ bound_entities "max" (dp_max dp)
          ++ (if is_selection_type dp
              then [Entity "options" "" []
                      (map (leaf "option") (dp_options dp))]
              else []));
       leaf "value" (dp_value dp)].

(** The element tree of a descriptor. *)
Definition entity_of (ds : t) : entity :=
  Entity "report_format" "" [("id", ds_uuid ds)]
    ([leaf "name" (ds_name ds);
      leaf "summary" (ds_summary ds);
      leaf "description" (ds_description ds);
      leaf "extension" (ds_extension ds);
      leaf "content_type" (ds_content_type ds)]
     ++ map param_entity (ds_params ds)).

(** The directory of predefined formats holding these descriptors. *)
Definition directory (descriptors : list t)
  : list (string * option entity) :=
  map (fun ds => (ds_uuid ds, Some (entity_of ds))) descriptors.














(** Whether the default of a param changed, as stored. *)
Definition default_changed (ab : param * param) : bool :=
  text_neq (g_strstrip (dp_default (snd ab)))
           (g_strstrip (dp_default (fst ab))).

(** Whether a default of a descriptor changed. *)
Definition defaults_changed (ab : t * t) : bool :=
  existsb default_changed (combine (ds_params (fst ab)) (ds_params (snd ab))).


(** The same param with another default. *)
Definition with_default (dp : param) (default : string) : param :=
  {| dp_name := dp_name dp;
     dp_default := default;
     dp_type := dp_type dp;
     dp_min := dp_min dp;
     dp_max := dp_max dp;
     dp_options := dp_options dp;
     dp_value := dp_value dp |}.

Definition with_params (ds : t) (params : list param) : t :=
  {| ds_uuid := ds_uuid ds;
     ds_name := ds_name ds;
     ds_summary := ds_summary ds;
     ds_description := ds_description ds;
     ds_extension := ds_extension ds;
     ds_content_type := ds_content_type ds;
     ds_params := params |}.


(** What the claims compare: the id, the UUID and the modification time
    of each row, in table order. *)
Definition stamps (d : Db.t) : list (Z * string * Z) :=
  map (fun r => (rf_id r, rf_uuid r, rf_modification_time r))
      (report_formats d).











End Descriptor.

(* ================================================================== *)
(** ** A feed directory the examples run on *)
(* ================================================================== *)

Module FeedSample.

Import Db Feed Descriptor.

(** The walk at time 100 and at time 200; the database reads the text of
    a bound as [strtoll] does. *)
Definition first_env : env :=
  {| sql_integer := strtoll; time_now := 100; m_now := 100 |}.

Definition second_env : env :=
  {| sql_integer := strtoll; time_now := 200; m_now := 200 |}.

Definition depth : param :=
  {| dp_name := "depth"; dp_default := "5"; dp_type := "integer";
     dp_min := Some "0"; dp_max := Some "10"; dp_options := [];
     dp_value := "3" |}.

Definition mode : param :=
  {| dp_name := "mode"; dp_default := "a"; dp_type := "selection";
     dp_min := None; dp_max := None; dp_options := ["a"; "b"];
     dp_value := "b" |}.

Definition alpha : t :=
  {| ds_uuid := "A"; ds_name := " Alpha "; ds_summary := "s";
     ds_description := "d"; ds_extension := "xml";
     ds_content_type := "text/xml"; ds_params := [depth; mode] |}.

Definition beta : t :=
  {| ds_uuid := "B"; ds_name := "Beta"; ds_summary := "s";
     ds_description := "d"; ds_extension := "xml";
     ds_content_type := "text/xml"; ds_params := [depth] |}.


(** The tables after the first walk over [alpha] and [beta]. *)
Definition stored_db : Db.t :=
  Eval vm_compute in
    check_db_report_formats first_env (directory [alpha; beta])
                            Sample.empty_db.


End FeedSample.

(* ================================================================== *)
(** ** Notions the statements below use *)
(* ================================================================== *)

Module Notions.

Import Db Compose.

(** The order [compare_files] sorts by. *)
Definition files_le (x y : option Create.file_t) : Prop :=
  Create.compare_files x y <= 0.










(** Rows refer to ids their sequences have given out. *)
Definition tables_consistent (d : Db.t) : Prop :=
  Forall (fun p => p_report_format p <= report_formats_seq d)
         (report_format_params d)
  /\ Forall (fun o => o_report_format_param o <= report_format_params_seq d)
            (report_format_param_options d).




(** A numbered candidate. *)
Definition numbered (name : string) (num : nat) : string :=
  name +++ " " +++ fmt_u num.


End Notions.

(* ================================================================== *)
(** ** Values of a report format list *)
(* ================================================================== *)

Module ListValue.

Import Param.

(** Every character is of the class [[[:alnum:]-_]]. *)
Definition class_string (s : string) : Prop :=
  forall c, In c (list_ascii_of_string s) -> list_class c = true.

(** The tokens, each after a comma. *)
Fixpoint join_tokens (rest : list string) : string :=
  match rest with
  | [] => ""
  | token :: rest' => "," +++ token +++ join_tokens rest'
  end.


End ListValue.

(* ================================================================== *)
(** ** Runs of generators *)
(* ================================================================== *)

Module ComposeNotions.

Import Compose.

(** A run of the generator of a report format that the caller may read
    and that is active. *)
Definition run_allowed (E : env) (run : generator_run) : Prop :=
  exists report_format,
    Acl.find_report_format_with_permission
      (acl E) (db E) (run_report_format_id run) "get_report_formats"
    = (false, report_format)
    /\ report_format <> 0
    /\ report_format_active (db E) report_format <> 0.

(** The runs a call added are all of that kind. *)
Definition adds_allowed_runs (E : env) (w w' : world) : Prop :=
  exists added,
    runs w' = runs w ++ added /\ Forall (run_allowed E) added.

End ComposeNotions.

(* ================================================================== *)
(** ** [check_db_report_formats]: what the walk leaves alone *)
(* ================================================================== *)

Module FeedNotions.

Import Db Feed.

(** The rows of another UUID, in table order. *)
Definition others (uuid : string) (rows : list report_format_row)
  : list report_format_row :=
  filter (fun r => negb (String.eqb (rf_uuid r) uuid)) rows.



End FeedNotions.

(* ================================================================== *)
(** ** Rows and file names shared by the functions below *)
(* ================================================================== *)

Module Rows.

Import Db.

(** A row of [alert_method_data], as far as this file touches it. *)
Record alert_method_data_row : Type := {
  amd_alert : Z;
  amd_name : string;
  amd_data : string
}.

(** A file name as the list of the elements handed to
    [g_build_filename]. *)
Definition path : Type := list string.

Definition set_id (new_id : Z) (r : report_format_row)
  : report_format_row :=
  {| rf_id := new_id; rf_uuid := rf_uuid r; rf_name := rf_name r;
     rf_owner := rf_owner r; rf_summary := rf_summary r;
     rf_description := rf_description r; rf_extension := rf_extension r;
     rf_content_type := rf_content_type r; rf_signature := rf_signature r;
     rf_trust := rf_trust r; rf_trust_time := rf_trust_time r;
     rf_flags := rf_flags r; rf_creation_time := rf_creation_time r;
     rf_modification_time := rf_modification_time r |}.

Definition set_uuid (new_uuid : string) (r : report_format_row)
  : report_format_row :=
  {| rf_id := rf_id r; rf_uuid := new_uuid; rf_name := rf_name r;
     rf_owner := rf_owner r; rf_summary := rf_summary r;
     rf_description := rf_description r; rf_extension := rf_extension r;
     rf_content_type := rf_content_type r; rf_signature := rf_signature r;
     rf_trust := rf_trust r; rf_trust_time := rf_trust_time r;
     rf_flags := rf_flags r; rf_creation_time := rf_creation_time r;
     rf_modification_time := rf_modification_time r |}.

(** [(SELECT uuid FROM users WHERE users.id = owner)] *)
Definition owner_uuid_of (d : Db.t) (owner : option Z) : option string :=
  match owner with
  | Some id =>
      match find (fun u => u_id u =? id) (users d) with
      | Some u => Some (u_uuid u)
      | None => None
      end
  | None => None
  end.

End Rows.

(* ================================================================== *)
(** ** Startup: the UUIDs of report formats *)
(* ================================================================== *)

Module Startup.

Import Db Sql Rows.

(** The calls that change the file system, in the order made. *)
Inductive fs_call : Type :=
| Remove_predefined_dir (uuid : string)
| Copy_dir (dir new_dir : path)
| Rename_dir (dir new_dir : path).

(** [rename]: success, failure with [ENOENT], failure with another
    [errno]. *)
Inductive rename_result : Type :=
| RenameOk
| RenameNoent
| RenameFailed.

(** [predefined_dir_exists uuid] is [g_file_test] on
    [predefined_report_format_dir (uuid)]; [make_uuid id] is the value
    [make_uuid ()] takes in the row selected for the report format
    [id]. *)
Record env : Type := {
  GVMD_STATE_DIR : string;
  predefined_dir_exists : string -> bool;
  make_uuid : Z -> string;
  rename : path -> path -> rename_result;
  m_now : Z
}.

Record state : Type := {
  tables : Db.t;
  alert_method_data : list alert_method_data_row;
  fs_calls : list fs_call
}.

Definition set_data (new_data : string) (a : alert_method_data_row)
  : alert_method_data_row :=
  {| amd_alert := amd_alert a; amd_name := amd_name a;
     amd_data := new_data |}.

(** [update_report_format_uuid (old, new)] *)
Definition update_report_format_uuid (E : env) (old new : string)
    (s : state) : state :=
  {| tables :=
       update_report_formats (tables s)
         (fun r => String.eqb (rf_uuid r) old)
         (fun r => set_modification_time (m_now E) (set_uuid new r));
     alert_method_data :=
       map (fun a => if String.eqb (amd_data a) old
                     then set_data new a else a)
           (alert_method_data s);
     fs_calls :=
       if predefined_dir_exists E old
       then fs_calls s ++ [Remove_predefined_dir old]
       else fs_calls s |}.

(** [update_report_format_uuids] *)
Definition update_report_format_uuids (E : env) (s : state) : state :=
  let s := update_report_format_uuid E
             "a0704abb-2120-489f-959f-251c9f4ffebd"
             "5ceff8ba-1f62-11e1-ab9f-406186ea4fc5" s in
  let s := update_report_format_uuid E
             "b993b6f5-f9fb-4e6e-9c94-dd46c00e058d"
             "6c248850-1f62-11e1-b082-406186ea4fc5" s in
  let s := update_report_format_uuid E
             "929884c6-c2c4-41e7-befb-2f6aa163b458"
             "77bd6c4a-1f62-11e1-abf0-406186ea4fc5" s in
  let s := update_report_format_uuid E
             "9f1ab17b-aaaa-411a-8c57-12df446f5588"
             "7fcc3a1a-1f62-11e1-86bf-406186ea4fc5" s in
  let s := update_report_format_uuid E
             "f5c2a364-47d2-4700-b21d-0a7693daddab"
             "9ca6fe72-1f62-11e1-9e7c-406186ea4fc5" s in
  let s := update_report_format_uuid E
             "1a60a67e-97d0-4cbf-bc77-f71b08e7043d"
             "a0b5bfb2-1f62-11e1-85db-406186ea4fc5" s in
  let s := update_report_format_uuid E
             "19f6f1b3-7128-4433-888c-ccc764fe6ed5"
             "a3810a62-1f62-11e1-9219-406186ea4fc5" s in
  let s := update_report_format_uuid E
             "d5da9f67-8551-4e51-807b-b6a873d70e34"
             "a994b278-1f62-11e1-96ac-406186ea4fc5" s in
  let s := update_report_format_uuid E
             "7fcc3a1a-1f62-11e1-86bf-406186ea4fc5"
             "a684c02c-b531-11e1-bdc2-406186ea4fc5" s in
  update_report_format_uuid E
    "a0b5bfb2-1f62-11e1-85db-406186ea4fc5"
    "c402cc3e-b531-11e1-9163-406186ea4fc5" s.

(** [(SELECT ... FROM report_formats WHERE uuid = '%s' ORDER BY id ASC
    LIMIT 1)]: the row of the least id among those of the UUID. *)
Definition first_row (d : Db.t) (uuid : string) : option report_format_row :=
  fold_left
    (fun best r =>
       match best with
       | None => Some r
       | Some b => if rf_id r <? rf_id b then Some r else Some b
       end)
    (filter (fun r => String.eqb (rf_uuid r) uuid) (report_formats d))
    None.

(** A row of the temporary table [duplicates]. *)
Record duplicate : Type := {
  dup_id : Z;
  dup_uuid : string;
  dup_new_uuid : string;
  dup_owner : option Z;
  dup_owner_uuid : option string;
  dup_original_owner : option Z;
  dup_original_owner_uuid : option string
}.

(** [WHERE id > (SELECT id ... ORDER BY id ASC LIMIT 1)] *)
Definition is_duplicate (d : Db.t) (r : report_format_row) : bool :=
  match first_row d (rf_uuid r) with
  | Some b => rf_id b <? rf_id r
  | None => false
  end.

Definition duplicates (E : env) (d : Db.t) : list duplicate :=
  map (fun r =>
         let original_owner :=
           match first_row d (rf_uuid r) with
           | Some b => rf_owner b
           | None => None
           end in
         {| dup_id := rf_id r;
            dup_uuid := rf_uuid r;
            dup_new_uuid := make_uuid E (rf_id r);
            dup_owner := rf_owner r;
            dup_owner_uuid := owner_uuid_of d (rf_owner r);
            dup_original_owner := original_owner;
            dup_original_owner_uuid := owner_uuid_of d original_owner |})
      (filter (is_duplicate d) (report_formats d)).

(** [g_build_filename (GVMD_STATE_DIR, "report_formats", owner_uuid, uuid,
    NULL)]; an [owner_uuid] that is [NULL] ends the list of elements. *)
Definition user_dir (E : env) (owner_uuid : option string) (uuid : string)
  : path :=
  match owner_uuid with
  | Some owner => [GVMD_STATE_DIR E; "report_formats"; owner; uuid]
  | None => [GVMD_STATE_DIR E; "report_formats"]
  end.

(** The loop "Update UUIDs on disk."; [inl calls] is the way out by
    [return -1], [calls] the calls made up to there. *)
Fixpoint update_on_disk (E : env) (rows : list duplicate)
    (calls : list fs_call) : list fs_call + list fs_call :=
  match rows with
  | [] => inr calls
  | row :: rest =>
      if cell_int64 (dup_owner row) =? 0
      then update_on_disk E rest calls
      else
        let copy :=
          if cell_int64 (dup_original_owner row) =? 0 then false
          else match dup_owner_uuid row, dup_original_owner_uuid row with
               | Some owner, Some original => strcmp owner original =? 0
               | _, _ => false
               end in
        let dir := user_dir E (dup_owner_uuid row) (dup_uuid row) in
        let new_dir := user_dir E (dup_owner_uuid row) (dup_new_uuid row) in
        if copy
        then update_on_disk E rest (calls ++ [Copy_dir dir new_dir])
        else
          match rename E dir new_dir with
          | RenameFailed => inl (calls ++ [Rename_dir dir new_dir])
          | _ => update_on_disk E rest (calls ++ [Rename_dir dir new_dir])
          end
  end.

(** [(SELECT new_uuid FROM duplicates WHERE duplicates.id = id)] *)
Definition new_uuid_of (dups : list duplicate) (id : Z) : option string :=
  match find (fun row => dup_id row =? id) dups with
  | Some row => Some (dup_new_uuid row)
  | None => None
  end.

(** [make_report_format_uuids_unique]; [inl (-1)] stands for the
    [sql_rollback] followed by [return -1]. *)
Definition make_report_format_uuids_unique (E : env) (s : state)
  : early state :=
  let d := tables s in
  let dups := duplicates E d in
  let alerts :=
    map (fun a => match new_uuid_of dups (amd_alert a) with
                  | Some new_uuid => set_data new_uuid a
                  | None => a
                  end)
        (alert_method_data s) in
  match update_on_disk E dups (fs_calls s) with
  | inl _ => inl (-1)
  | inr calls =>
      inr {| tables :=
               with_report_formats d
                 (map (fun r => match new_uuid_of dups (rf_id r) with
                                | Some new_uuid => set_uuid new_uuid r
                                | None => r
                                end)
                      (report_formats d));
             alert_method_data := alerts;
             fs_calls := calls |}
  end.

(** The UUIDs [update_report_format_uuids] replaces. *)
Definition old_uuids : list string :=
  ["a0704abb-2120-489f-959f-251c9f4ffebd";
   "b993b6f5-f9fb-4e6e-9c94-dd46c00e058d";
   "929884c6-c2c4-41e7-befb-2f6aa163b458";
   "9f1ab17b-aaaa-411a-8c57-12df446f5588";
   "f5c2a364-47d2-4700-b21d-0a7693daddab";
   "1a60a67e-97d0-4cbf-bc77-f71b08e7043d";
   "19f6f1b3-7128-4433-888c-ccc764fe6ed5";
   "d5da9f67-8551-4e51-807b-b6a873d70e34";
   "7fcc3a1a-1f62-11e1-86bf-406186ea4fc5";
   "a0b5bfb2-1f62-11e1-85db-406186ea4fc5"].

(** The same updates as a list, oldest first. *)
Definition updates : list (string * string) :=
  [("a0704abb-2120-489f-959f-251c9f4ffebd",
    "5ceff8ba-1f62-11e1-ab9f-406186ea4fc5");
   ("b993b6f5-f9fb-4e6e-9c94-dd46c00e058d",
    "6c248850-1f62-11e1-b082-406186ea4fc5");
   ("929884c6-c2c4-41e7-befb-2f6aa163b458",
    "77bd6c4a-1f62-11e1-abf0-406186ea4fc5");
   ("9f1ab17b-aaaa-411a-8c57-12df446f5588",
    "7fcc3a1a-1f62-11e1-86bf-406186ea4fc5");
   ("f5c2a364-47d2-4700-b21d-0a7693daddab",
    "9ca6fe72-1f62-11e1-9e7c-406186ea4fc5");
   ("1a60a67e-97d0-4cbf-bc77-f71b08e7043d",
    "a0b5bfb2-1f62-11e1-85db-406186ea4fc5");
   ("19f6f1b3-7128-4433-888c-ccc764fe6ed5",
    "a3810a62-1f62-11e1-9219-406186ea4fc5");
   ("d5da9f67-8551-4e51-807b-b6a873d70e34",
    "a994b278-1f62-11e1-96ac-406186ea4fc5");
   ("7fcc3a1a-1f62-11e1-86bf-406186ea4fc5",
    "a684c02c-b531-11e1-bdc2-406186ea4fc5");
   ("a0b5bfb2-1f62-11e1-85db-406186ea4fc5",
    "c402cc3e-b531-11e1-9163-406186ea4fc5")].

(** A list of updates in which no update writes a UUID that it or an
    earlier one has replaced. *)
Fixpoint oldest_first (l : list (string * string)) : bool :=
  match l with
  | [] => true
  | (old, new) :: rest =>
      negb (String.eqb new old)
      && forallb (fun u => negb (String.eqb (snd u) old)) rest
      && oldest_first rest
  end.

(** The updates of a list, in order. *)
Definition run_updates (E : env) (l : list (string * string)) (s : state)
  : state :=
  fold_left (fun s u => update_report_format_uuid E (fst u) (snd u) s) l s.

(** No row and no alert refers to the UUID. *)
Definition unused (uuid : string) (s : state) : Prop :=
  (forall r, In r (report_formats (tables s)) -> rf_uuid r <> uuid)
  /\ (forall a, In a (alert_method_data s) -> amd_data a <> uuid).

End Startup.

(* ================================================================== *)
(** ** Deleting the rows of a report format *)
(* ================================================================== *)

Module Delete.

Import Db Sql.

(** [delete_report_format_rows] *)
Definition delete_report_format_rows (d : Db.t) (report_format : Z) : Db.t :=
  let d :=
    with_options d
      (filter (fun o =>
                 negb (existsb (fun p => p_id p =? o_report_format_param o)
                               (params_of d report_format)))
              (report_format_param_options d)) in
  let d :=
    with_params d
      (filter (fun p => negb (p_report_format p =? report_format))
              (report_format_params d)) in
  with_report_formats d
    (filter (fun r => negb (rf_id r =? report_format)) (report_formats d)).

(** Every option belongs to a param of the table. *)
Definition options_attached (d : Db.t) : Prop :=
  forall o, In o (report_format_param_options d) ->
            exists p, In p (report_format_params d)
                      /\ p_id p = o_report_format_param o.

End Delete.

(* ================================================================== *)
(** ** Creation followed by verification *)
(* ================================================================== *)

Module Reverify.

Import Db Param Create.

(** The ids in use were given out by the sequences. *)
Definition ids_given_out (d : Db.t) : Prop :=
  Forall (fun r => rf_id r <= report_formats_seq d) (report_formats d)
  /\ Forall (fun id => id <= report_formats_seq d) (resources_predefined d)
  /\ Notions.tables_consistent d.

(** The type names of the params are those the type prints as. *)
Definition type_names_print_back (ps : list create_report_format_param_t)
  : Prop :=
  forall p type_name,
    In p ps -> type p = Some type_name ->
    report_format_param_type_name
      (report_format_param_type_from_name type_name) = Some type_name.

(** No stored or trashed report format has the UUID. *)
Definition uuid_unused (d : Db.t) (uuid : string) : Prop :=
  (forall r, In r (report_formats d) -> rf_uuid r <> uuid)
  /\ ~ In uuid (report_formats_trash_original_uuids d).

End Reverify.

(* ================================================================== *)
(** ** The trashcan: [delete_report_format] and [restore_report_format] *)
(* ================================================================== *)

Module Trash.

Import Db Sql Rows.

(** A row of [report_formats_trash]: the columns of [report_formats]
    and [original_uuid]. *)
Record trash_row : Type := {
  tr_row : report_format_row;
  tr_original_uuid : string
}.

(** The tables of params and of options, real or trash, with the last
    value each id sequence gave out. *)
Record store : Type := {
  st_params : list param_row;
  st_options : list option_row;
  st_params_seq : Z;
  st_options_seq : Z
}.

(** The real tables, the trash tables and the two tables of alert data.
    Of the real tables [report_formats_trash_original_uuids] repeats the
    column [original_uuid] of [report_formats_trash]; the functions here
    keep it so. *)
Record state : Type := {
  tables : Db.t;
  report_formats_trash : list trash_row;
  report_formats_trash_seq : Z;
  trash : store;
  alert_method_data : list alert_method_data_row;
  alert_method_data_trash : list alert_method_data_row
}.

(** What comes from outside this file.  [find_trash] is defined in
    [manage_sql.c]: the return value ([true] on an error) and the row
    found in the trash table, 0 for none.  [make_uuid] is the value of
    [make_uuid ()] in the one [INSERT] that calls it.  The calls on the
    file system answer [true] when they succeed. *)
Record env : Type := {
  GVMD_STATE_DIR : string;
  current_credentials_uuid : option string;
  acl : Acl.t;
  find_trash : state -> string -> bool * Z;
  make_uuid : string;
  dir_exists : path -> bool;
  g_mkdir_with_parents : path -> bool;
  gvm_file_remove_recurse : path -> bool;
  move_report_format_dir : path -> path -> bool
}.

(** How a call ends: [Return_error code] is the return of a code other
    than 0, after the [sql_rollback] where the source has one; [Abort] is
    [abort ()]; [Return_ok s] is the return of 0 after [sql_commit]. *)
Inductive result : Type :=
| Return_error (code : Z)
| Abort
| Return_ok (s : state).

(** [printf ("%llu", z)] *)
Definition fmt_llu (z : Z) : string := CLib.fmt_lli (z mod 2 ^ 64).

(** [report_format_trash_dir] *)
Definition report_format_trash_dir (E : env)
    (report_format_id : option string) : path :=
  match report_format_id with
  | Some id => [GVMD_STATE_DIR E; "report_formats_trash"; id]
  | None => [GVMD_STATE_DIR E; "report_formats_trash"]
  end.

(** [report_format_owner_uuid]; a report format without owner is
    global. *)
Definition report_format_owner_uuid (d : Db.t) (report_format : Z)
  : option string :=
  match find_report_format d report_format with
  | Some r => owner_uuid_of d (rf_owner r)
  | None => None
  end.

(** [g_build_filename (GVMD_STATE_DIR, "report_formats", owner_uuid,
    uuid, NULL)]; an [owner_uuid] that is [NULL] ends the list. *)
Definition user_dir (E : env) (owner_uuid : option string) (uuid : string)
  : path :=
  match owner_uuid with
  | Some owner => [GVMD_STATE_DIR E; "report_formats"; owner; uuid]
  | None => [GVMD_STATE_DIR E; "report_formats"]
  end.

(** The names of the alert data that hold a report format. *)
Definition alert_names : list string :=
  ["notice_attach_format"; "notice_report_format"; "scp_report_format";
   "send_report_format"; "smb_report_format";
   "verinice_server_report_format"].

Definition refers (names : list string) (uuid : option string)
    (a : alert_method_data_row) : bool :=
  match uuid with
  | Some u => String.eqb (amd_data a) u
              && existsb (String.eqb (amd_name a)) names
  | None => false
  end.

(** [report_format_in_use] *)
Definition report_format_in_use (s : state) (report_format : Z) : bool :=
  existsb (refers alert_names
             (Verify.report_format_uuid (tables s) report_format))
          (alert_method_data s).

(** [(SELECT original_uuid FROM report_formats_trash WHERE id = %llu)] *)
Definition original_uuid (s : state) (report_format : Z) : option string :=
  match find (fun r => rf_id (tr_row r) =? report_format)
             (report_formats_trash s) with
  | Some r => Some (tr_original_uuid r)
  | None => None
  end.

(** [trash_report_format_in_use] *)
Definition trash_report_format_in_use (s : state) (report_format : Z)
  : bool :=
  existsb (refers alert_names (original_uuid s report_format))
          (alert_method_data_trash s).

Definition real_store (d : Db.t) : store :=
  {| st_params := report_format_params d;
     st_options := report_format_param_options d;
     st_params_seq := report_format_params_seq d;
     st_options_seq := report_format_param_options_seq d |}.

Definition with_store (d : Db.t) (st : store) : Db.t :=
  {| report_formats := report_formats d;
     report_format_params := st_params st;
     report_format_param_options := st_options st;
     report_formats_trash_original_uuids :=
       report_formats_trash_original_uuids d;
     resources_predefined := resources_predefined d;
     users := users d;
     report_formats_seq := report_formats_seq d;
     report_format_params_seq := st_params_seq st;
     report_format_param_options_seq := st_options_seq st |}.

Definition with_trash_uuids (d : Db.t) (uuids : list string) : Db.t :=
  {| report_formats := report_formats d;
     report_format_params := report_format_params d;
     report_format_param_options := report_format_param_options d;
     report_formats_trash_original_uuids := uuids;
     resources_predefined := resources_predefined d;
     users := users d;
     report_formats_seq := report_formats_seq d;
     report_format_params_seq := report_format_params_seq d;
     report_format_param_options_seq := report_format_param_options_seq d |}.

(** [INSERT INTO report_format_params... (report_format, name, ...)
    SELECT target, name, ... WHERE id = param]: one row of the target
    table for each row selected. *)
Definition insert_params (selected : list param_row) (target : Z)
    (to : store) : store :=
  fold_left
    (fun to x =>
       {| st_params :=
            st_params to
            ++ [ {| p_id := st_params_seq to + 1;
                    p_report_format := target;
                    p_name := p_name x;
                    p_type := p_type x;
                    p_value := p_value x;
                    p_type_min := p_type_min x;
                    p_type_max := p_type_max x;
                    p_type_regex := p_type_regex x;
                    p_fallback := p_fallback x |} ];
          st_options := st_options to;
          st_params_seq := st_params_seq to + 1;
          st_options_seq := st_options_seq to |})
    selected to.

(** [INSERT INTO report_format_param_options... (report_format_param,
    value) SELECT target, value ... WHERE report_format_param = param] *)
Definition insert_options (selected : list option_row) (target : Z)
    (to : store) : store :=
  fold_left
    (fun to o =>
       {| st_params := st_params to;
          st_options :=
            st_options to
            ++ [ {| o_id := st_options_seq to + 1;
                    o_report_format_param := target;
                    o_value := o_value o |} ];
          st_params_seq := st_params_seq to;
          st_options_seq := st_options_seq to + 1 |})
    selected to.

(** One round of the loop over the params, in either direction: the row
    of the id [param] goes into the target table under the report format
    [target], and the options of [param] go with it under the id
    [sql_last_insert_id ()] gave. *)
Definition move_param (from : store) (target param : Z) (to : store)
  : store :=
  let to :=
    insert_params (filter (fun x => p_id x =? param) (st_params from))
                  target to in
  let new_param := st_params_seq to in
  insert_options
    (filter (fun o => o_report_format_param o =? param) (st_options from))
    new_param to.

(** The loop over [init_report_format_param_iterator (&params,
    report_format, trash, 1, NULL)], which yields the params of the
    report format in ascending order of their ids. *)
Definition move_params (from : store) (report_format target : Z)
    (to : store) : store :=
  fold_left (fun to p => move_param from target (p_id p) to)
            (filter (fun p => p_report_format p =? report_format)
                    (st_params from))
            to.

(** The three [DELETE] statements on the trash tables. *)
Definition delete_trash_rows (s : state) (report_format : Z) : state :=
  let of_format :=
    filter (fun p => p_report_format p =? report_format)
           (st_params (trash s)) in
  let rows :=
    filter (fun r => negb (rf_id (tr_row r) =? report_format))
           (report_formats_trash s) in
  {| tables := with_trash_uuids (tables s) (map tr_original_uuid rows);
     report_formats_trash := rows;
     report_formats_trash_seq := report_formats_trash_seq s;
     trash :=
       {| st_params :=
            filter (fun p => negb (p_report_format p =? report_format))
                   (st_params (trash s));
          st_options :=
            filter (fun o =>
                      negb (existsb (fun p => p_id p
                                              =? o_report_format_param o)
                                    of_format))
                   (st_options (trash s));
          st_params_seq := st_params_seq (trash s);
          st_options_seq := st_options_seq (trash s) |};
     alert_method_data := alert_method_data s;
     alert_method_data_trash := alert_method_data_trash s |}.

(** [INSERT INTO report_formats_trash (uuid, ..., original_uuid, ...)
    SELECT make_uuid (), ..., uuid, ... FROM report_formats
    WHERE id = %llu] *)
Definition insert_trash_rows (E : env) (selected : list report_format_row)
    (s : state) : state :=
  fold_left
    (fun s r =>
       let rows :=
         report_formats_trash s
         ++ [ {| tr_row :=
                   set_uuid (make_uuid E)
                            (set_id (report_formats_trash_seq s + 1) r);
                 tr_original_uuid := rf_uuid r |} ] in
       {| tables :=
            with_trash_uuids (tables s) (map tr_original_uuid rows);
          report_formats_trash := rows;
          report_formats_trash_seq := report_formats_trash_seq s + 1;
          trash := trash s;
          alert_method_data := alert_method_data s;
          alert_method_data_trash := alert_method_data_trash s |})
    selected s.

Definition with_tables (s : state) (d : Db.t) : state :=
  {| tables := d;
     report_formats_trash := report_formats_trash s;
     report_formats_trash_seq := report_formats_trash_seq s;
     trash := trash s;
     alert_method_data := alert_method_data s;
     alert_method_data_trash := alert_method_data_trash s |}.

Definition with_trash (s : state) (st : store) : state :=
  {| tables := tables s;
     report_formats_trash := report_formats_trash s;
     report_formats_trash_seq := report_formats_trash_seq s;
     trash := st;
     alert_method_data := alert_method_data s;
     alert_method_data_trash := alert_method_data_trash s |}.

(** [delete_report_format].  The permissions and the tags of the report
    format, which the function hands to other files, are not among the
    tables here. *)
Definition delete_report_format (E : env) (report_format_id : string)
    (ultimate : Z) (s : state) : result :=
  if negb (Acl.acl_user_may (acl E) "delete_report_format")
  then Return_error 99
  else
    let '(failed, report_format) :=
      Acl.find_report_format_with_permission
        (acl E) (tables s) report_format_id "delete_report_format" in
    if failed then Return_error (-1)
    else if report_format =? 0 then
      let '(failed, report_format) := find_trash E s report_format_id in
      if failed then Return_error (-1)
      else if report_format =? 0 then Return_error 2
      else if ultimate =? 0 then Return_ok s
      else if trash_report_format_in_use s report_format then Return_error 1
      else
        let dir :=
          report_format_trash_dir E (Some (fmt_llu report_format)) in
        if dir_exists E dir && negb (gvm_file_remove_recurse E dir)
        then Return_error (-1)
        else Return_ok (delete_trash_rows s report_format)
    else if negb (report_format_predefined (tables s) report_format =? 0)
    then Return_error 3
    else
      let dir :=
        user_dir E (report_format_owner_uuid (tables s) report_format)
                 report_format_id in
      if negb (ultimate =? 0) then
        if existsb (refers ["notice_attach_format"; "notice_report_format"]
                      (Verify.report_format_uuid (tables s) report_format))
                   (alert_method_data_trash s)
        then Return_error 1
        else if report_format_in_use s report_format then Return_error 1
        else if dir_exists E dir && negb (gvm_file_remove_recurse E dir)
        then Return_error (-1)
        else
          Return_ok
            (with_tables s
               (Delete.delete_report_format_rows (tables s) report_format))
      else if report_format_in_use s report_format then Return_error 1
      else if negb (g_mkdir_with_parents E (report_format_trash_dir E None))
      then Return_error (-1)
      else
        let d := tables s in
        let s :=
          insert_trash_rows E
            (filter (fun r => rf_id r =? report_format) (report_formats d))
            s in
        let trash_report_format := report_formats_trash_seq s in
        let s :=
          with_trash s
            (move_params (real_store d) report_format trash_report_format
                         (trash s)) in
        let s :=
          with_tables s
            (Delete.delete_report_format_rows (tables s) report_format) in
        let new_dir :=
          report_format_trash_dir E (Some (fmt_llu trash_report_format)) in
        if negb (move_report_format_dir E dir new_dir)
        then Return_error (-1)
        else Return_ok s.

(** [INSERT INTO report_formats (uuid, ...) SELECT original_uuid, ...
    FROM report_formats_trash WHERE id = %llu] *)
Definition insert_rows (selected : list trash_row) (d : Db.t) : Db.t :=
  fold_left
    (fun d r =>
       {| report_formats :=
            report_formats d
            ++ [set_uuid (tr_original_uuid r)
                         (set_id (report_formats_seq d + 1) (tr_row r))];
          report_format_params := report_format_params d;
          report_format_param_options := report_format_param_options d;
          report_formats_trash_original_uuids :=
            report_formats_trash_original_uuids d;
          resources_predefined := resources_predefined d;
          users := users d;
          report_formats_seq := report_formats_seq d + 1;
          report_format_params_seq := report_format_params_seq d;
          report_format_param_options_seq :=
            report_format_param_options_seq d |})
    selected d.

(** [(SELECT name FROM report_formats_trash WHERE id = %llu)] *)
Definition trash_name (s : state) (report_format : Z) : option string :=
  match find (fun r => rf_id (tr_row r) =? report_format)
             (report_formats_trash s) with
  | Some r => Some (rf_name (tr_row r))
  | None => None
  end.

(** [restore_report_format].  Modelled from the spec: the macro
    [ACL_USER_OWNS] of the first test is defined outside the source tree
    at hand; the test on the owner of a row is taken to be the one of
    [Create.resource_with_name_exists]. *)
Definition restore_report_format (E : env) (report_format_id : string)
    (s : state) : result :=
  let '(failed, resource) := find_trash E s report_format_id in
  if failed then Return_error (-1)
  else if resource =? 0 then Return_error 2
  else if match trash_name s resource with
          | Some name =>
              Create.resource_with_name_exists
                (tables s) (current_credentials_uuid E) name
          | None => false
          end
  then Return_error 3
  else if match original_uuid s resource with
          | Some uuid =>
              existsb (fun r => String.eqb (rf_uuid r) uuid)
                      (report_formats (tables s))
          | None => false
          end
  then Return_error 4
  else
    let d :=
      insert_rows
        (filter (fun r => rf_id (tr_row r) =? resource)
                (report_formats_trash s))
        (tables s) in
    let report_format := report_formats_seq d in
    let d :=
      with_store d
        (move_params (trash s) resource report_format (real_store d)) in
    match original_uuid s resource with
    | None => Abort
    | Some trash_uuid =>
        let s := delete_trash_rows (with_tables s d) resource in
        let dir :=
          user_dir E (report_format_owner_uuid (tables s) report_format)
                   trash_uuid in
        let trash_dir :=
          report_format_trash_dir E (Some (fmt_llu resource)) in
        if negb (move_report_format_dir E trash_dir dir)
        then Return_error (-1)
        else Return_ok s
    end.

(** [WHERE owner = %llu] *)
Definition owned_by (user : Z) (r : report_format_row) : bool :=
  sql_eq_int (rf_owner r) (Some user).

(** [delete_report_formats_user]: the six [DELETE] statements, in the
    order of the source. *)
Definition delete_report_formats_user (user : Z) (s : state) : state :=
  let d := tables s in
  let of_user (report_format : Z) : bool :=
    existsb (fun r => rf_id r =? report_format)
            (filter (owned_by user) (report_formats d)) in
  let of_user_trash (report_format : Z) : bool :=
    existsb (fun r => rf_id (tr_row r) =? report_format)
            (filter (fun r => owned_by user (tr_row r))
                    (report_formats_trash s)) in
  let rows :=
    filter (fun r => negb (owned_by user (tr_row r)))
           (report_formats_trash s) in
  {| tables :=
       {| report_formats :=
            filter (fun r => negb (owned_by user r)) (report_formats d);
          report_format_params :=
            filter (fun p => negb (of_user (p_report_format p)))
                   (report_format_params d);
          report_format_param_options :=
            filter (fun o =>
                      negb (existsb
                              (fun p => p_id p =? o_report_format_param o)
                              (filter (fun p => of_user (p_report_format p))
                                      (report_format_params d))))
                   (report_format_param_options d);
          report_formats_trash_original_uuids := map tr_original_uuid rows;
          resources_predefined := resources_predefined d;
          users := users d;
          report_formats_seq := report_formats_seq d;
          report_format_params_seq := report_format_params_seq d;
          report_format_param_options_seq :=
            report_format_param_options_seq d |};
     report_formats_trash := rows;
     report_formats_trash_seq := report_formats_trash_seq s;
     trash :=
       {| st_params :=
            filter (fun p => negb (of_user_trash (p_report_format p)))
                   (st_params (trash s));
          st_options :=
            filter (fun o =>
                      negb (existsb
                              (fun p => p_id p =? o_report_format_param o)
                              (filter (fun p =>
                                         of_user_trash (p_report_format p))
                                      (st_params (trash s)))))
                   (st_options (trash s));
          st_params_seq := st_params_seq (trash s);
          st_options_seq := st_options_seq (trash s) |};
     alert_method_data := alert_method_data s;
     alert_method_data_trash := alert_method_data_trash s |}.

(** What a report format holds beside its ids: the columns of each
    param, in the order of the ids, with the values of its options. *)
Definition param_columns (p : param_row)
  : string * Z * string * option Z * option Z * string * string :=
  (p_name p, p_type p, p_value p, p_type_min p, p_type_max p,
   p_type_regex p, p_fallback p).

Definition contents (st : store) (report_format : Z)
  : list (string * Z * string * option Z * option Z * string * string
          * list string) :=
  map (fun p =>
         (param_columns p,
          map o_value
              (filter (fun o => o_report_format_param o =? p_id p)
                      (st_options st))))
      (filter (fun p => p_report_format p =? report_format) (st_params st)).

(** The ids are keys and no row bears or refers to an id that its
    sequence has yet to give out. *)
Definition keys_in_order (s : state) : Prop :=
  NoDup (map rf_id (report_formats (tables s)))
  /\ NoDup (map p_id (report_format_params (tables s)))
  /\ NoDup (map p_id (st_params (trash s)))
  /\ Forall (fun r => rf_id r <= report_formats_seq (tables s))
            (report_formats (tables s))
  /\ Forall (fun p => p_report_format p <= report_formats_seq (tables s)
                      /\ p_id p <= report_format_params_seq (tables s))
            (report_format_params (tables s))
  /\ Forall (fun o => o_report_format_param o
                      <= report_format_params_seq (tables s))
            (report_format_param_options (tables s))
  /\ Forall (fun r => rf_id (tr_row r) <= report_formats_trash_seq s)
            (report_formats_trash s)
  /\ Forall (fun p => p_report_format p <= report_formats_trash_seq s
                      /\ p_id p <= st_params_seq (trash s))
            (st_params (trash s))
  /\ Forall (fun o => o_report_format_param o <= st_params_seq (trash s))
            (st_options (trash s)).

(** The target tables while the loop runs: the ids of the params are
    keys, and no param bears and no option refers to an id that the
    sequence has yet to give out. *)
Definition target_in_order (to : store) : Prop :=
  NoDup (map p_id (st_params to))
  /\ Forall (fun p => p_id p <= st_params_seq to) (st_params to)
  /\ Forall (fun o => o_report_format_param o <= st_params_seq to)
            (st_options to).

End Trash.

(* ================================================================== *)
(** ** More concrete data *)
(* ================================================================== *)

Module ExtraSample.

Import Db.

Definition selection_param (id report_format : Z) : param_row :=
  {| p_id := id;
     p_report_format := report_format;
     p_name := "mode";
     p_type := Param.REPORT_FORMAT_PARAM_TYPE_SELECTION;
     p_value := "";
     p_type_min := Some CLib.LLONG_MIN;
     p_type_max := Some CLib.LLONG_MAX;
     p_type_regex := "";
     p_fallback := "" |}.

(** Two report formats with a selection of the same name: the first
    offers "a", the second "b". *)
Definition selection_db : Db.t :=
  {| report_formats :=
       [Sample.format_row 1 "A" "Alpha"; Sample.format_row 2 "B" "Beta"];
     report_format_params := [selection_param 1 1; selection_param 2 2];
     report_format_param_options :=
       [ {| o_id := 1; o_report_format_param := 1; o_value := "a" |};
         {| o_id := 2; o_report_format_param := 2; o_value := "b" |} ];
     report_formats_trash_original_uuids := [];
     resources_predefined := [];
     users := [ {| u_id := 1; u_uuid := "user-1" |} ];
     report_formats_seq := 2;
     report_format_params_seq := 2;
     report_format_param_options_seq := 2 |}.

(** A request for a new name and for a value of a param that the report
    format does not have. *)
Definition rename_and_set_request : Modify.request :=
  {| Modify.report_format_id := Some "c402cc3e";
     Modify.name := Some "Renamed";
     Modify.summary := None;
     Modify.active := None;
     Modify.param_name := Some "depth";
     Modify.param_value := Some "3";
     Modify.predefined := None |}.

(** The tables after the creation of the sample request without a
    signature. *)
Definition created_db : Db.t :=
  Create.res_db
    (Create.create_report_format
       (Sample.create_env Sample.no_trees)
       (Sample.create_request None [Sample.integer_param None])
       Sample.empty_db []).

(** The row of the format "B" in the tables the first walk left. *)
Definition beta_row : report_format_row :=
  Eval vm_compute in
    nth 1 (report_formats FeedSample.stored_db) Sample.predefined_row.

(** The tables the first walk left, with a report format of a user. *)
Definition mixed_db : Db.t :=
  Sql.with_report_formats FeedSample.stored_db
    (report_formats FeedSample.stored_db
     ++ [Sample.format_row 9 "U" "Mine"]).

Definition startup_env : Startup.env :=
  {| Startup.GVMD_STATE_DIR := "/var/lib/gvm/gvmd";
     Startup.predefined_dir_exists := fun _ => false;
     Startup.make_uuid := fun id => "fresh-" +++ CLib.fmt_lli id;
     Startup.rename := fun _ _ => Startup.RenameOk;
     Startup.m_now := 1600000000 |}.

(** Two report formats of one user under one UUID, and a third. *)
Definition startup_state : Startup.state :=
  {| Startup.tables :=
       Sql.with_report_formats Sample.empty_db
         [Sample.format_row 1 "A" "Alpha"; Sample.format_row 2 "A" "Copy";
          Sample.format_row 3 "C" "Gamma"];
     Startup.alert_method_data := [];
     Startup.fs_calls := [] |}.

Definition startup_state_after : Startup.state :=
  match Startup.make_report_format_uuids_unique startup_env
          startup_state with
  | inr s => s
  | inl _ => startup_state
  end.

(** The sample request with a signature from the caller. *)
Definition signed_request : Create.request :=
  Sample.create_request (Some "caller-signature")
                        [Sample.integer_param None].

(** Verification with the files of the sample request on disk, listed in
    ascending order of their names. *)
Definition reverify_env : Verify.env :=
  {| Verify.trees := Sample.no_trees;
     Verify.verifier := Sample.verifier;
     Verify.report_format_iterator :=
       fun d id =>
         match id with
         | Some uuid =>
             match find_report_format_by_uuid d uuid with
             | Some row => [row]
             | None => []
             end
         | None => report_formats d
         end;
     Verify.report_format_file_iterator :=
       fun _ => [("a.xsl", "PHhzbD4="); ("generate", "IyEvYmluL3No")];
     Verify.time_now := 1600000000;
     Verify.m_now := 1600000000 |}.

Definition trash_env : Trash.env :=
  {| Trash.GVMD_STATE_DIR := "/var/lib/gvm/gvmd";
     Trash.current_credentials_uuid := Some "user-1";
     Trash.acl :=
       {| Acl.acl_user_may := fun _ => true;
          Acl.acl_user_has_access_uuid := fun _ _ => true;
          Acl.find_fails := fun _ => false |};
     Trash.find_trash :=
       fun s uuid =>
         match find (fun r => String.eqb (rf_uuid (Trash.tr_row r)) uuid)
                    (Trash.report_formats_trash s) with
         | Some r => (false, rf_id (Trash.tr_row r))
         | None => (false, 0)
         end;
     Trash.make_uuid := "trash-uuid";
     Trash.dir_exists := fun _ => true;
     Trash.g_mkdir_with_parents := fun _ => true;
     Trash.gvm_file_remove_recurse := fun _ => true;
     Trash.move_report_format_dir := fun _ _ => true |}.

(** The two report formats with a selection, and an empty trashcan. *)
Definition trash_state : Trash.state :=
  {| Trash.tables := selection_db;
     Trash.report_formats_trash := [];
     Trash.report_formats_trash_seq := 0;
     Trash.trash :=
       {| Trash.st_params := []; Trash.st_options := [];
          Trash.st_params_seq := 0; Trash.st_options_seq := 0 |};
     Trash.alert_method_data := [];
     Trash.alert_method_data_trash := [] |}.

Definition or_state (r : Trash.result) (s : Trash.state) : Trash.state :=
  match r with
  | Trash.Return_ok s' => s'
  | _ => s
  end.

(** The state after the report format "A" went to the trashcan, and
    after it came back. *)
Definition trash_state_deleted : Trash.state :=
  or_state (Trash.delete_report_format trash_env "A" 0 trash_state)
           trash_state.

Definition trash_state_restored : Trash.state :=
  or_state (Trash.restore_report_format trash_env "trash-uuid"
              trash_state_deleted)
           trash_state.

(** The tables the first walk left with the report format of a user,
    and an empty trashcan. *)
Definition user_state : Trash.state :=
  {| Trash.tables := mixed_db;
     Trash.report_formats_trash := [];
     Trash.report_formats_trash_seq := 0;
     Trash.trash :=
       {| Trash.st_params := []; Trash.st_options := [];
          Trash.st_params_seq := 0; Trash.st_options_seq := 0 |};
     Trash.alert_method_data := [];
     Trash.alert_method_data_trash := [] |}.

End ExtraSample.

(* ================================================================== *)
(** * Part II: theorems *)
(* ================================================================== *)

(** ** The signature verifier *)

Section VerifierFacts.

Import Verifier.

Variable E : Verifier.env.
Variables installer signature : string.
Variable trust : Z.
Variable tmp : tmp_files.

(** Once both temporary files are written the verifier returns 0. *)
Lemma verify_signature_returns_success :
  files_ready E = true ->
  fst (fst (verify_signature E installer signature trust tmp)) = 0.
Proof.
  unfold files_ready, verify_signature.
  destruct (mkstemp_installer E) as [fi|]; [|discriminate].
  destruct (mkstemp_signature E) as [fs|]; [|discriminate].
  intros H. apply andb_true_iff in H. destruct H as [Hi Hs].
  rewrite Hi, Hs. simpl.
  destruct (g_spawn_sync E installer signature); reflexivity.
Qed.

(** With the child's wait status at hand the trust is Yes for exit code 0,
    No for exit code 1 and Unknown otherwise. *)
Lemma verify_signature_classifies_status (status : Z) :
  files_ready E = true ->
  g_spawn_sync E installer signature = SpawnReturned status ->
  snd (fst (verify_signature E installer signature trust tmp))
  = if WIFEXITED status && (WEXITSTATUS status =? 0) then TRUST_YES
    else if WEXITSTATUS status =? 1 then TRUST_NO
    else TRUST_UNKNOWN.
Proof.
  unfold files_ready, verify_signature.
  destruct (mkstemp_installer E) as [fi|]; [|discriminate].
  destruct (mkstemp_signature E) as [fs|]; [|discriminate].
  intros H Hs. apply andb_true_iff in H. destruct H as [Hi Hw].
  rewrite Hi, Hw, Hs. simpl.
  destruct (WIFEXITED status), (WEXITSTATUS status =? 0); reflexivity.
Qed.

(** A child ended by a signal has a wait status between 1 and 255; its
    exit-code field is 0, so the trust is Unknown. *)
Lemma verify_signature_signalled_is_unknown (status : Z) :
  files_ready E = true ->
  g_spawn_sync E installer signature = SpawnReturned status ->
  1 <= status <= 255 ->
  WIFEXITED status = false ->
  snd (fst (verify_signature E installer signature trust tmp)) = TRUST_UNKNOWN.
Proof.
  intros Hr Hs Hrange Hsig.
  rewrite (verify_signature_classifies_status status Hr Hs), Hsig. simpl.
  assert (Hz : WEXITSTATUS status = 0).
  { unfold WEXITSTATUS.
    assert (Hl : Z.land status 65280 = 0).
    { apply Z.bits_inj'. intros n Hn. rewrite Z.land_spec, Z.bits_0.
      destruct (Z.ltb_spec n 8).
      - replace 65280 with (Z.shiftl 255 8) by reflexivity.
        rewrite Z.shiftl_spec_low by lia. apply andb_false_r.
      - rewrite (Z.bits_above_log2 status n); [reflexivity | lia |].
        apply Z.le_lt_trans with (Z.log2 255); [|simpl; lia].
        apply Z.log2_le_mono. lia. }
    rewrite Hl. reflexivity. }
  rewrite Hz. reflexivity.
Qed.

(** When the verifier is reached, the two files it created are gone on
    return. *)
Lemma verify_signature_removes_files_at_the_end (fi fs : string) :
  mkstemp_installer E = Some fi ->
  mkstemp_signature E = Some fs ->
  installer_written E = true ->
  signature_written E = true ->
  let left := snd (verify_signature E installer signature trust tmp) in
  ~ In fi left /\ ~ In fs left.
Proof.
  intros Hfi Hfs Hi Hs. unfold verify_signature.
  rewrite Hfi, Hfs, Hi, Hs. simpl negb. cbv iota.
  destruct (g_spawn_sync E installer signature); cbn [snd]; unfold g_remove.
  all: split; intros Hin; repeat (apply filter_In in Hin; destruct Hin as [Hin ?]).
  all: match goal with
       | H : negb (String.eqb ?x ?x) = true |- _ =>
           rewrite String.eqb_refl in H; discriminate
       end.
Qed.

End VerifierFacts.

(** [C3] The verifier is to report Unknown when [gpgv] cannot be started.
    [g_spawn_sync] then leaves [exit_status] unwritten and the code still
    reads its exit-code field: with a stale word whose field is 1 the
    trust comes out as No. *)
Theorem verify_signature_spawn_failure_reads_stale_status :
  Verifier.verify_signature
    {| Verifier.mkstemp_installer := Some "/tmp/gvmd-installer-a1b2c3";
       Verifier.installer_written := true;
       Verifier.mkstemp_signature := Some "/tmp/gvmd-signature-d4e5f6";
       Verifier.signature_written := true;
       Verifier.g_spawn_sync := fun _ _ => Verifier.SpawnFailed;
       Verifier.stale_exit_status := 256 |}
    "payload" "signature" TRUST_UNKNOWN []
  = (0, TRUST_NO, []).
Proof. reflexivity. Qed.

(** [C4] Both temporary files are to be gone on every exit path.  When the
    signature cannot be written the function returns -1 and both files it
    created are still under [/tmp]; when the payload cannot be written the
    payload file is. *)
Theorem verify_signature_early_return_leaves_files :
  Verifier.verify_signature
    {| Verifier.mkstemp_installer := Some "/tmp/gvmd-installer-a1b2c3";
       Verifier.installer_written := true;
       Verifier.mkstemp_signature := Some "/tmp/gvmd-signature-d4e5f6";
       Verifier.signature_written := false;
       Verifier.g_spawn_sync := fun _ _ => Verifier.SpawnReturned 0;
       Verifier.stale_exit_status := 0 |}
    "payload" "signature" TRUST_UNKNOWN []
  = (-1, TRUST_UNKNOWN,
     ["/tmp/gvmd-signature-d4e5f6"; "/tmp/gvmd-installer-a1b2c3"])
  /\
  Verifier.verify_signature
    {| Verifier.mkstemp_installer := Some "/tmp/gvmd-installer-a1b2c3";
       Verifier.installer_written := false;
       Verifier.mkstemp_signature := Some "/tmp/gvmd-signature-d4e5f6";
       Verifier.signature_written := true;
       Verifier.g_spawn_sync := fun _ _ => Verifier.SpawnReturned 0;
       Verifier.stale_exit_status := 0 |}
    "payload" "signature" TRUST_UNKNOWN []
  = (-1, TRUST_UNKNOWN, ["/tmp/gvmd-installer-a1b2c3"]).
Proof. split; reflexivity. Qed.

(** ** Which signature is verified *)

Section Precedence.

Import Signature.





End Precedence.


(** ** The canonical form and the order of the files *)

Section CanonicalOrder.

Import Create Notions.

Lemma ascii_compare_refl (c : ascii) : Ascii.compare c c = Eq.
Proof. unfold Ascii.compare. apply N.compare_refl. Qed.

Lemma string_compare_refl (s : string) : String.compare s s = Eq.
Proof.
  induction s as [|c s IH]; simpl; [reflexivity |].
  rewrite ascii_compare_refl. exact IH.
Qed.

Lemma string_compare_not_gt_trans (a b c : string) :
  String.compare a b <> Gt -> String.compare b c <> Gt ->
  String.compare a c <> Gt.
Proof.
  revert b c.
  induction a as [|x a IH]; intros [|y b] [|z c]; simpl; try congruence.
  unfold Ascii.compare.
  destruct (N.compare_spec (N_of_ascii x) (N_of_ascii y)) as [Hxy|Hxy|Hxy];
    destruct (N.compare_spec (N_of_ascii y) (N_of_ascii z)) as [Hyz|Hyz|Hyz];
    try congruence; intros H1 H2.
  - rewrite Hxy, Hyz, N.compare_refl. eapply IH; eassumption.
  - rewrite Hxy. apply N.compare_lt_iff in Hyz. rewrite Hyz. congruence.
  - rewrite <- Hyz. apply N.compare_lt_iff in Hxy. rewrite Hxy. congruence.
  - assert (Hxz : (N_of_ascii x < N_of_ascii z)%N) by lia.
    apply N.compare_lt_iff in Hxz. rewrite Hxz. congruence.
Qed.

Lemma strcmp_le_iff (a b : string) :
  strcmp a b <= 0 <-> String.compare a b <> Gt.
Proof.
  unfold strcmp. destruct (String.compare a b); split; intros; try lia;
    congruence.
Qed.

Lemma strcmp_zero_iff (a b : string) : strcmp a b = 0 <-> a = b.
Proof.
  unfold strcmp. split.
  - destruct (String.compare a b) eqn:H; try lia.
    intros _. apply String.compare_eq_iff. exact H.
  - intros ->. rewrite string_compare_refl. reflexivity.
Qed.

Lemma strcmp_le_trans (a b c : string) :
  strcmp a b <= 0 -> strcmp b c <= 0 -> strcmp a c <= 0.
Proof.
  rewrite !strcmp_le_iff. apply string_compare_not_gt_trans.
Qed.

Lemma strcmp_le_total (a b : string) : strcmp a b <= 0 \/ strcmp b a <= 0.
Proof.
  rewrite !strcmp_le_iff. rewrite (String.compare_antisym b a).
  destruct (String.compare a b); simpl; [left | left | right]; congruence.
Qed.


Lemma files_le_trans (x y z : option file_t) :
  files_le x y -> files_le y z -> files_le x z.
Proof.
  unfold files_le, compare_files, strcoll.
  destruct x, y, z; try lia. apply strcmp_le_trans.
Qed.

Lemma files_le_total (x y : option file_t) : files_le x y \/ files_le y x.
Proof.
  unfold files_le, compare_files, strcoll.
  destruct x, y; try lia. apply strcmp_le_total.
Qed.

Lemma sort_insert_permutation (x : option file_t) (l : files_array) :
  Permutation (sort_insert x l) (x :: l).
Proof.
  induction l as [|y t IH]; simpl; [reflexivity |].
  destruct (compare_files x y <=? 0); [reflexivity |].
  rewrite IH. apply perm_swap.
Qed.


Lemma sort_insert_sorted (x : option file_t) (l : files_array) :
  StronglySorted files_le l -> StronglySorted files_le (sort_insert x l).
Proof.
  induction 1 as [|y t Hs IH Hy]; simpl.
  - constructor; constructor.
  - destruct (Z.leb_spec (compare_files x y) 0) as [Hle|Hgt].
    + constructor; [constructor; assumption |].
      constructor; [exact Hle |].
      eapply Forall_impl; [| exact Hy].
      intros z Hz. eapply files_le_trans; eassumption.
    + constructor; [exact IH |].
      rewrite Forall_forall. intros z Hz.
      apply (Permutation_in _ (sort_insert_permutation x t)) in Hz.
      destruct Hz as [<-|Hz].
      * destruct (files_le_total y x) as [H|H]; [exact H |].
        unfold files_le in H. lia.
      * rewrite Forall_forall in Hy. apply Hy. exact Hz.
Qed.

Lemma g_ptr_array_sort_sorted (l : files_array) :
  StronglySorted files_le (g_ptr_array_sort l).
Proof.
  induction l as [|x t IH]; simpl; [constructor |].
  apply sort_insert_sorted. exact IH.
Qed.





(** The sort leaves the terminating [NULL] in the last place, so the loop
    over the sorted array visits every file. *)
Lemma sort_keeps_terminator_last (files : list file_t) :
  exists sorted : list file_t,
    g_ptr_array_sort (terminated files) = terminated sorted
    /\ Permutation sorted files.
Proof.
  unfold terminated.
  induction files as [|f t [sorted [IH Hp]]]; simpl.
  - exists []. split; [reflexivity | constructor].
  - rewrite IH. clear IH.
    assert (Hins : forall l : list file_t,
               exists l', sort_insert (Some f) (map Some l ++ [None])
                          = map Some l' ++ [None]
                          /\ Permutation l' (f :: l)).
    { induction l as [|g l [l' [IHl Hpl]]]; simpl.
      - exists [f]. split; [reflexivity | reflexivity].
      - destruct (strcoll (fst f) (fst g) <=? 0).
        + exists (f :: g :: l). split; reflexivity.
        + rewrite IHl. exists (g :: l'). split; [reflexivity |].
          rewrite Hpl. apply perm_swap. }
    destruct (Hins sorted) as [l' [Hl' Hpl']].
    exists l'. split; [exact Hl' |].
    rewrite Hpl'. apply perm_skip. exact Hp.
Qed.

End CanonicalOrder.





(** ** Modifying a predefined format *)

(** [C2] Predefined formats are to be modifiable from the system context
    only, as the comment in front of the guard says.  The guard tests
    [current_credentials.uuid == NULL], the reverse: an authenticated user
    renames a predefined format and gets 0, and the caller without a user
    is the one refused with 99 (or stopped by the [assert] in a build with
    assertions). *)
Theorem modify_report_format_guard_is_reversed :
  (let '(ret, d) :=
     Modify.modify_report_format
       (Sample.modify_env (Some "user-1") false) Sample.rename_request
       (Sample.one_format_db Sample.predefined_row [1]) in
   ret = Returned 0
   /\ map Db.rf_name (Db.report_formats d) = ["Renamed"]
   /\ Db.report_format_predefined d 1 = 1)
  /\ fst (Modify.modify_report_format
            (Sample.modify_env None true) Sample.rename_request
            (Sample.one_format_db Sample.predefined_row [1]))
     = Returned 99
  /\ fst (Modify.modify_report_format
            (Sample.modify_env None false) Sample.rename_request
            (Sample.one_format_db Sample.predefined_row [1]))
     = Aborted.
Proof. vm_compute. repeat split; reflexivity. Qed.

(** For an authenticated caller the guard never fires: whether the format
    is predefined has no bearing on the result. *)
Lemma modify_report_format_authenticated_never_refused_as_predefined
    (E : Modify.env) (q : Modify.request) (d : Db.t) (user : string) :
  Modify.current_credentials_uuid E = Some user ->
  Modify.param_name q = None ->
  fst (Modify.modify_report_format E q d) = Returned 99 ->
  Acl.acl_user_may (Modify.acl E) "modify_report_format" = false.
Proof.
  intros Hu Hp. unfold Modify.modify_report_format.
  destruct (Modify.report_format_id q) as [id|]; [| simpl; discriminate].
  destruct (match Modify.predefined q with
            | Some p => _ | None => false end); [simpl; discriminate |].
  rewrite Hu, Hp.
  destruct (Acl.acl_user_may (Modify.acl E) "modify_report_format");
    [| reflexivity].
  simpl negb. cbv iota.
  destruct (Acl.find_report_format_with_permission _ _ _ _)
    as [failed report_format].
  destruct failed; [simpl; discriminate |].
  destruct (report_format =? 0); simpl; discriminate.
Qed.

(** ** Template composition: the chain of formats in progress *)

Section ComposeChain.

Import Compose.

Lemma g_list_remove_appended (l : list gchar_p) (data : gchar_p) :
  ~ In data l -> g_list_remove (l ++ [data]) data = l.
Proof.
  induction l as [|p t IH]; simpl; intros Hn.
  - rewrite Nat.eqb_refl. reflexivity.
  - destruct (Nat.eqb_spec p data) as [->|_]; [tauto |].
    f_equal. apply IH. tauto.
Qed.

Lemma strcmp_refl (s : string) : strcmp s s = 0.
Proof. apply strcmp_zero_iff. reflexivity. Qed.

(** A pointer the cycle check did not find is not in the list. *)
Lemma not_found_not_in (w : world) (l : list gchar_p) (data : gchar_p) :
  g_list_find_custom w l data = false -> ~ In data l.
Proof.
  unfold g_list_find_custom. intros Hf Hin.
  assert (Ht : existsb (fun p => strcmp (deref w p) (deref w data) =? 0) l
               = true).
  { apply existsb_exists. exists data. split; [exact Hin |].
    rewrite strcmp_refl. reflexivity. }
  congruence.
Qed.

(** The loop hands the list through when every call does. *)
Lemma subreports_loop_keeps_used_rfps (E : env)
    (call : gchar_p -> string -> string -> list gchar_p -> world
            -> option (option string * list gchar_p * world)) :
  (forall dep xml dir used w r used' w',
      call dep xml dir used w = Some (r, used', w') -> used' = used) ->
  forall deps st st',
    subreports_loop E call deps st = Some st' ->
    ls_used_rfps st' = ls_used_rfps st.
Proof.
  intros Hcall deps.
  induction deps as [|dep rest IH]; simpl; intros st st' H.
  - injection H as <-. reflexivity.
  - destruct (mkdtemp E (clock (ls_world st))) as [dir|].
    + destruct (contains _ _).
      * apply IH in H. exact H.
      * destruct (call dep _ dir (ls_used_rfps st) (tick (ls_world st)))
          as [[[r used'] w']|] eqn:Hc; [| discriminate].
        apply IH in H. simpl in H. rewrite H.
        eapply Hcall. exact Hc.
    + injection H as <-. reflexivity.
Qed.

Lemma generate_pair (E : env) (report_format : Z)
    (id xml_file xml_dir manifest : string) (w : world) :
  exists r w', generate E report_format id xml_file xml_dir manifest w = (r, w').
Proof.
  destruct (generate E report_format id xml_file xml_dir manifest w) as [r w'].
  eauto.
Qed.

Lemma apply_keeps_used_rfps (fuel : nat) (E : env) :
  forall report_format_id xml_file xml_dir used_rfps w r used' w',
    apply_report_format fuel E report_format_id xml_file xml_dir used_rfps w
    = Some (r, used', w') ->
    used' = used_rfps.
Proof.
  induction fuel as [|fuel IH]; intros id xf xd used w r used' w' H;
    [discriminate |].
  cbn [apply_report_format] in H.
  destruct (g_list_find_custom w used id) eqn:Hfind; [congruence |].
  destruct (Acl.find_report_format_with_permission _ _ _ _)
    as [failed report_format].
  destruct (failed || (report_format =? 0)); [congruence |].
  destruct (report_format_active (db E) report_format =? 0); [congruence |].
  destruct (rf_dependencies_string (db E) report_format) as [deps|].
  - destruct (g_strsplit w deps) as [ptrs w1].
    destruct (subreports_loop E (apply_report_format fuel E) ptrs _)
      as [st|] eqn:Hloop; [| discriminate].
    apply (subreports_loop_keeps_used_rfps E _ IH) in Hloop.
    cbn [ls_used_rfps] in Hloop.
    destruct (generate E report_format (deref w id) xf xd _ (ls_world st))
      as [out w2].
    injection H as _ <- _.
    rewrite Hloop. apply g_list_remove_appended.
    eapply not_found_not_in. exact Hfind.
  - destruct (generate E report_format (deref w id) xf xd _ w) as [out w2].
    congruence.
Qed.

End ComposeChain.

(** [C10] A call of [apply_report_format] that returns leaves the list
    [*used_rfps] as it found it, whatever it returns. *)
Theorem apply_report_format_restores_used_rfps :
  forall (fuel : nat) (E : Compose.env) (report_format_id : Compose.gchar_p)
         (xml_file xml_dir : string) (used_rfps : list Compose.gchar_p)
         (w : Compose.world) (r : option string)
         (used' : list Compose.gchar_p) (w' : Compose.world),
    Compose.apply_report_format fuel E report_format_id xml_file xml_dir
                                used_rfps w
    = Some (r, used', w') ->
    used' = used_rfps.
Proof. intros fuel E. apply apply_keeps_used_rfps. Qed.

(** ** Template composition: termination *)

Section ComposeTermination.

Import Db Compose Notions.
















End ComposeTermination.



(** The run on A -> B, C and B -> A: B is generated without a subreport
    for A, C is generated, and the manifest of A lists both. *)
Example apply_report_format_on_a_cycle :
  match Compose.apply_report_format 4 Sample.compose_env 0%nat
          "/tmp/r/report.xml" "/tmp/r" [] Sample.compose_world with
  | Some (output_file, used_rfps, w) =>
      output_file = Some "/tmp/r/A-XXXXXX.xml"
      /\ used_rfps = []
      /\ map (fun run => (Compose.run_report_format_id run,
                          Compose.run_report_format_extra run))
             (Compose.runs w)
         = [("B", "<files><basedir>/tmp/gvmd_0</basedir></files>");
            ("C", "<files><basedir>/tmp/gvmd_5</basedir></files>");
            ("A",
             Compose.files_xml Sample.compose_env "/tmp/r"
               [("B", "/tmp/gvmd_0/B-XXXXXX.xml");
                ("C", "/tmp/gvmd_5/C-XXXXXX.xml")])]
  | None => False
  end.
Proof. vm_compute. repeat split; reflexivity. Qed.

Lemma apply_report_format_restores_used_rfps_witness :
  Compose.apply_report_format 4 Sample.compose_env 0%nat
    "/tmp/r/report.xml" "/tmp/r" [1%nat] Sample.compose_world_in_progress
  = Some (Some "/tmp/r/A-XXXXXX.xml", [1%nat], Sample.compose_world_after)
  /\ [1%nat] = [1%nat].
Proof.
  assert (H : Compose.apply_report_format 4 Sample.compose_env 0%nat
                "/tmp/r/report.xml" "/tmp/r" [1%nat]
                Sample.compose_world_in_progress
              = Some (Some "/tmp/r/A-XXXXXX.xml", [1%nat],
                      Sample.compose_world_after))
    by (vm_compute; reflexivity).
  split; [exact H |].
  exact (apply_report_format_restores_used_rfps _ _ _ _ _ _ _ _ _ _ H).
Defined.

(** ** Creation: bounds at the sentinel *)

Section SentinelBounds.

Import Db Param Create Notions.

Lemma clamp_llong_range (z : Z) : LLONG_MIN <= clamp_llong z <= LLONG_MAX.
Proof.
  unfold clamp_llong, LLONG_MIN, LLONG_MAX.
  destruct (Z.ltb_spec z (- 2 ^ 63)); [lia |].
  destruct (Z.ltb_spec (2 ^ 63 - 1) z); lia.
Qed.

Lemma strtoll_range (s : string) : LLONG_MIN <= strtoll s <= LLONG_MAX.
Proof.
  unfold strtoll, strtoll_end.
  destruct (match skip_space s with
            | String "-" t => (true, t)
            | String "+" t => (false, t)
            | _ => (false, skip_space s)
            end) as [neg s2].
  destruct (match s2 with
            | String "0" (String x (String h t)) => _
            | String "0" _ => (8, s2)
            | _ => (10, s2)
            end) as [base s3].
  destruct (read_digits base s3 0 false) as [[n any] rest].
  destruct any; cbn [fst].
  - apply clamp_llong_range.
  - unfold LLONG_MIN, LLONG_MAX. lia.
Qed.









End SentinelBounds.

(** ** Creation: how a call ends *)

Section CreateOutcome.

Import Db Param Create Notions.

Lemma format_params_code :
  forall ps options index code,
    format_params ps options index = inl code -> code <> 0.
Proof.
  induction ps as [|p rest IH]; intros options index code;
    cbn [format_params]; [discriminate |].
  unfold format_bound.
  destruct (type_min p) as [tmin|];
    [destruct (strtoll tmin =? LLONG_MIN); [cbn; intros [= <-]; lia |] |];
    (destruct (type_max p) as [tmax|];
     [destruct (strtoll tmax =? LLONG_MAX); [cbn; intros [= <-]; lia |] |]);
    cbn [bind_early];
    (destruct (nth_error options index) as [[o|]|];
     try (cbn; intros [= <-]; lia));
    cbn [bind_early];
    (destruct (format_params rest options (S index)) as [c|tail] eqn:Ht;
     [cbn; intros [= <-]; eapply IH; exact Ht | cbn; discriminate]).
Qed.

Lemma block_return_code (E : env) (q : request) (tmp : Verifier.tmp_files)
    (code : Z) :
  block_return (verify_block E q tmp) = Some code -> code <> 0.
Proof.
  unfold verify_block.
  destruct (Signature.find_signature _ _ _ _) as [[found fsig] ua].
  destruct (_ || _); [| cbn; discriminate].
  unfold canonical_format.
  destruct (format_params (params q) (params_options q) 0) as [c|body] eqn:Hf.
  - cbn. intros [= <-]. eapply format_params_code. exact Hf.
  - cbn [bind_early].
    destruct (Verifier.verify_signature _ _ _ _ _) as [[ret trust] tmp'].
    cbn. destruct (ret =? 0); [discriminate |]. intros [= <-]. lia.
Qed.

Lemma write_files_code (E : env) :
  forall fs code, write_files E fs = inl code -> code <> 0.
Proof.
  induction fs as [|[[file_name content]|] t IH]; intros code;
    cbn [write_files]; try discriminate.
  destruct (strlen file_name =? 0); [intros [= <-]; lia |].
  destruct (negb (io_ok E (Write_file file_name))); [intros [= <-]; lia |].
  destruct (negb (io_ok E (Chmod_file file_name))); [intros [= <-]; lia |].
  apply IH.
Qed.

Lemma add_param_code (d : Db.t) (rowid : Z)
    (param : create_report_format_param_t)
    (options : option (option (list string))) (code : Z) :
  add_param d rowid param options = inl code -> code <> 0.
Proof.
  unfold add_param.
  destruct (type param) as [type_name|]; [| intros [= <-]; lia].
  destruct (_ =? REPORT_FORMAT_PARAM_TYPE_ERROR); [intros [= <-]; lia |].
  destruct (type_min param) as [tmin|];
    [destruct (strtoll tmin =? LLONG_MIN); [cbn; intros [= <-]; lia |] |];
    (destruct (type_max param) as [tmax|];
     [destruct (strtoll tmax =? LLONG_MAX); [cbn; intros [= <-]; lia |] |]);
    cbn [bind_early];
    (destruct (fallback param) as [fb|]; [| intros [= <-]; lia]);
    (destruct (find_param d rowid (name param)); [intros [= <-]; lia |]);
    cbn [insert_param];
    (destruct options as [[options|]|]; try (intros [= <-]; lia));
    (destruct (negb (validate_param_value _ _ _ _ (value param) =? 0));
     [intros [= <-]; lia |]);
    (destruct (negb (validate_param_value _ _ _ _ fb =? 0));
     [intros [= <-]; lia | discriminate]).
Qed.

Lemma add_params_code :
  forall ps d rowid options index code,
    add_params d rowid ps options index = inl code -> code <> 0.
Proof.
  induction ps as [|p rest IH]; intros d rowid options index code;
    cbn [add_params]; [discriminate |].
  destruct (add_param d rowid p (nth_error options index)) as [c|d1] eqn:Hp;
    cbn [bind_early].
  - intros [= <-]. eapply add_param_code. exact Hp.
  - apply IH.
Qed.

(** What a committed transaction did: it inserted the row with the trust
    the verification block left, then stored the params. *)
Lemma transaction_success (E : env) (q : request) (v : verified_state)
    (d d' : Db.t) :
  transaction E q v d = inl (inr d') ->
  exists row_uuid row_name owner,
    add_params
      (fst (insert_report_format d row_uuid row_name owner q
              (signature_used v) (format_trust v) (time_now E) (m_now E)))
      (report_formats_seq d + 1) (params q) (params_options q) 0
    = inr d'.
Proof.
  unfold transaction.
  destruct (negb (acl_user_may E "create_report_format")); [discriminate |].
  destruct (negb (global q =? 0) && negb (acl_user_can_everything E _));
    [discriminate |].
  match goal with
  | |- match ?link with inl _ => _ | inr _ => _ end = _ -> _ =>
      destruct link as [code|new_uuid]; [discriminate |]
  end.
  destruct (candidate_name _ _ _ _ _) as [row_name|]; [| discriminate].
  destruct (negb (global q =? 0) && negb (NDEBUG E)); [discriminate |].
  destruct (dir_exists E && negb (io_ok E Remove_dir)); [discriminate |].
  destruct (negb (io_ok E Mkdir_dir)); [discriminate |].
  destruct ((global q =? 0) && negb (io_ok E Chmod_owner_dir));
    [discriminate |].
  destruct (negb (io_ok E Chmod_dir)); [discriminate |].
  cbn [bind_early].
  destruct (write_files E (files_after v)); [discriminate |].
  cbn [bind_early insert_report_format].
  intros H. injection H as H.
  eexists _, _, _. cbn [fst insert_report_format]. exact H.
Qed.

Lemma transaction_code (E : env) (q : request) (v : verified_state)
    (d : Db.t) (code : Z) :
  transaction E q v d = inl (inl code) -> code <> 0.
Proof.
  unfold transaction.
  destruct (negb (acl_user_may E "create_report_format"));
    [intros [= <-]; lia |].
  destruct (negb (global q =? 0) && negb (acl_user_can_everything E _));
    [intros [= <-]; lia |].
  match goal with
  | |- match ?link with inl _ => _ | inr _ => _ end = _ -> _ =>
      assert (Hlink : forall c, link = inl c -> c <> 0);
      [| destruct link as [c|new_uuid];
         [intros [= <-]; apply Hlink; reflexivity |]]
  end.
  { intros c.
    destruct (_ || _); [| discriminate].
    destruct (gvm_uuid_make E); [| intros [= <-]; lia].
    destruct (_ && _); [intros [= <-]; lia |].
    destruct (negb (io_ok E Mkdir_signatures)); [intros [= <-]; lia |].
    destruct (negb (io_ok E Symlink_signature)); [intros [= <-]; lia |].
    discriminate. }
  destruct (candidate_name _ _ _ _ _) as [row_name|]; [| discriminate].
  destruct (negb (global q =? 0) && negb (NDEBUG E)); [discriminate |].
  destruct (dir_exists E && negb (io_ok E Remove_dir));
    [intros [= <-]; lia |].
  destruct (negb (io_ok E Mkdir_dir)); [intros [= <-]; lia |].
  destruct ((global q =? 0) && negb (io_ok E Chmod_owner_dir));
    [intros [= <-]; lia |].
  destruct (negb (io_ok E Chmod_dir)); [intros [= <-]; lia |].
  cbn [bind_early].
  destruct (write_files E (files_after v)) as [c|[]] eqn:Hw.
  - intros [= <-]. eapply write_files_code. exact Hw.
  - cbn [bind_early insert_report_format].
    intros H. injection H as H. eapply add_params_code. exact H.
Qed.

(** A creation that returns 0 committed a transaction; any other end
    leaves the tables as they were. *)
Lemma create_success (E : env) (q : request) (d : Db.t)
    (tmp : Verifier.tmp_files) :
  res_outcome (create_report_format E q d tmp) = Returned 0 ->
  block_return (verify_block E q tmp) = None
  /\ transaction E q (verify_block E q tmp) d
     = inl (inr (res_db (create_report_format E q d tmp))).
Proof.
  unfold create_report_format.
  destruct (current_credentials_uuid E), (NDEBUG E); try (cbn; discriminate).
  all: destruct (block_return (verify_block E q tmp)) as [code|] eqn:Hb;
    [ cbn; intros [= ->]; exfalso;
      exact (block_return_code E q tmp 0 Hb eq_refl) | ].
  all: destruct (transaction E q (verify_block E q tmp) d)
         as [[code|d']|o] eqn:Ht; cbn.
  all: try (intros [= ->]; exfalso;
            exact (transaction_code E q _ d 0 Ht eq_refl)).
  all: try (intros _; split; reflexivity).
  all: unfold transaction in Ht; intros ->.
  all: repeat match type of Ht with
         | (if ?c then _ else _) = _ => destruct c; try discriminate
         | match ?c with _ => _ end = _ => destruct c; try discriminate
         end.
Qed.


End CreateOutcome.




(** Runs of the definitions: with a signature in the feed the same
    sentinel is answered 6 by the verification block, and a request with
    bounds inside the range is stored. *)
Example sentinel_bound_runs :
  Create.res_outcome
    (Create.create_report_format
       (Sample.create_env Sample.trees)
       (Sample.create_request None
          [Sample.integer_param (Some "-9223372036854775808")])
       Sample.empty_db [])
  = Returned 6
  /\ Create.res_outcome
       (Create.create_report_format
          (Sample.create_env Sample.no_trees)
          (Sample.create_request None
             [Sample.integer_param (Some "-9223372036854775808")])
          Sample.empty_db [])
     = Returned 6
  /\ Create.res_outcome
       (Create.create_report_format
          (Sample.create_env Sample.trees)
          (Sample.create_request None [Sample.integer_param (Some "0")])
          Sample.empty_db [])
     = Returned 0
  /\ strtoll "-9223372036854775809" = LLONG_MIN
  /\ strtoll "0x7fffffffffffffff" = LLONG_MAX
  /\ strtoll " -0x10" = -16
  /\ strtoll "017" = 15.
Proof. vm_compute. repeat split; reflexivity. Qed.

(** ** Creation: the loop for a free name ends *)

Section FreeName.

Import Db Create Notions.










End FreeName.

(** ** Creation: acceptable params are stored *)

Section AcceptableParams.

Import Db Param Create Notions.

Lemma find_none_iff {A : Type} (f : A -> bool) (l : list A) :
  (forall x, In x l -> f x = false) -> find f l = None.
Proof.
  induction l as [|x t IH]; simpl; intros H; [reflexivity |].
  rewrite (H x (or_introl eq_refl)). apply IH. auto.
Qed.

Lemma find_app_last {A : Type} (f : A -> bool) (l : list A) (x : A) :
  find f l = None -> f x = true -> find f (l ++ [x]) = Some x.
Proof.
  induction l as [|y t IH]; simpl; intros Hn Hx.
  - rewrite Hx. reflexivity.
  - destruct (f y); [discriminate |]. apply IH; assumption.
Qed.

Lemma insert_options_result (param : Z) (options : list string) :
  forall d,
    let d' := fold_left (fun d o => insert_option d param o) options d in
    report_formats d' = report_formats d
    /\ report_format_params d' = report_format_params d
    /\ report_format_params_seq d' = report_format_params_seq d
    /\ report_formats_seq d' = report_formats_seq d
    /\ exists rows,
         report_format_param_options d'
         = report_format_param_options d ++ rows
         /\ map o_value rows = options
         /\ Forall (fun o => o_report_format_param o = param) rows.
Proof.
  induction options as [|o rest IH]; intros d; cbn [fold_left].
  - repeat split. exists []. repeat split; [symmetry; apply app_nil_r |].
    constructor.
  - specialize (IH (insert_option d param o)). cbv zeta in IH.
    destruct IH as [H1 [H2 [H3 [H4 [rows [H5 [H6 H7]]]]]]].
    cbv zeta. repeat split; try assumption.
    eexists (_ :: rows). split; [| split].
    + rewrite H5. cbn [insert_option report_format_param_options].
      rewrite <- app_assoc. reflexivity.
    + cbn [map o_value]. rewrite H6. reflexivity.
    + constructor; [reflexivity | exact H7].
Qed.

Lemma strcmp_eqb (a b : string) : (strcmp a b =? 0) = String.eqb a b.
Proof.
  destruct (String.eqb_spec a b) as [->|Hne].
  - rewrite strcmp_refl. reflexivity.
  - apply Z.eqb_neq. intros H. apply strcmp_zero_iff in H. contradiction.
Qed.



End AcceptableParams.

Section AcceptableParamsStored.

Import Db Param Create Notions.



Lemma filter_none {A : Type} (f : A -> bool) (l : list A) :
  (forall x, In x l -> f x = false) -> filter f l = [].
Proof.
  induction l as [|x t IH]; simpl; intros H; [reflexivity |].
  rewrite (H x (or_introl eq_refl)). apply IH. auto.
Qed.

Lemma filter_all {A : Type} (f : A -> bool) (l : list A) :
  (forall x, In x l -> f x = true) -> filter f l = l.
Proof.
  induction l as [|x t IH]; simpl; intros H; [reflexivity |].
  rewrite (H x (or_introl eq_refl)). f_equal. apply IH. auto.
Qed.





End AcceptableParamsStored.

Section ValidCreation.

Import Db Param Create Notions.


End ValidCreation.



(** ** The feed: reading a descriptor *)

Section FeedReading.

Import Db Param Feed Descriptor.






End FeedReading.

(** ** The feed: one walk over descriptors the tables hold *)

Section FeedStep.

Import Db Param Sql Feed Descriptor.

Variable E : env.




























Lemma defaults_changed_combine (st fd : t) :
  existsb default_changed (combine (ds_params st) (ds_params fd))
  = defaults_changed (st, fd).
Proof. reflexivity. Qed.



Lemma NoDup_map_eq {A B : Type} (f : A -> B) (l : list A) (a b : A) :
  NoDup (map f l) -> In a l -> In b l -> f a = f b -> a = b.
Proof.
  induction l as [|x t IH]; intros Hnd Ha Hb Hab; [contradiction |].
  cbn [map] in Hnd. apply NoDup_cons_iff in Hnd. destruct Hnd as [Hx Hnd].
  destruct Ha as [<-|Ha], Hb as [<-|Hb].
  - reflexivity.
  - exfalso. apply Hx. rewrite Hab. apply in_map. exact Hb.
  - exfalso. apply Hx. rewrite <- Hab. apply in_map. exact Ha.
  - apply IH; assumption.
Qed.



















End FeedStep.

(** ** C8: the walk stamps exactly the format whose default changed *)




(** A default that changed in its surrounding white space only is stored
    as before, and no report format is stamped. *)
Example feed_rerun_with_default_changed_in_white_space :
  Descriptor.stamps
    (Feed.check_db_report_formats FeedSample.second_env
       (Descriptor.directory
          [FeedSample.alpha;
           Descriptor.with_params FeedSample.beta
             [Descriptor.with_default FeedSample.depth " 5 "]])
       FeedSample.stored_db)
  = Descriptor.stamps FeedSample.stored_db.
Proof. vm_compute. reflexivity. Qed.

(* ================================================================== *)
(** * Part III: further properties of the code *)
(* ================================================================== *)

(** ** Lists and strings *)

Section ListFacts.

Lemma append_empty_r (a : string) : a +++ "" = a.
Proof.
  induction a as [|x a IH]; cbn [String.append];
    [reflexivity | rewrite IH; reflexivity].
Qed.

Lemma append_assoc (a b c : string) : (a +++ b) +++ c = a +++ (b +++ c).
Proof.
  induction a as [|x a IH]; cbn [String.append];
    [reflexivity | rewrite IH; reflexivity].
Qed.

Lemma concat_cons (x : string) (xs : list string) :
  String.concat "" (x :: xs) = x +++ String.concat "" xs.
Proof.
  destruct xs as [|y t]; cbn [String.concat].
  - symmetry. apply append_empty_r.
  - reflexivity.
Qed.

Lemma find_map_update {A : Type} (cond : A -> bool) (key : A -> bool)
    (set : A -> A) (l : list A) :
  (forall x, key (set x) = key x) ->
  find key (map (fun x => if cond x then set x else x) l)
  = option_map (fun x => if cond x then set x else x) (find key l).
Proof.
  intros Hkey. induction l as [|x t IH]; [reflexivity |].
  cbn [map find].
  assert (Hk : key (if cond x then set x else x) = key x)
    by (destruct (cond x); [apply Hkey | reflexivity]).
  rewrite Hk. destruct (key x); [reflexivity | exact IH].
Qed.


Lemma find_filter_keeps {A : Type} (key keep : A -> bool) (l : list A) :
  (forall x, key x = true -> keep x = true) ->
  find key (filter keep l) = find key l.
Proof.
  intros Hkeep. induction l as [|x t IH]; [reflexivity |].
  cbn [filter find]. destruct (key x) eqn:Hkey.
  - rewrite (Hkeep x Hkey). cbn [find]. rewrite Hkey. reflexivity.
  - destruct (keep x); [cbn [find]; rewrite Hkey |]; exact IH.
Qed.

Lemma filter_filter_keeps {A : Type} (f keep : A -> bool) (l : list A) :
  (forall x, f x = true -> keep x = true) ->
  filter f (filter keep l) = filter f l.
Proof.
  intros Hkeep. induction l as [|x t IH]; [reflexivity |].
  cbn [filter]. destruct (f x) eqn:Hf.
  - rewrite (Hkeep x Hf). cbn [filter]. rewrite Hf, IH. reflexivity.
  - destruct (keep x); [cbn [filter]; rewrite Hf |]; exact IH.
Qed.

Lemma filter_app_only {A : Type} (f : A -> bool) (old new later : list A) :
  (forall x, In x old -> f x = false) ->
  (forall x, In x new -> f x = true) ->
  (forall x, In x later -> f x = false) ->
  filter f ((old ++ new) ++ later) = new.
Proof.
  intros Hold Hnew Hlater.
  rewrite !filter_app, (filter_none f old Hold), (filter_all f new Hnew),
    (filter_none f later Hlater).
  cbn [app]. apply app_nil_r.
Qed.

Lemma NoDup_map_injective {A B : Type} (f : A -> B) (l : list A) :
  NoDup l ->
  (forall x y, In x l -> In y l -> f x = f y -> x = y) ->
  NoDup (map f l).
Proof.
  induction 1 as [|x l Hx Hnd IH]; intros Hinj; cbn [map]; constructor.
  - intros Hin. apply in_map_iff in Hin. destruct Hin as [y [Hy Hyl]].
    assert (y = x).
    { apply Hinj; [right; exact Hyl | left; reflexivity | exact Hy]. }
    subst y. contradiction.
  - apply IH. intros a b Ha Hb. apply Hinj; right; assumption.
Qed.

End ListFacts.

(** ** The signature verifier, once more *)

(** [X1] When [verify_signature] returns 0 the trust is Yes exactly when
    [gpgv] was started, exited by itself and exited with code 0: a wait
    status left over from before, a signal or another exit code never
    gives Yes. *)
Theorem verify_signature_trusts_only_a_clean_exit
    (E : Verifier.env) (installer signature : string) (trust : Z)
    (tmp : Verifier.tmp_files) :
  fst (fst (Verifier.verify_signature E installer signature trust tmp)) = 0 ->
  (snd (fst (Verifier.verify_signature E installer signature trust tmp))
   = TRUST_YES
   <-> exists status,
         Verifier.g_spawn_sync E installer signature
         = Verifier.SpawnReturned status
         /\ WIFEXITED status = true
         /\ WEXITSTATUS status = 0).
Proof.
  unfold Verifier.verify_signature.
  destruct (Verifier.mkstemp_installer E) as [fi|]; [| cbn; discriminate].
  destruct (Verifier.installer_written E); [| cbn; discriminate].
  destruct (Verifier.mkstemp_signature E) as [fs|]; [| cbn; discriminate].
  destruct (Verifier.signature_written E); [| cbn; discriminate].
  cbn [negb]. cbv iota.
  destruct (Verifier.g_spawn_sync E installer signature) as [|status];
    cbn [fst snd negb orb]; intros _.
  - split.
    + destruct (WEXITSTATUS (Verifier.stale_exit_status E) =? 1);
        discriminate.
    + intros [status [H _]]. discriminate.
  - destruct (WIFEXITED status) eqn:Hw; cbn [negb orb].
    + destruct (Z.eqb_spec (WEXITSTATUS status) 0) as [Hz|Hz]; cbn [negb].
      * split; [| reflexivity]. intros _. exists status.
        split; [reflexivity | split; assumption].
      * split.
        -- destruct (WEXITSTATUS status =? 1); discriminate.
        -- intros [s [[= <-] [_ H]]]. contradiction.
    + split.
      * destruct (WEXITSTATUS status =? 1); discriminate.
      * intros [s [[= <-] [H _]]]. congruence.
Qed.

Lemma verify_signature_trusts_only_a_clean_exit_witness :
  snd (fst (Verifier.verify_signature Sample.verifier "payload" "signature"
              TRUST_UNKNOWN [])) = TRUST_YES
  <-> exists status,
        Verifier.g_spawn_sync Sample.verifier "payload" "signature"
        = Verifier.SpawnReturned status
        /\ WIFEXITED status = true
        /\ WEXITSTATUS status = 0.
Proof.
  apply verify_signature_trusts_only_a_clean_exit. reflexivity.
Defined.

(** [X2] A call of [verify_signature] that returns 0 leaves under [/tmp]
    exactly the files that were there before, when the two names
    [mkstemp] gave out were not among them. *)
Theorem verify_signature_leaves_tmp_as_found
    (E : Verifier.env) (installer signature : string) (trust : Z)
    (tmp : Verifier.tmp_files) :
  fst (fst (Verifier.verify_signature E installer signature trust tmp)) = 0 ->
  (forall f, Verifier.mkstemp_installer E = Some f -> ~ In f tmp) ->
  (forall f, Verifier.mkstemp_signature E = Some f -> ~ In f tmp) ->
  snd (Verifier.verify_signature E installer signature trust tmp) = tmp.
Proof.
  unfold Verifier.verify_signature.
  destruct (Verifier.mkstemp_installer E) as [fi|]; [| cbn; discriminate].
  destruct (Verifier.installer_written E); [| cbn; discriminate].
  destruct (Verifier.mkstemp_signature E) as [fs|]; [| cbn; discriminate].
  destruct (Verifier.signature_written E); [| cbn; discriminate].
  cbn [negb]. cbv iota. intros _ Hfi Hfs.
  specialize (Hfi fi eq_refl). specialize (Hfs fs eq_refl).
  assert (Hclean : Verifier.g_remove fs (Verifier.g_remove fi (fs :: fi :: tmp))
                   = tmp).
  { unfold Verifier.g_remove. cbn [filter].
    rewrite String.eqb_refl. cbn [negb].
    assert (Hkeep : forall x, ~ In x tmp ->
              filter (fun f => negb (String.eqb f x)) tmp = tmp).
    { intros x Hx. apply filter_all. intros f Hf. apply negb_true_iff.
      apply String.eqb_neq. intros ->. contradiction. }
    destruct (String.eqb fs fi) eqn:Hsame; cbn [negb filter].
    - rewrite (Hkeep fi Hfi). apply Hkeep. exact Hfs.
    - rewrite String.eqb_refl. cbn [negb]. rewrite (Hkeep fi Hfi).
      apply Hkeep. exact Hfs. }
  destruct (Verifier.g_spawn_sync E installer signature); cbn [snd];
    exact Hclean.
Qed.

Lemma verify_signature_leaves_tmp_as_found_witness :
  snd (Verifier.verify_signature Sample.verifier "payload" "signature"
         TRUST_UNKNOWN ["/tmp/other"]) = ["/tmp/other"].
Proof.
  apply verify_signature_leaves_tmp_as_found.
  - reflexivity.
  - intros f [= <-] [H|[]]. discriminate.
  - intros f [= <-] [H|[]]. discriminate.
Defined.

(** ** Values of the type report format list *)

Section ListValueFacts.

Import Db Param ListValue.

Lemma class_string_cons (c : ascii) (s : string) :
  class_string (String c s) <-> list_class c = true /\ class_string s.
Proof.
  unfold class_string. cbn [list_ascii_of_string]. split.
  - intros H. split; [apply H; left; reflexivity |].
    intros x Hx. apply H. right. exact Hx.
  - intros [Hc Hs] x [<-|Hx]; [exact Hc | apply Hs; exact Hx].
Qed.

Lemma list_match_token (first : string) :
  class_string first ->
  forall rest need,
    list_match (first +++ rest) need
    = match first with
      | EmptyString => list_match rest need
      | String _ _ => list_match rest false
      end.
Proof.
  induction first as [|c first IH]; intros Hclass rest need;
    [reflexivity |].
  apply class_string_cons in Hclass. destruct Hclass as [Hc Hs].
  cbn [String.append list_match]. rewrite Hc, (IH Hs rest false).
  destruct first; reflexivity.
Qed.

Lemma list_match_tokens (rest : list string) (tail : string) :
  Forall (fun token => token <> "" /\ class_string token) rest ->
  tail = "" \/ tail = String "010" "" ->
  list_match (join_tokens rest +++ tail) false = true.
Proof.
  intros Hrest Htail. induction Hrest as [|token rest [Hne Hclass] _ IH].
  - cbn [join_tokens String.append]. destruct Htail as [->| ->]; reflexivity.
  - cbn [join_tokens String.append list_match].
    replace (list_class ",") with false by reflexivity.
    replace (Ascii.eqb "," ",") with true by reflexivity.
    cbn [negb andb].
    replace ((token +++ join_tokens rest) +++ tail)
      with (token +++ (join_tokens rest +++ tail)).
    + rewrite (list_match_token token Hclass).
      destruct token; [contradiction | exact IH].
    + clear. induction token as [|c t IHt]; cbn [String.append];
        [reflexivity | rewrite IHt; reflexivity].
Qed.


End ListValueFacts.



(** ** The files of a request *)

Section SortedFiles.

Import Create Notions.

Lemma format_files_terminated (files : list file_t) :
  format_files (terminated files)
  = String.concat "" (map (fun f => fst f +++ snd f) files).
Proof.
  unfold terminated.
  induction files as [|[file_name content] t IH]; [reflexivity |].
  cbn [map app format_files fst snd]. rewrite IH.
  destruct t as [|g t']; cbn [map String.concat].
  - rewrite append_empty_r. reflexivity.
  - symmetry. apply (append_assoc file_name content).
Qed.

Lemma sorted_terminated (sorted : list file_t) :
  StronglySorted files_le (terminated sorted) ->
  StronglySorted (fun a b => strcoll (fst a) (fst b) <= 0) sorted.
Proof.
  unfold terminated.
  induction sorted as [|f t IH]; intros H; [constructor |].
  cbn [map app] in H. inversion H as [|x l Hs Hall]; subst.
  constructor; [apply IH; exact Hs |].
  rewrite Forall_forall in Hall |- *. intros g Hg.
  specialize (Hall (Some g)). apply Hall. apply in_or_app. left.
  apply in_map. exact Hg.
Qed.

End SortedFiles.

(** [X4] The sort leaves the files in ascending order of their names in front
    of the terminating [NULL], so the loops that stop at the first [NULL]
    meet every file: the byte string that is signed holds each file, name
    and contents, once. *)
Theorem sorted_files_are_all_signed (files : list Create.file_t) :
  exists sorted : list Create.file_t,
    Create.g_ptr_array_sort (Create.terminated files)
    = Create.terminated sorted
    /\ Permutation sorted files
    /\ StronglySorted (fun a b => strcoll (fst a) (fst b) <= 0) sorted
    /\ Create.format_files
         (Create.g_ptr_array_sort (Create.terminated files))
       = String.concat "" (map (fun f => fst f +++ snd f) sorted).
Proof.
  destruct (sort_keeps_terminator_last files) as [sorted [Heq Hperm]].
  exists sorted. split; [exact Heq |]. split; [exact Hperm |]. split.
  - apply sorted_terminated. rewrite <- Heq. apply g_ptr_array_sort_sorted.
  - rewrite Heq. apply format_files_terminated.
Qed.

(** ** Predefined resources *)

(** [X5] [resource_predefined] after [resource_set_predefined]: the
    resource reads as predefined exactly when it was set with an
    [enable] other than 0, and every other resource reads as before. *)
Theorem resource_set_predefined_then_predefined
    (d : Db.t) (resource enable other : Z) :
  Db.report_format_predefined
    (Modify.resource_set_predefined d resource enable) other
  = if other =? resource
    then (if enable =? 0 then 0 else 1)
    else Db.report_format_predefined d other.
Proof.
  unfold Db.report_format_predefined, Modify.resource_set_predefined.
  set (others := filter (fun x => negb (x =? resource))
                        (Db.resources_predefined d)).
  assert (Hothers : existsb (Z.eqb other) others
                    = negb (other =? resource)
                      && existsb (Z.eqb other) (Db.resources_predefined d)).
  { subst others. induction (Db.resources_predefined d) as [|x t IH].
    - cbn. rewrite andb_false_r. reflexivity.
    - cbn [filter existsb]. destruct (Z.eqb_spec x resource) as [->|Hx];
        cbn [negb].
      + rewrite IH. destruct (Z.eqb_spec other resource); reflexivity.
      + cbn [existsb]. rewrite IH.
        destruct (Z.eqb_spec other x) as [->|Hox]; cbn [orb].
        * destruct (Z.eqb_spec x resource); [contradiction | reflexivity].
        * reflexivity. }
  destruct (Z.eqb_spec enable 0) as [He|He]; cbn [negb];
    cbn [Db.resources_predefined Sql.with_predefined].
  - rewrite Hothers. destruct (other =? resource); reflexivity.
  - rewrite existsb_app, Hothers. cbn [existsb]. rewrite orb_false_r.
    destruct (other =? resource); cbn [negb andb orb]; [reflexivity |].
    rewrite orb_false_r. reflexivity.
Qed.

(** ** The active flag *)

Section ActiveFlag.

Import Db Sql Modify Compose.

Lemma active_bit_set (flags : Z) : Z.land (Z.lor flags 1) 1 = 1.
Proof.
  apply Z.bits_inj'. intros n Hn.
  rewrite Z.land_spec, Z.lor_spec.
  destruct (Z.testbit 1 n); [| apply andb_false_r].
  rewrite orb_true_r. reflexivity.
Qed.

Lemma active_bit_cleared (flags : Z) : Z.land (Z.land flags (Z.lnot 1)) 1 = 0.
Proof.
  apply Z.bits_inj'. intros n Hn.
  rewrite !Z.land_spec, Z.lnot_spec, Z.bits_0 by exact Hn.
  destruct (Z.testbit 1 n); cbn [negb]; rewrite ?andb_false_r; reflexivity.
Qed.

End ActiveFlag.

(** [X6] [set_report_format_active] then [report_format_active]: the flag reads
    back as it was set, the other bits of [flags] stay, and no other
    report format changes its state. *)
Theorem set_report_format_active_then_active
    (E : Modify.env) (d : Db.t) (report_format active : Z)
    (row : Db.report_format_row) :
  Db.find_report_format d report_format = Some row ->
  Compose.report_format_active
    (Modify.set_report_format_active E d report_format active) report_format
  = (if active =? 0 then 0 else 1)
  /\ (exists row',
        Db.find_report_format
          (Modify.set_report_format_active E d report_format active)
          report_format = Some row'
        /\ forall n, 1 <= n ->
             Z.testbit (Db.rf_flags row') n = Z.testbit (Db.rf_flags row) n)
  /\ forall other, other <> report_format ->
       Compose.report_format_active
         (Modify.set_report_format_active E d report_format active) other
       = Compose.report_format_active d other.
Proof.
  intros Hrow.
  unfold Compose.report_format_active, Db.find_report_format,
    Modify.set_report_format_active, Sql.update_report_formats in *.
  cbn [Db.report_formats Sql.with_report_formats].
  assert (Hid : forall x,
            (Db.rf_id x =? report_format) = true -> Db.rf_id x = report_format)
    by (intros x; apply Z.eqb_eq).
  split; [| split].
  - rewrite (find_map_update _ (fun r => Db.rf_id r =? report_format))
      by reflexivity.
    rewrite Hrow. cbn [option_map].
    apply find_some in Hrow as [_ Hrid]. rewrite Hrid.
    cbn [Sql.set_modification_time Sql.set_flags Db.rf_flags].
    destruct (active =? 0); cbn [negb].
    + rewrite active_bit_cleared. reflexivity.
    + rewrite active_bit_set. reflexivity.
  - rewrite (find_map_update _ (fun r => Db.rf_id r =? report_format))
      by reflexivity.
    rewrite Hrow. cbn [option_map].
    apply find_some in Hrow as [_ Hrid]. rewrite Hrid.
    eexists. split; [reflexivity |].
    intros n Hn.
    cbn [Sql.set_modification_time Sql.set_flags Db.rf_flags].
    destruct (active =? 0); cbn [negb].
    + rewrite Z.land_spec, Z.lnot_spec by lia.
      replace (Z.testbit 1 n) with false; [apply andb_true_r |].
      symmetry. apply (Z.bits_above_log2 1 n); cbn; lia.
    + rewrite Z.lor_spec.
      replace (Z.testbit 1 n) with false; [apply orb_false_r |].
      symmetry. apply (Z.bits_above_log2 1 n); cbn; lia.
  - intros other Hother.
    rewrite (find_map_update _ (fun r => Db.rf_id r =? other)) by reflexivity.
    destruct (find (fun r => Db.rf_id r =? other) (Db.report_formats d))
      as [r|] eqn:Hfind; [| reflexivity].
    cbn [option_map]. apply find_some in Hfind as [_ Hrid].
    apply Z.eqb_eq in Hrid.
    destruct (Z.eqb_spec (Db.rf_id r) report_format); [congruence |].
    reflexivity.
Qed.

Lemma set_report_format_active_then_active_witness :
  Compose.report_format_active
    (Modify.set_report_format_active
       (Sample.modify_env (Some "user-1") false)
       (Sample.one_format_db (Sample.stored_row "") []) 1 0) 1
  = 0.
Proof.
  exact (proj1 (set_report_format_active_then_active
                  (Sample.modify_env (Some "user-1") false)
                  (Sample.one_format_db (Sample.stored_row "") []) 1 0
                  (Sample.stored_row "") eq_refl)).
Defined.

(** ** Setting the value of a param *)

Section SetParam.

Import Db Param Sql Modify.

(** An [UPDATE] of the column [value] does not change what validation
    decides. *)
Lemma validate_param_value_after_update (d : Db.t)
    (cond : param_row -> bool) (new_value : string)
    (report_format param : Z) (name value : string) :
  validate_param_value (update_params d cond (set_value new_value))
                       report_format param name value
  = validate_param_value d report_format param name value.
Proof.
  assert (Hfind : find_param (update_params d cond (set_value new_value))
                             report_format name
                  = option_map (fun p => if cond p
                                         then set_value new_value p else p)
                               (find_param d report_format name)).
  { unfold find_param, update_params.
    cbn [report_format_params with_params].
    apply find_map_update. reflexivity. }
  unfold validate_param_value, report_format_param_type,
    report_format_param_type_min, report_format_param_type_max.
  rewrite Hfind.
  change (options_of (update_params d cond (set_value new_value)) param)
    with (options_of d param).
  destruct (find_param d report_format name) as [p|]; [| reflexivity].
  cbn [option_map]. destruct (cond p); reflexivity.
Qed.

End SetParam.

(** [X7] A value that [set_report_format_param] stores is valid for the row as
    stored: after a return of 0 every row of that name of the report
    format holds the value, validation of the value against the tables
    as they now are succeeds, and nothing but the column [value] of those
    rows has changed. *)
Theorem set_report_format_param_stores_a_valid_value
    (E : Modify.env) (d d' : Db.t) (report_format : Z) (name : string)
    (value_64 : option string) :
  Modify.set_report_format_param E d report_format name value_64 = (0, d') ->
  let value :=
    match value_64 with
    | Some v => if 0 <? strlen v then Modify.g_base64_decode E v else ""
    | None => ""
    end in
  (exists row,
     find (fun p => String.eqb (Db.p_name p) name) (Db.report_format_params d)
     = Some row
     /\ Param.validate_param_value d' report_format (Db.p_id row) name value
        = 0)
  /\ (forall p, In p (Db.report_format_params d') ->
                Db.p_report_format p = report_format ->
                Db.p_name p = name -> Db.p_value p = value)
  /\ map (Sql.set_value "") (Db.report_format_params d')
     = map (Sql.set_value "") (Db.report_format_params d)
  /\ (forall p, In p (Db.report_format_params d) ->
                ~ (Db.p_report_format p = report_format
                   /\ Db.p_name p = name) ->
                In p (Db.report_format_params d'))
  /\ Db.report_formats d' = Db.report_formats d
  /\ Db.report_format_param_options d' = Db.report_format_param_options d.
Proof.
  unfold Modify.set_report_format_param.
  destruct (find _ (Db.report_format_params d)) as [row|] eqn:Hrow;
    [| intros [= ? _]; lia].
  set (value := match value_64 with
                | Some v => if 0 <? strlen v
                            then Modify.g_base64_decode E v else ""
                | None => ""
                end).
  destruct (Z.eqb_spec (Param.validate_param_value d report_format
                          (Db.p_id row) name value) 0) as [Hvalid|Hinvalid];
    cbn [negb]; [| intros [= ? _]; lia].
  intros [= <-]. cbv zeta. fold value.
  split; [| split; [| split; [| split; [| split]]]].
  - exists row. split; [reflexivity |].
    rewrite validate_param_value_after_update. exact Hvalid.
  - intros p Hp Hrf Hname.
    unfold Sql.update_params in Hp.
    cbn [Db.report_format_params Sql.with_params] in Hp.
    apply in_map_iff in Hp. destruct Hp as [p0 [Hp Hp0]].
    destruct ((Db.p_report_format p0 =? report_format)
              && String.eqb (Db.p_name p0) name) eqn:Hk; subst p.
    + reflexivity.
    + exfalso. apply andb_false_iff in Hk. destruct Hk as [Hk|Hk].
      * apply Z.eqb_neq in Hk. contradiction.
      * apply String.eqb_neq in Hk. contradiction.
  - unfold Sql.update_params.
    cbn [Db.report_format_params Sql.with_params].
    rewrite map_map. apply map_ext. intros p.
    destruct (_ && _); reflexivity.
  - intros p Hp Hkey. unfold Sql.update_params.
    cbn [Db.report_format_params Sql.with_params].
    apply in_map_iff. exists p. split; [| exact Hp].
    destruct ((Db.p_report_format p =? report_format)
              && String.eqb (Db.p_name p) name) eqn:Hk; [| reflexivity].
    exfalso. apply Hkey. apply andb_true_iff in Hk. destruct Hk as [Hr Hn].
    apply Z.eqb_eq in Hr. apply String.eqb_eq in Hn. split; assumption.
  - reflexivity.
  - reflexivity.
Qed.

Lemma set_report_format_param_stores_a_valid_value_witness :
  exists row,
    find (fun p => String.eqb (Db.p_name p) "mode")
         (Db.report_format_params ExtraSample.selection_db) = Some row
    /\ Param.validate_param_value
         (snd (Modify.set_report_format_param
                 (Sample.modify_env (Some "user-1") false)
                 ExtraSample.selection_db 1 "mode" (Some "a")))
         1 (Db.p_id row) "mode" "a" = 0.
Proof.
  exact (proj1 (set_report_format_param_stores_a_valid_value
                  (Sample.modify_env (Some "user-1") false)
                  ExtraSample.selection_db
                  (snd (Modify.set_report_format_param
                          (Sample.modify_env (Some "user-1") false)
                          ExtraSample.selection_db 1 "mode" (Some "a")))
                  1 "mode" (Some "a") eq_refl)).
Defined.

(** [X8] [set_report_format_param] looks the param up by its name alone: for a
    selection it accepts exactly the values among the options of the
    first param of that name in the table, whichever report format that
    param belongs to. *)
Theorem set_report_format_param_checks_options_of_first_name
    (E : Modify.env) (d : Db.t) (report_format : Z) (name : string)
    (value_64 : option string) (first own : Db.param_row) :
  find (fun p => String.eqb (Db.p_name p) name) (Db.report_format_params d)
  = Some first ->
  Db.find_param d report_format name = Some own ->
  Db.p_type own = Param.REPORT_FORMAT_PARAM_TYPE_SELECTION ->
  let value :=
    match value_64 with
    | Some v => if 0 <? strlen v then Modify.g_base64_decode E v else ""
    | None => ""
    end in
  fst (Modify.set_report_format_param E d report_format name value_64)
  = if existsb (fun o => String.eqb (Db.o_value o) value)
               (Db.options_of d (Db.p_id first))
    then 0 else 2.
Proof.
  intros Hfirst Hown Htype value.
  unfold Modify.set_report_format_param. rewrite Hfirst. fold value.
  unfold Param.validate_param_value, Param.report_format_param_type.
  rewrite Hown, Htype.
  change (Param.REPORT_FORMAT_PARAM_TYPE_SELECTION
          =? Param.REPORT_FORMAT_PARAM_TYPE_INTEGER) with false.
  rewrite Z.eqb_refl. cbv iota.
  assert (Hex : existsb (fun o => strcmp (Db.o_value o) value =? 0)
                        (Db.options_of d (Db.p_id first))
                = existsb (fun o => String.eqb (Db.o_value o) value)
                          (Db.options_of d (Db.p_id first))).
  { induction (Db.options_of d (Db.p_id first)) as [|o t IH];
      [reflexivity |].
    cbn [existsb]. rewrite IH, strcmp_eqb. reflexivity. }
  rewrite Hex.
  destruct (existsb (fun o => String.eqb (Db.o_value o) value) _);
    reflexivity.
Qed.

Lemma set_report_format_param_checks_options_of_first_name_witness :
  fst (Modify.set_report_format_param
         (Sample.modify_env (Some "user-1") false)
         ExtraSample.selection_db 2 "mode" (Some "b"))
  = if existsb (fun o => String.eqb (Db.o_value o) "b")
               (Db.options_of ExtraSample.selection_db 1)
    then 0 else 2.
Proof.
  exact (set_report_format_param_checks_options_of_first_name
           (Sample.modify_env (Some "user-1") false)
           ExtraSample.selection_db 2 "mode" (Some "b")
           (ExtraSample.selection_param 1 1)
           (ExtraSample.selection_param 2 2) eq_refl eq_refl eq_refl).
Defined.

(** ** [modify_report_format]: what is committed before the param *)

Section ModifyFields.

Import Db Param Sql Modify.

(** A row found by its id is found again after an [UPDATE] of the rows
    of an id, changed if the id is its own. *)
Lemma find_report_format_updated (d : Db.t) (target id : Z)
    (set : report_format_row -> report_format_row) :
  (forall r, rf_id (set r) = rf_id r) ->
  find_report_format (update_report_formats d (fun r => rf_id r =? target) set)
                     id
  = option_map (fun r => if rf_id r =? target then set r else r)
               (find_report_format d id).
Proof.
  intros Hid. unfold find_report_format, update_report_formats.
  cbn [report_formats with_report_formats].
  apply find_map_update. intros r. rewrite Hid. reflexivity.
Qed.

Lemma set_report_format_param_failure (E : env) (d d' : Db.t)
    (report_format ret : Z) (name : string) (value_64 : option string) :
  set_report_format_param E d report_format name value_64 = (ret, d') ->
  ret <> 0 -> d' = d.
Proof.
  unfold set_report_format_param.
  destruct (find _ _) as [row|]; [| intros [= _ <-]; reflexivity].
  destruct (negb _); intros [= <- <-]; [reflexivity | contradiction].
Qed.

End ModifyFields.

(** [X9] [modify_report_format] commits the new name, summary and active flag
    before it looks at the param: a call that answers 3 (no such param)
    or 4 (value not valid) has renamed the report format all the same. *)
Theorem modify_report_format_keeps_name_when_param_fails
    (E : Modify.env) (q : Modify.request) (d d' : Db.t) (code : Z)
    (new_name : string) :
  Modify.modify_report_format E q d = (Returned code, d') ->
  code = 3 \/ code = 4 ->
  Modify.name q = Some new_name ->
  exists id report_format,
    Modify.report_format_id q = Some id
    /\ Acl.find_report_format_with_permission (Modify.acl E) d id
         "modify_report_format" = (false, report_format)
    /\ forall row,
         Db.find_report_format d report_format = Some row ->
         exists row',
           Db.find_report_format d' report_format = Some row'
           /\ Db.rf_name row' = new_name.
Proof.
  intros Hrun Hcode Hname. unfold Modify.modify_report_format in Hrun.
  destruct (Modify.report_format_id q) as [id|];
    [| injection Hrun as <- _; lia].
  destruct (match Modify.predefined q with
            | Some p => _
            | None => false
            end); [injection Hrun as <- _; lia |].
  assert (Hbody :
    (if negb (Acl.acl_user_may (Modify.acl E) "modify_report_format")
     then (Returned 99, d)
     else
       let '(failed, report_format) :=
         Acl.find_report_format_with_permission
           (Modify.acl E) d id "modify_report_format" in
       if failed then (Returned (-1), d)
       else if report_format =? 0 then (Returned 1, d)
       else if match Modify.current_credentials_uuid E with
               | None => true
               | Some _ => false
               end
               && negb (Db.report_format_predefined d report_format =? 0)
       then (Returned 99, d)
       else
         let d := Modify.apply_if (Modify.name q)
                    (fun n d => Modify.set_report_format_name
                                  E d report_format n) d in
         let d := Modify.apply_if (Modify.summary q)
                    (fun s d => Modify.set_report_format_summary
                                  E d report_format s) d in
         let d := Modify.apply_if (Modify.active q)
                    (fun a d => Modify.set_report_format_active
                                  E d report_format (strcmp a "0")) d in
         let d := Modify.apply_if (Modify.predefined q)
                    (fun p d => Modify.resource_set_predefined
                                  d report_format (strcmp p "0")) d in
         match Modify.param_name q with
         | Some pn =>
             let '(ret, d) :=
               Modify.set_report_format_param E d report_format pn
                                              (Modify.param_value q) in
             let ret := if ret =? 1 then 3 else ret in
             let ret := if ret =? 2 then 4 else ret in
             (Returned ret, d)
         | None => (Returned 0, d)
         end) = (Returned code, d')).
  { destruct (Modify.current_credentials_uuid E), (Modify.NDEBUG E);
      try exact Hrun. discriminate. }
  clear Hrun.
  destruct (negb (Acl.acl_user_may _ _)); [injection Hbody as <- _; lia |].
  destruct (Acl.find_report_format_with_permission _ _ _ _)
    as [failed report_format] eqn:Hfind.
  destruct failed; [injection Hbody as <- _; lia |].
  destruct (report_format =? 0); [injection Hbody as <- _; lia |].
  destruct (_ && _); [injection Hbody as <- _; lia |].
  cbv zeta in Hbody. rewrite Hname in Hbody.
  cbn [Modify.apply_if] in Hbody.
  destruct (Modify.param_name q) as [pn|]; [| injection Hbody as <- _; lia].
  destruct (Modify.set_report_format_param _ _ _ _ _) as [ret d1] eqn:Hset.
  injection Hbody as Hret <-.
  assert (Hfail : ret <> 0).
  { intros ->. cbn in Hret. lia. }
  rewrite (set_report_format_param_failure _ _ _ _ _ _ _ Hset Hfail).
  exists id, report_format. split; [reflexivity |]. split; [exact Hfind |].
  intros row Hrow.
  assert (Hrid : Db.rf_id row = report_format).
  { apply find_some in Hrow as [_ H]. apply Z.eqb_eq in H. exact H. }
  assert (Hrenamed :
    exists r1,
      Db.find_report_format
        (Modify.set_report_format_name E d report_format new_name)
        report_format = Some r1
      /\ Db.rf_name r1 = new_name).
  { unfold Modify.set_report_format_name.
    rewrite find_report_format_updated by reflexivity.
    rewrite Hrow. cbn [option_map]. rewrite Hrid, Z.eqb_refl.
    eexists. split; reflexivity. }
  destruct Hrenamed as [r1 [Hr1 Hn1]].
  assert (Hsummary :
    exists r2,
      Db.find_report_format
        (Modify.apply_if (Modify.summary q)
           (fun s d => Modify.set_report_format_summary E d report_format s)
           (Modify.set_report_format_name E d report_format new_name))
        report_format = Some r2
      /\ Db.rf_name r2 = new_name).
  { destruct (Modify.summary q) as [s|]; cbn [Modify.apply_if].
    - unfold Modify.set_report_format_summary.
      rewrite find_report_format_updated by reflexivity.
      rewrite Hr1. cbn [option_map].
      destruct (Db.rf_id r1 =? report_format); eexists;
        (split; [reflexivity | exact Hn1]).
    - exists r1. split; assumption. }
  destruct Hsummary as [r2 [Hr2 Hn2]].
  assert (Hactive :
    exists r3,
      Db.find_report_format
        (Modify.apply_if (Modify.active q)
           (fun a d => Modify.set_report_format_active E d report_format
                         (strcmp a "0"))
           (Modify.apply_if (Modify.summary q)
              (fun s d => Modify.set_report_format_summary E d
                            report_format s)
              (Modify.set_report_format_name E d report_format new_name)))
        report_format = Some r3
      /\ Db.rf_name r3 = new_name).
  { destruct (Modify.active q) as [a|]; cbn [Modify.apply_if].
    - unfold Modify.set_report_format_active.
      rewrite find_report_format_updated by reflexivity.
      rewrite Hr2. cbn [option_map].
      destruct (Db.rf_id r2 =? report_format); eexists;
        (split; [reflexivity | exact Hn2]).
    - exists r2. split; assumption. }
  destruct Hactive as [r3 [Hr3 Hn3]].
  exists r3. split; [| exact Hn3].
  destruct (Modify.predefined q) as [p|]; cbn [Modify.apply_if];
    exact Hr3.
Qed.

Lemma modify_report_format_keeps_name_when_param_fails_witness :
  exists id report_format,
    Modify.report_format_id ExtraSample.rename_and_set_request = Some id
    /\ Acl.find_report_format_with_permission
         (Modify.acl (Sample.modify_env (Some "user-1") false))
         (Sample.one_format_db (Sample.stored_row "") []) id
         "modify_report_format" = (false, report_format)
    /\ forall row,
         Db.find_report_format
           (Sample.one_format_db (Sample.stored_row "") []) report_format
         = Some row ->
         exists row',
           Db.find_report_format
             (snd (Modify.modify_report_format
                     (Sample.modify_env (Some "user-1") false)
                     ExtraSample.rename_and_set_request
                     (Sample.one_format_db (Sample.stored_row "") [])))
             report_format = Some row'
           /\ Db.rf_name row' = "Renamed".
Proof.
  apply (modify_report_format_keeps_name_when_param_fails
           (Sample.modify_env (Some "user-1") false)
           ExtraSample.rename_and_set_request
           (Sample.one_format_db (Sample.stored_row "") []) _ 3 "Renamed").
  - vm_compute. reflexivity.
  - left. reflexivity.
  - reflexivity.
Defined.

(** ** The row a creation leaves *)

Section CreatedRow.

Import Db Param Create.

Lemma add_param_keeps_formats (d d' : Db.t) (rowid : Z)
    (param : create_report_format_param_t)
    (options : option (option (list string))) :
  add_param d rowid param options = inr d' ->
  report_formats d' = report_formats d
  /\ report_formats_seq d' = report_formats_seq d.
Proof.
  unfold add_param.
  destruct (type param) as [type_name|]; [| discriminate].
  destruct (_ =? REPORT_FORMAT_PARAM_TYPE_ERROR); [discriminate |].
  assert (Hstore : forall min max,
    match fallback param with
    | None => inl 5
    | Some param_fallback =>
        match find_param d rowid (name param) with
        | Some _ => inl 8
        | None =>
            let '(d, param_rowid) :=
              insert_param d rowid param min max param_fallback in
            match options with
            | Some (Some options) =>
                let d :=
                  fold_left (fun d o => insert_option d param_rowid o)
                            options d in
                if negb (validate_param_value d rowid param_rowid
                           (name param) (value param) =? 0)
                then inl 3
                else if negb (validate_param_value d rowid param_rowid
                                (name param) param_fallback =? 0)
                then inl 4
                else inr d
            | _ => inl (-1)
            end
        end
    end = (inr d' : early Db.t) ->
    report_formats d' = report_formats d
    /\ report_formats_seq d' = report_formats_seq d).
  { intros min max.
    destruct (fallback param) as [fb|]; [| discriminate].
    destruct (find_param d rowid (name param)); [discriminate |].
    cbn [insert_param].
    destruct options as [[opts|]|]; try discriminate.
    destruct (negb (validate_param_value _ _ _ _ (value param) =? 0));
      [discriminate |].
    destruct (negb (validate_param_value _ _ _ _ fb =? 0));
      [discriminate |].
    intros [= <-].
    match goal with
    | |- context [fold_left _ opts ?d0] =>
        destruct (insert_options_result
                    (report_format_params_seq d + 1) opts d0)
          as [H1 [_ [_ [H4 _]]]]
    end.
    split; [rewrite H1 | rewrite H4]; reflexivity. }
  destruct (type_min param) as [tmin|];
    [destruct (strtoll tmin =? LLONG_MIN); [discriminate |] |];
    (destruct (type_max param) as [tmax|];
     [destruct (strtoll tmax =? LLONG_MAX); [discriminate |] |]);
    cbn [bind_early]; apply Hstore.
Qed.

Lemma add_params_keep_formats :
  forall ps d d' rowid options index,
    add_params d rowid ps options index = inr d' ->
    report_formats d' = report_formats d
    /\ report_formats_seq d' = report_formats_seq d.
Proof.
  induction ps as [|p rest IH]; intros d d' rowid options index H;
    cbn [add_params] in H.
  - injection H as <-. split; reflexivity.
  - destruct (add_param d rowid p (nth_error options index)) as [c|d1] eqn:Hp;
      [discriminate |].
    cbn [bind_early] in H.
    apply add_param_keeps_formats in Hp. destruct Hp as [H1 H2].
    apply IH in H. destruct H as [H3 H4].
    split; congruence.
Qed.

Lemma created_id (E : env) (q : request) (d : Db.t)
    (tmp : Verifier.tmp_files) (id : Z) :
  res_report_format (create_report_format E q d tmp) = Some id ->
  id = report_formats_seq (res_db (create_report_format E q d tmp)).
Proof.
  unfold create_report_format.
  destruct (current_credentials_uuid E), (NDEBUG E);
    try (cbn; discriminate).
  all: destruct (block_return _); [cbn; discriminate |].
  all: destruct (transaction _ _ _ _) as [[c|d1]|o]; cbn;
    try discriminate.
  all: intros [= <-]; reflexivity.
Qed.

End CreatedRow.

(** [X10] A report format comes out of [create_report_format] with the
    active flag cleared: in tables whose ids the sequence has given out,
    [report_format_active] answers 0 for the new row, and
    [apply_report_format] returns [NULL] for it without a run of a
    generator. *)
Theorem created_report_format_is_not_active
    (E : Create.env) (q : Create.request) (d : Db.t)
    (tmp : Verifier.tmp_files) (id : Z) :
  Create.res_outcome (Create.create_report_format E q d tmp) = Returned 0 ->
  Create.res_report_format (Create.create_report_format E q d tmp)
  = Some id ->
  Forall (fun r => Db.rf_id r <= Db.report_formats_seq d)
         (Db.report_formats d) ->
  Compose.report_format_active
    (Create.res_db (Create.create_report_format E q d tmp)) id = 0
  /\ forall (C : Compose.env) (fuel : nat) (p : Compose.gchar_p)
            (xml_file xml_dir : string) (used_rfps : list Compose.gchar_p)
            (w : Compose.world),
       Compose.db C = Create.res_db (Create.create_report_format E q d tmp) ->
       snd (Acl.find_report_format_with_permission
              (Compose.acl C) (Compose.db C) (Compose.deref w p)
              "get_report_formats") = id ->
       Compose.apply_report_format (S fuel) C p xml_file xml_dir used_rfps w
       = Some (None, used_rfps, w).
Proof.
  intros Hok Hid Hseq.
  destruct (create_success E q d tmp Hok) as [_ Htrans].
  destruct (transaction_success E q _ d _ Htrans)
    as [row_uuid [row_name [owner Hadd]]].
  apply add_params_keep_formats in Hadd. destruct Hadd as [Hrows Hs].
  assert (Hnew : id = Db.report_formats_seq d + 1).
  { rewrite (created_id E q d tmp id Hid), Hs. reflexivity. }
  assert (Hactive :
    Compose.report_format_active
      (Create.res_db (Create.create_report_format E q d tmp)) id = 0).
  { unfold Compose.report_format_active, Db.find_report_format.
    rewrite Hrows. cbn [Create.insert_report_format fst Db.report_formats].
    rewrite find_app_last.
    - reflexivity.
    - apply find_none_iff. intros r Hr. rewrite Forall_forall in Hseq.
      specialize (Hseq r Hr). apply Z.eqb_neq. lia.
    - cbn [Db.rf_id]. apply Z.eqb_eq. symmetry. exact Hnew. }
  split; [exact Hactive |].
  intros C fuel p xml_file xml_dir used_rfps w Hdb Hfind.
  cbn [Compose.apply_report_format].
  destruct (Compose.g_list_find_custom w used_rfps p); [reflexivity |].
  destruct (Acl.find_report_format_with_permission _ _ _ _)
    as [failed report_format].
  cbn [snd] in Hfind. subst report_format.
  destruct (failed || (id =? 0)); [reflexivity |].
  rewrite Hdb, Hactive. reflexivity.
Qed.

Lemma created_report_format_is_not_active_witness :
  Compose.report_format_active ExtraSample.created_db 1 = 0.
Proof.
  apply (proj1 (created_report_format_is_not_active
                  (Sample.create_env Sample.no_trees)
                  (Sample.create_request None [Sample.integer_param None])
                  Sample.empty_db [] 1 eq_refl eq_refl (Forall_nil _))).
Defined.

(** ** Composition: which generators run *)

Section ComposeRuns.

Import Compose ComposeNotions.

Variable E : env.

Lemma adds_allowed_runs_refl (w : world) : adds_allowed_runs E w w.
Proof. exists []. split; [symmetry; apply app_nil_r | constructor]. Qed.

Lemma adds_allowed_runs_trans (w1 w2 w3 : world) :
  adds_allowed_runs E w1 w2 -> adds_allowed_runs E w2 w3 ->
  adds_allowed_runs E w1 w3.
Proof.
  intros [a [Ha Hfa]] [b [Hb Hfb]]. exists (a ++ b). split.
  - rewrite Hb, Ha, app_assoc. reflexivity.
  - apply Forall_app. split; assumption.
Qed.

Lemma adds_allowed_runs_same (w w' : world) :
  runs w' = runs w -> adds_allowed_runs E w w'.
Proof.
  intros H. exists []. split; [rewrite H; symmetry; apply app_nil_r |].
  constructor.
Qed.

Lemma generate_adds_allowed_run (report_format : Z)
    (report_format_id xml_file xml_dir manifest : string) (w : world) :
  Acl.find_report_format_with_permission
    (acl E) (db E) report_format_id "get_report_formats"
  = (false, report_format) ->
  report_format <> 0 ->
  report_format_active (db E) report_format <> 0 ->
  adds_allowed_runs E w
    (snd (generate E report_format report_format_id xml_file xml_dir
                   manifest w)).
Proof.
  intros Hfind Hnz Hactive. unfold generate.
  destruct (mkstemps E (clock w) _) as [output_file|];
    [| apply adds_allowed_runs_same; reflexivity].
  cbn [tick clock].
  destruct (negb (io_ok E (S (clock w))));
    [apply adds_allowed_runs_same; reflexivity |].
  assert (Hrun : forall w', runs w' = runs w ++
                   [ {| run_report_format_id := report_format_id;
                        run_xml_file := xml_file;
                        run_xml_dir := xml_dir;
                        run_report_format_extra := manifest;
                        run_output_file := output_file |} ] ->
                 adds_allowed_runs E w w').
  { intros w' Hw'. eexists. split; [exact Hw' |].
    constructor; [| constructor].
    exists report_format. cbn [run_report_format_id].
    split; [exact Hfind |]. split; assumption. }
  destruct (io_ok E _); apply Hrun; reflexivity.
Qed.

Lemma subreports_loop_adds_allowed_runs
    (call : gchar_p -> string -> string -> list gchar_p -> world
            -> option (option string * list gchar_p * world)) :
  (forall p xml_file xml_dir used_rfps w out used' w',
      call p xml_file xml_dir used_rfps w = Some (out, used', w') ->
      adds_allowed_runs E w w') ->
  forall deps st st',
    subreports_loop E call deps st = Some st' ->
    adds_allowed_runs E (ls_world st) (ls_world st').
Proof.
  intros Hcall. induction deps as [|dep rest IH]; intros st st' Hloop;
    cbn [subreports_loop] in Hloop.
  - injection Hloop as <-. apply adds_allowed_runs_refl.
  - destruct (mkdtemp E (clock (ls_world st))) as [subreport_dir|].
    + destruct (contains _ _).
      * apply IH in Hloop. cbn [ls_world] in Hloop.
        eapply adds_allowed_runs_trans; [| exact Hloop].
        apply adds_allowed_runs_same. reflexivity.
      * destruct (call dep _ _ _ _) as [[[out used'] w']|] eqn:Hc;
          [| discriminate].
        apply Hcall in Hc. apply IH in Hloop. cbn [ls_world] in Hloop.
        eapply adds_allowed_runs_trans; [| exact Hloop].
        eapply adds_allowed_runs_trans; [| exact Hc].
        apply adds_allowed_runs_same. reflexivity.
    + injection Hloop as <-. cbn [ls_world].
      apply adds_allowed_runs_same. reflexivity.
Qed.

Lemma apply_adds_allowed_runs :
  forall fuel p xml_file xml_dir used_rfps w out used' w',
    apply_report_format fuel E p xml_file xml_dir used_rfps w
    = Some (out, used', w') ->
    adds_allowed_runs E w w'.
Proof.
  induction fuel as [|fuel IH];
    intros p xml_file xml_dir used_rfps w out used' w' Hrun;
    [discriminate |].
  cbn [apply_report_format] in Hrun.
  destruct (g_list_find_custom w used_rfps p);
    [injection Hrun as _ _ <-; apply adds_allowed_runs_refl |].
  destruct (Acl.find_report_format_with_permission _ _ _ _)
    as [failed report_format] eqn:Hfind.
  destruct failed; cbn [orb] in Hrun;
    [injection Hrun as _ _ <-; apply adds_allowed_runs_refl |].
  destruct (Z.eqb_spec report_format 0) as [Hz|Hnz];
    [injection Hrun as _ _ <-; apply adds_allowed_runs_refl |].
  destruct (Z.eqb_spec (report_format_active (db E) report_format) 0)
    as [Hi|Hactive];
    [injection Hrun as _ _ <-; apply adds_allowed_runs_refl |].
  destruct (rf_dependencies_string (db E) report_format) as [deps|].
  - destruct (g_strsplit w deps) as [rf_dependencies w1] eqn:Hsplit.
    destruct (subreports_loop E _ rf_dependencies _) as [st|] eqn:Hloop;
      [| discriminate].
    apply (subreports_loop_adds_allowed_runs _ IH) in Hloop.
    cbn [ls_world] in Hloop.
    pose proof (generate_adds_allowed_run report_format (deref w p)
                  xml_file xml_dir
                  (files_xml E xml_dir (ls_subreports st)) (ls_world st)
                  Hfind Hnz Hactive) as Hgen.
    destruct (generate E report_format _ _ _ _ (ls_world st))
      as [output_file w2].
    injection Hrun as _ _ <-. cbn [snd] in Hgen.
    eapply adds_allowed_runs_trans; [| exact Hgen].
    eapply adds_allowed_runs_trans; [| exact Hloop].
    apply adds_allowed_runs_same. unfold g_strsplit in Hsplit.
    injection Hsplit as _ <-. reflexivity.
  - pose proof (generate_adds_allowed_run report_format (deref w p)
                  xml_file xml_dir (files_xml E xml_dir []) w
                  Hfind Hnz Hactive) as Hgen.
    destruct (generate E report_format _ _ _ _ w) as [output_file w2].
    injection Hrun as _ _ <-. exact Hgen.
Qed.

End ComposeRuns.

(** [X11] [apply_report_format] runs the generator only of report formats that
    the caller may read and that are active, at every depth of the
    composition; the runs of earlier calls stay as they were. *)
Theorem apply_report_format_runs_only_active_formats
    (E : Compose.env) (fuel : nat) (p : Compose.gchar_p)
    (xml_file xml_dir : string) (used_rfps used' : list Compose.gchar_p)
    (w w' : Compose.world) (out : option string) :
  Compose.apply_report_format fuel E p xml_file xml_dir used_rfps w
  = Some (out, used', w') ->
  exists added,
    Compose.runs w' = Compose.runs w ++ added
    /\ Forall (ComposeNotions.run_allowed E) added.
Proof. apply apply_adds_allowed_runs. Qed.

Lemma apply_report_format_runs_only_active_formats_witness :
  exists added,
    Compose.runs Sample.compose_world_after
    = Compose.runs Sample.compose_world_in_progress ++ added
    /\ Forall (ComposeNotions.run_allowed Sample.compose_env) added.
Proof.
  apply (apply_report_format_runs_only_active_formats
           Sample.compose_env 4 0%nat "/tmp/r/report.xml" "/tmp/r"
           [1%nat] [1%nat] Sample.compose_world_in_progress
           Sample.compose_world_after (Some "/tmp/r/A-XXXXXX.xml")).
  vm_compute. reflexivity.
Defined.

(** ** [check_db_report_formats]: what is removed and what is kept *)

Section FeedFrame.

Import Db Param Sql Feed FeedNotions.

Variable E : env.









End FeedFrame.

Section FeedRemoval.

Import Db Param Sql Feed FeedNotions.

Variable E : env.
Variable dir : list (string * option entity).
Variable d : Db.t.




End FeedRemoval.





(** ** Startup: the UUIDs of report formats *)

Section StartupFacts.

Import Db Sql Rows Startup.

Variable E : env.

Lemma update_report_format_uuids_as_list (s : state) :
  update_report_format_uuids E s = run_updates E updates s.
Proof. reflexivity. Qed.

Lemma update_makes_unused (old new : string) (s : state) :
  new <> old -> unused old (update_report_format_uuid E old new s).
Proof.
  intros Hne. split.
  - intros r Hr. cbn [update_report_format_uuid tables] in Hr.
    unfold update_report_formats in Hr.
    cbn [report_formats with_report_formats] in Hr.
    apply in_map_iff in Hr. destruct Hr as [r0 [<- _]].
    destruct (String.eqb_spec (rf_uuid r0) old) as [Heq|Hneq].
    + cbn [set_modification_time set_uuid rf_uuid]. exact Hne.
    + exact Hneq.
  - intros a Ha. cbn [update_report_format_uuid alert_method_data] in Ha.
    apply in_map_iff in Ha. destruct Ha as [a0 [<- _]].
    destruct (String.eqb_spec (amd_data a0) old) as [Heq|Hneq].
    + cbn [set_data amd_data]. exact Hne.
    + exact Hneq.
Qed.

Lemma update_keeps_unused (uuid old new : string) (s : state) :
  new <> uuid -> unused uuid s ->
  unused uuid (update_report_format_uuid E old new s).
Proof.
  intros Hne [Hrows Halerts]. split.
  - intros r Hr. cbn [update_report_format_uuid tables] in Hr.
    unfold update_report_formats in Hr.
    cbn [report_formats with_report_formats] in Hr.
    apply in_map_iff in Hr. destruct Hr as [r0 [<- Hr0]].
    destruct (String.eqb (rf_uuid r0) old).
    + cbn [set_modification_time set_uuid rf_uuid]. exact Hne.
    + apply Hrows. exact Hr0.
  - intros a Ha. cbn [update_report_format_uuid alert_method_data] in Ha.
    apply in_map_iff in Ha. destruct Ha as [a0 [<- Ha0]].
    destruct (String.eqb (amd_data a0) old).
    + cbn [set_data amd_data]. exact Hne.
    + apply Halerts. exact Ha0.
Qed.

Lemma run_updates_keep_unused (uuid : string) :
  forall (l : list (string * string)) (s : state),
    forallb (fun u => negb (String.eqb (snd u) uuid)) l = true ->
    unused uuid s -> unused uuid (run_updates E l s).
Proof.
  induction l as [|[old new] rest IH]; intros s Hl Hs; [exact Hs |].
  cbn [forallb snd] in Hl. apply andb_true_iff in Hl.
  destruct Hl as [Hnew Hrest]. apply negb_true_iff in Hnew.
  apply String.eqb_neq in Hnew.
  unfold run_updates. cbn [fold_left fst snd]. apply IH; [exact Hrest |].
  apply update_keeps_unused; assumption.
Qed.

Lemma run_updates_leave_no_old :
  forall (l : list (string * string)) (s : state),
    oldest_first l = true ->
    forall old, In old (map fst l) -> unused old (run_updates E l s).
Proof.
  induction l as [|[old new] rest IH]; intros s Hl uuid Hin;
    [destruct Hin |].
  cbn [oldest_first] in Hl. apply andb_true_iff in Hl.
  destruct Hl as [Hl Hrest]. apply andb_true_iff in Hl.
  destruct Hl as [Hnew Hlater]. apply negb_true_iff in Hnew.
  apply String.eqb_neq in Hnew.
  unfold run_updates. cbn [fold_left fst snd].
  destruct Hin as [<-|Hin].
  - apply run_updates_keep_unused; [exact Hlater |].
    apply update_makes_unused. exact Hnew.
  - apply IH; assumption.
Qed.

Lemma run_updates_keep_rows :
  forall (l : list (string * string)) (s : state) (r : report_format_row),
    In r (report_formats (tables s)) ->
    ~ In (rf_uuid r) (map fst l) ->
    In r (report_formats (tables (run_updates E l s))).
Proof.
  induction l as [|[old new] rest IH]; intros s r Hr Hout; [exact Hr |].
  unfold run_updates. cbn [fold_left fst snd]. apply IH.
  - cbn [update_report_format_uuid tables]. unfold update_report_formats.
    cbn [report_formats with_report_formats]. apply in_map_iff.
    exists r. split; [| exact Hr].
    destruct (String.eqb_spec (rf_uuid r) old) as [Heq|Hneq];
      [| reflexivity].
    exfalso. apply Hout. left. symmetry. exact Heq.
  - intros Hin. apply Hout. right. exact Hin.
Qed.

Lemma run_updates_keep_ids :
  forall (l : list (string * string)) (s : state),
    map rf_id (report_formats (tables (run_updates E l s)))
    = map rf_id (report_formats (tables s)).
Proof.
  induction l as [|[old new] rest IH]; intros s; [reflexivity |].
  unfold run_updates. cbn [fold_left fst snd].
  fold (run_updates E rest (update_report_format_uuid E old new s)).
  rewrite IH. cbn [update_report_format_uuid tables].
  unfold update_report_formats. cbn [report_formats with_report_formats].
  rewrite map_map. apply map_ext. intros r.
  destruct (String.eqb (rf_uuid r) old); reflexivity.
Qed.

End StartupFacts.

(** [X14] After [update_report_format_uuids] no report format and no alert
    bears one of the ten UUIDs it replaces; the rows keep their ids and
    their order, and a row of another UUID is as before. *)
Theorem update_report_format_uuids_leaves_no_old_uuid
    (E : Startup.env) (s : Startup.state) :
  (forall old, In old Startup.old_uuids ->
     (forall r, In r (Db.report_formats
                        (Startup.tables
                           (Startup.update_report_format_uuids E s))) ->
                Db.rf_uuid r <> old)
     /\ (forall a, In a (Startup.alert_method_data
                           (Startup.update_report_format_uuids E s)) ->
                   Rows.amd_data a <> old))
  /\ map Db.rf_id
       (Db.report_formats
          (Startup.tables (Startup.update_report_format_uuids E s)))
     = map Db.rf_id (Db.report_formats (Startup.tables s))
  /\ (forall r, In r (Db.report_formats (Startup.tables s)) ->
                ~ In (Db.rf_uuid r) Startup.old_uuids ->
                In r (Db.report_formats
                        (Startup.tables
                           (Startup.update_report_format_uuids E s)))).
Proof.
  rewrite update_report_format_uuids_as_list.
  split; [| split].
  - intros old Hold.
    apply (run_updates_leave_no_old E Startup.updates s);
      [reflexivity | exact Hold].
  - apply run_updates_keep_ids.
  - intros r Hr Hout. apply run_updates_keep_rows; assumption.
Qed.

Section UniqueUuids.

Import Db Sql Rows Startup.

Variable E : env.

Lemma fold_first (l : list report_format_row) :
  forall init,
    (forall b, init = Some b -> True) ->
    match fold_left
            (fun best r =>
               match best with
               | None => Some r
               | Some b => if rf_id r <? rf_id b then Some r else Some b
               end) l init with
    | Some b =>
        (init = Some b \/ In b l)
        /\ (forall r, In r l -> rf_id b <= rf_id r)
        /\ (forall b0, init = Some b0 -> rf_id b <= rf_id b0)
    | None => init = None /\ l = []
    end.
Proof.
  induction l as [|x t IH]; intros init _; cbn [fold_left].
  - destruct init as [b|]; [| split; reflexivity].
    split; [left; reflexivity |]. split; [intros r [] |].
    intros b0 [= <-]. lia.
  - specialize (IH (match init with
                    | None => Some x
                    | Some b => if rf_id x <? rf_id b then Some x else Some b
                    end) (fun _ _ => I)).
    destruct (fold_left _ t _) as [b|].
    + destruct IH as [Hin [Hle Hinit]]. split; [| split].
      * destruct Hin as [Hin|Hin]; [| right; right; exact Hin].
        destruct init as [b0|].
        -- destruct (rf_id x <? rf_id b0); injection Hin as <-;
             [right; left; reflexivity | left; reflexivity].
        -- injection Hin as <-. right. left. reflexivity.
      * intros r [Hx|Hr]; [subst r | apply Hle; exact Hr].
        destruct init as [b0|].
        -- destruct (Z.ltb_spec (rf_id x) (rf_id b0)).
           ++ apply (Hinit x eq_refl).
           ++ specialize (Hinit b0 eq_refl). lia.
        -- apply (Hinit x eq_refl).
      * intros b0 ->.
        destruct (Z.ltb_spec (rf_id x) (rf_id b0)).
        -- specialize (Hinit x eq_refl). lia.
        -- apply (Hinit b0 eq_refl).
    + destruct IH as [Hnone _]. destruct init as [b0|].
      * destruct (rf_id x <? rf_id b0); discriminate.
      * discriminate.
Qed.

(** The first row of a UUID that occurs: a row of the table of that UUID
    whose id is the least. *)
Lemma first_row_least (d : Db.t) (r : report_format_row) :
  In r (report_formats d) ->
  exists b,
    first_row d (rf_uuid r) = Some b
    /\ In b (report_formats d)
    /\ rf_uuid b = rf_uuid r
    /\ rf_id b <= rf_id r.
Proof.
  intros Hr. unfold first_row.
  pose proof (fold_first
                (filter (fun x => String.eqb (rf_uuid x) (rf_uuid r))
                        (report_formats d)) None (fun _ _ => I)) as H.
  assert (Hin : In r (filter (fun x => String.eqb (rf_uuid x) (rf_uuid r))
                             (report_formats d))).
  { apply filter_In. split; [exact Hr | apply String.eqb_refl]. }
  destruct (fold_left _ _ None) as [b|].
  - destruct H as [[Hb|Hb] [Hle _]]; [discriminate |].
    apply filter_In in Hb. destruct Hb as [Hb Hu].
    apply String.eqb_eq in Hu.
    exists b. split; [reflexivity |]. split; [exact Hb |].
    split; [exact Hu |]. apply Hle. exact Hin.
  - destruct H as [_ Hnil]. rewrite Hnil in Hin. destruct Hin.
Qed.

Lemma new_uuid_of_duplicates (d : Db.t) (r : report_format_row) :
  NoDup (map rf_id (report_formats d)) ->
  In r (report_formats d) ->
  new_uuid_of (duplicates E d) (rf_id r)
  = if is_duplicate d r then Some (make_uuid E (rf_id r)) else None.
Proof.
  intros Hids Hr. unfold new_uuid_of, duplicates.
  destruct (find _ _) as [row|] eqn:Hfind.
  - apply find_some in Hfind. destruct Hfind as [Hrow Hid].
    apply Z.eqb_eq in Hid. apply in_map_iff in Hrow.
    destruct Hrow as [r2 [<- Hr2]]. cbn [dup_id dup_new_uuid] in Hid |- *.
    apply filter_In in Hr2. destruct Hr2 as [Hr2 Hdup].
    assert (r2 = r) by (apply (NoDup_map_eq rf_id _ _ _ Hids Hr2 Hr Hid)).
    subst r2. rewrite Hdup. reflexivity.
  - destruct (is_duplicate d r) eqn:Hdup; [| reflexivity]. exfalso.
    pose proof (find_none _ _ Hfind) as Hnone.
    specialize (Hnone
      {| dup_id := rf_id r;
         dup_uuid := rf_uuid r;
         dup_new_uuid := make_uuid E (rf_id r);
         dup_owner := rf_owner r;
         dup_owner_uuid := owner_uuid_of d (rf_owner r);
         dup_original_owner :=
           match first_row d (rf_uuid r) with
           | Some b => rf_owner b
           | None => None
           end;
         dup_original_owner_uuid :=
           owner_uuid_of d (match first_row d (rf_uuid r) with
                            | Some b => rf_owner b
                            | None => None
                            end) |}).
    cbn [dup_id] in Hnone. rewrite Z.eqb_refl in Hnone.
    assert (Hf : true = false); [| discriminate].
    apply Hnone. apply in_map_iff. exists r. split; [reflexivity |].
    apply filter_In. split; assumption.
Qed.

End UniqueUuids.

(** [X15] After [make_report_format_uuids_unique] has returned 0 no two
    report formats bear the same UUID, given that the UUIDs [make_uuid]
    hands out for the rows differ from each other and from those in the
    table.  The rows keep their ids, and the row of the least id of each
    UUID is as before. *)
Theorem make_report_format_uuids_unique_makes_them_unique
    (E : Startup.env) (s s' : Startup.state) :
  Startup.make_report_format_uuids_unique E s = inr s' ->
  NoDup (map Db.rf_id (Db.report_formats (Startup.tables s))) ->
  (forall r1 r2, In r1 (Db.report_formats (Startup.tables s)) ->
                 In r2 (Db.report_formats (Startup.tables s)) ->
                 Db.rf_uuid r1 <> Startup.make_uuid E (Db.rf_id r2)) ->
  (forall r1 r2, In r1 (Db.report_formats (Startup.tables s)) ->
                 In r2 (Db.report_formats (Startup.tables s)) ->
                 Startup.make_uuid E (Db.rf_id r1)
                 = Startup.make_uuid E (Db.rf_id r2) ->
                 Db.rf_id r1 = Db.rf_id r2) ->
  NoDup (map Db.rf_uuid (Db.report_formats (Startup.tables s')))
  /\ map Db.rf_id (Db.report_formats (Startup.tables s'))
     = map Db.rf_id (Db.report_formats (Startup.tables s))
  /\ (forall r, In r (Db.report_formats (Startup.tables s)) ->
                Startup.is_duplicate (Startup.tables s) r = false ->
                In r (Db.report_formats (Startup.tables s'))).
Proof.
  intros Hrun Hids Hfresh Hinj.
  unfold Startup.make_report_format_uuids_unique in Hrun.
  destruct (Startup.update_on_disk E _ _) as [calls|calls];
    [discriminate |].
  injection Hrun as <-. cbn [Startup.tables Db.report_formats
                             Sql.with_report_formats].
  set (d := Startup.tables s) in *.
  set (renamed := fun r =>
         match Startup.new_uuid_of (Startup.duplicates E d) (Db.rf_id r) with
         | Some new_uuid => Rows.set_uuid new_uuid r
         | None => r
         end).
  assert (Hrenamed : forall r, In r (Db.report_formats d) ->
            renamed r = if Startup.is_duplicate d r
                        then Rows.set_uuid
                               (Startup.make_uuid E (Db.rf_id r)) r
                        else r).
  { intros r Hr. unfold renamed.
    rewrite (new_uuid_of_duplicates E d r Hids Hr).
    destruct (Startup.is_duplicate d r); reflexivity. }
  split; [| split].
  - rewrite map_map. apply NoDup_map_injective.
    + apply (NoDup_map_inv Db.rf_id). exact Hids.
    + intros x y Hx Hy Heq.
      rewrite (Hrenamed x Hx), (Hrenamed y Hy) in Heq.
      destruct (Startup.is_duplicate d x) eqn:Hdx;
        destruct (Startup.is_duplicate d y) eqn:Hdy;
        cbn [Rows.set_uuid Db.rf_uuid] in Heq.
      * apply (Hinj x y Hx Hy) in Heq.
        apply (NoDup_map_eq Db.rf_id _ _ _ Hids Hx Hy Heq).
      * exfalso. apply (Hfresh y x Hy Hx). symmetry. exact Heq.
      * exfalso. apply (Hfresh x y Hx Hy). exact Heq.
      * destruct (first_row_least d x Hx) as [bx [Hfx [Hbx [Hux Hlx]]]].
        destruct (first_row_least d y Hy) as [by' [Hfy [Hby [Huy Hly]]]].
        unfold Startup.is_duplicate in Hdx, Hdy.
        rewrite Hfx in Hdx. rewrite Hfy in Hdy.
        apply Z.ltb_ge in Hdx. apply Z.ltb_ge in Hdy.
        rewrite Heq, Hfy in Hfx. injection Hfx as <-.
        assert (x = by').
        { apply (NoDup_map_eq Db.rf_id _ _ _ Hids Hx Hby). lia. }
        assert (y = by').
        { apply (NoDup_map_eq Db.rf_id _ _ _ Hids Hy Hby). lia. }
        congruence.
  - rewrite map_map. apply map_ext. intros r. fold (renamed r).
    unfold renamed. destruct (Startup.new_uuid_of _ _); reflexivity.
  - intros r Hr Hnot. apply in_map_iff. exists r. split; [| exact Hr].
    fold (renamed r). rewrite (Hrenamed r Hr), Hnot. reflexivity.
Qed.

Lemma make_report_format_uuids_unique_makes_them_unique_witness :
  NoDup (map Db.rf_uuid
           (Db.report_formats
              (Startup.tables ExtraSample.startup_state_after))).
Proof.
  refine (proj1 (make_report_format_uuids_unique_makes_them_unique
                   ExtraSample.startup_env ExtraSample.startup_state
                   ExtraSample.startup_state_after _ _ _ _)).
  - vm_compute. reflexivity.
  - vm_compute. repeat constructor; cbn; intuition lia.
  - intros r1 r2 H1 H2. vm_compute in H1, H2.
    destruct H1 as [<-|[<-|[<-|[]]]]; destruct H2 as [<-|[<-|[<-|[]]]];
      vm_compute; discriminate.
  - intros r1 r2 H1 H2. vm_compute in H1, H2.
    destruct H1 as [<-|[<-|[<-|[]]]]; destruct H2 as [<-|[<-|[<-|[]]]];
      vm_compute; intros H; try reflexivity; discriminate.
Defined.

(** ** Deleting the rows of a report format *)

(** [X16] [delete_report_format_rows] leaves no row and no param of the
    report format.  When every option belonged to a param of the table
    and the ids of the params are keys, every option still belongs to a
    param afterwards, and the rows, params and options of the other
    report formats are as before. *)
Theorem delete_report_format_rows_leaves_no_dangling_option
    (d : Db.t) (report_format : Z) :
  Delete.options_attached d ->
  NoDup (map Db.p_id (Db.report_format_params d)) ->
  let d' := Delete.delete_report_format_rows d report_format in
  Db.find_report_format d' report_format = None
  /\ Db.params_of d' report_format = []
  /\ Delete.options_attached d'
  /\ (forall other, other <> report_format ->
        Db.find_report_format d' other = Db.find_report_format d other
        /\ Db.params_of d' other = Db.params_of d other
        /\ forall p, In p (Db.params_of d other) ->
                     Db.options_of d' (Db.p_id p)
                     = Db.options_of d (Db.p_id p)).
Proof.
  intros Hatt Hids d'. subst d'. unfold Delete.delete_report_format_rows.
  cbn [Sql.with_options Sql.with_params Sql.with_report_formats
       Db.report_formats Db.report_format_params
       Db.report_format_param_options].
  split; [| split; [| split]].
  - unfold Db.find_report_format.
    cbn [Sql.with_options Sql.with_params Sql.with_report_formats
       Db.report_formats Db.report_format_params
       Db.report_format_param_options].
    apply find_none_iff. intros r Hr. apply filter_In in Hr.
    destruct Hr as [_ Hr]. apply negb_true_iff in Hr. exact Hr.
  - unfold Db.params_of at 1.
    cbn [Sql.with_options Sql.with_params Sql.with_report_formats
       Db.report_formats Db.report_format_params
       Db.report_format_param_options].
    apply filter_none. intros p Hp. apply filter_In in Hp.
    destruct Hp as [_ Hp]. apply negb_true_iff in Hp. exact Hp.
  - intros o Ho.
    cbn [Sql.with_options Sql.with_params Sql.with_report_formats
       Db.report_formats Db.report_format_params
       Db.report_format_param_options] in Ho |- *.
    apply filter_In in Ho. destruct Ho as [Ho Hkeep].
    destruct (Hatt o Ho) as [p [Hp Hid]].
    exists p. split; [| exact Hid]. apply filter_In. split; [exact Hp |].
    apply negb_true_iff.
    destruct (Z.eqb_spec (Db.p_report_format p) report_format) as [Heq|Hne];
      [| reflexivity].
    exfalso. apply negb_true_iff in Hkeep.
    assert (Hex : existsb (fun p0 => Db.p_id p0 =? Db.o_report_format_param o)
                          (Db.params_of d report_format) = true).
    { apply existsb_exists. exists p. split.
      - apply filter_In. split; [exact Hp | apply Z.eqb_eq; exact Heq].
      - apply Z.eqb_eq. exact Hid. }
    rewrite Hex in Hkeep. discriminate.
  - intros other Hother. split; [| split].
    + unfold Db.find_report_format.
      cbn [Sql.with_options Sql.with_params Sql.with_report_formats
           Db.report_formats Db.report_format_params
           Db.report_format_param_options].
      apply find_filter_keeps. intros r Hr. apply Z.eqb_eq in Hr.
      apply negb_true_iff. apply Z.eqb_neq. congruence.
    + unfold Db.params_of.
      cbn [Sql.with_options Sql.with_params Sql.with_report_formats
           Db.report_formats Db.report_format_params
           Db.report_format_param_options].
      apply filter_filter_keeps. intros p Hp. apply Z.eqb_eq in Hp.
      apply negb_true_iff. apply Z.eqb_neq. congruence.
    + intros p Hp. unfold Db.options_of.
      cbn [Sql.with_options Sql.with_params Sql.with_report_formats
           Db.report_formats Db.report_format_params
           Db.report_format_param_options].
      apply filter_In in Hp. destruct Hp as [Hp Hof].
      apply Z.eqb_eq in Hof.
      apply filter_filter_keeps. intros o Ho. apply Z.eqb_eq in Ho.
      apply negb_true_iff.
      destruct (existsb _ (Db.params_of d report_format)) eqn:Hex;
        [| reflexivity].
      exfalso. apply existsb_exists in Hex.
      destruct Hex as [p0 [Hp0 Hid0]]. apply Z.eqb_eq in Hid0.
      apply filter_In in Hp0. destruct Hp0 as [Hp0 Hof0].
      apply Z.eqb_eq in Hof0.
      assert (p0 = p).
      { apply (NoDup_map_eq Db.p_id _ _ _ Hids Hp0 Hp). congruence. }
      subst p0. congruence.
Qed.

Lemma delete_report_format_rows_leaves_no_dangling_option_witness :
  Db.find_report_format
    (Delete.delete_report_format_rows ExtraSample.selection_db 1) 1 = None
  /\ Db.params_of
       (Delete.delete_report_format_rows ExtraSample.selection_db 1) 1 = []
  /\ Delete.options_attached
       (Delete.delete_report_format_rows ExtraSample.selection_db 1)
  /\ (forall other, other <> 1 ->
        Db.find_report_format
          (Delete.delete_report_format_rows ExtraSample.selection_db 1) other
        = Db.find_report_format ExtraSample.selection_db other
        /\ Db.params_of
             (Delete.delete_report_format_rows ExtraSample.selection_db 1)
             other
           = Db.params_of ExtraSample.selection_db other
        /\ forall p, In p (Db.params_of ExtraSample.selection_db other) ->
                     Db.options_of
                       (Delete.delete_report_format_rows
                          ExtraSample.selection_db 1) (Db.p_id p)
                     = Db.options_of ExtraSample.selection_db (Db.p_id p)).
Proof.
  apply (delete_report_format_rows_leaves_no_dangling_option
           ExtraSample.selection_db 1).
  - intros o [<-|[<-|[]]].
    + exists (ExtraSample.selection_param 1 1). split;
        [left; reflexivity | reflexivity].
    + exists (ExtraSample.selection_param 2 2). split;
        [right; left; reflexivity | reflexivity].
  - vm_compute. repeat constructor; cbn; intuition lia.
Defined.

(** ** Creation followed by verification *)

Section ReverifyFacts.

Import Db Param Create Notions Reverify.

Lemma find_signature_found (T : Signature.trees) (location uuid : string) :
  fst (fst (Signature.find_signature T location uuid None)) = 0 ->
  snd (fst (Signature.find_signature T location uuid None)) <> None.
Proof.
  unfold Signature.find_signature.
  destruct (0 <? strlen _); [| cbn; discriminate].
  destruct (Signature.feed_file T _ _); cbn; try discriminate.
  destruct (Signature.private_file T _ _); cbn; try discriminate.
  destruct (Signature.private_realpath T _ _); cbn; discriminate.
Qed.

Lemma insert_options_keep_predefined (options : list string) (param : Z) :
  forall d,
    resources_predefined
      (fold_left (fun d o => insert_option d param o) options d)
    = resources_predefined d.
Proof.
  induction options as [|o rest IH]; intros d; simpl; [reflexivity |].
  rewrite IH. reflexivity.
Qed.

(** What storing one param leaves in the tables, beside what the loop of
    the verification block prints for it. *)
Lemma add_param_stores (d d' : Db.t) (rowid : Z)
    (param : create_report_format_param_t)
    (options : option (option (list string))) :
  add_param d rowid param options = inr d' ->
  exists row type_name fb opts min_text max_text orows,
    report_format_params d' = report_format_params d ++ [row]
    /\ report_format_params_seq d' = report_format_params_seq d + 1
    /\ resources_predefined d' = resources_predefined d
    /\ report_format_param_options d'
       = report_format_param_options d ++ orows
    /\ map o_value orows = opts
    /\ Forall (fun o => o_report_format_param o
                        = report_format_params_seq d + 1) orows
    /\ type param = Some type_name
    /\ fallback param = Some fb
    /\ options = Some (Some opts)
    /\ format_bound (type_min param) LLONG_MIN = inr min_text
    /\ format_bound (type_max param) LLONG_MAX = inr max_text
    /\ row = {| p_id := report_format_params_seq d + 1;
                p_report_format := rowid;
                p_name := name param;
                p_type := report_format_param_type_from_name type_name;
                p_value := value param;
                p_type_min := p_type_min row;
                p_type_max := p_type_max row;
                p_type_regex := "";
                p_fallback := fb |}
    /\ (if LLONG_MIN <? cell_int64 (p_type_min row)
        then fmt_lli (cell_int64 (p_type_min row)) else "") = min_text
    /\ (if cell_int64 (p_type_max row) <? LLONG_MAX
        then fmt_lli (cell_int64 (p_type_max row)) else "") = max_text.
Proof.
  unfold add_param, format_bound.
  destruct (type param) as [type_name|] eqn:Etype; [| discriminate].
  destruct (_ =? REPORT_FORMAT_PARAM_TYPE_ERROR); [discriminate |].
  assert (Hmin : forall text, (strtoll text =? LLONG_MIN) = false ->
                   (LLONG_MIN <? strtoll text) = true).
  { intros text H. apply Z.eqb_neq in H. apply Z.ltb_lt.
    pose proof (strtoll_range text). lia. }
  assert (Hmax : forall text, (strtoll text =? LLONG_MAX) = false ->
                   (strtoll text <? LLONG_MAX) = true).
  { intros text H. apply Z.eqb_neq in H. apply Z.ltb_lt.
    pose proof (strtoll_range text). lia. }
  assert (Hstore : forall min max min_text max_text,
    (if LLONG_MIN <? min then fmt_lli min else "") = min_text ->
    (if max <? LLONG_MAX then fmt_lli max else "") = max_text ->
    match fallback param with
    | None => inl 5
    | Some param_fallback =>
        match find_param d rowid (name param) with
        | Some _ => inl 8
        | None =>
            let '(d, param_rowid) :=
              insert_param d rowid param min max param_fallback in
            match options with
            | Some (Some options) =>
                let d :=
                  fold_left (fun d o => insert_option d param_rowid o)
                            options d in
                if negb (validate_param_value d rowid param_rowid
                           (name param) (value param) =? 0)
                then inl 3
                else if negb (validate_param_value d rowid param_rowid
                                (name param) param_fallback =? 0)
                then inl 4
                else inr d
            | _ => inl (-1)
            end
        end
    end = (inr d' : early Db.t) ->
    exists row fb opts orows,
      report_format_params d' = report_format_params d ++ [row]
      /\ report_format_params_seq d' = report_format_params_seq d + 1
      /\ resources_predefined d' = resources_predefined d
      /\ report_format_param_options d'
         = report_format_param_options d ++ orows
      /\ map o_value orows = opts
      /\ Forall (fun o => o_report_format_param o
                          = report_format_params_seq d + 1) orows
      /\ fallback param = Some fb
      /\ options = Some (Some opts)
      /\ row = {| p_id := report_format_params_seq d + 1;
                  p_report_format := rowid;
                  p_name := name param;
                  p_type := report_format_param_type_from_name type_name;
                  p_value := value param;
                  p_type_min := p_type_min row;
                  p_type_max := p_type_max row;
                  p_type_regex := "";
                  p_fallback := fb |}
      /\ (if LLONG_MIN <? cell_int64 (p_type_min row)
          then fmt_lli (cell_int64 (p_type_min row)) else "") = min_text
      /\ (if cell_int64 (p_type_max row) <? LLONG_MAX
          then fmt_lli (cell_int64 (p_type_max row)) else "") = max_text).
  { intros min max min_text max_text Hmin_text Hmax_text.
    destruct (fallback param) as [fb|]; [| discriminate].
    destruct (find_param d rowid (name param)); [discriminate |].
    cbn [insert_param]. rewrite Etype. cbn [fmt_s].
    destruct options as [[opts|]|]; try discriminate.
    destruct (negb (validate_param_value _ _ _ _ (value param) =? 0));
      [discriminate |].
    destruct (negb (validate_param_value _ _ _ _ fb =? 0));
      [discriminate |].
    intros [= <-].
    match goal with
    | |- context [fold_left _ opts ?d0] =>
        pose proof (insert_options_result
                      (report_format_params_seq d + 1) opts d0) as Hopts;
        pose proof (insert_options_keep_predefined
                      opts (report_format_params_seq d + 1) d0) as Hpre
    end.
    cbn zeta in Hopts.
    destruct Hopts as [_ [Hparams [Hseq [_ [orows [Horows [Hvalues Hall]]]]]]].
    eexists _, fb, opts, orows.
    split; [rewrite Hparams; reflexivity |].
    split; [rewrite Hseq; reflexivity |].
    split; [exact Hpre |].
    split; [rewrite Horows; reflexivity |].
    split; [exact Hvalues |].
    split; [exact Hall |].
    split; [reflexivity |].
    split; [reflexivity |].
    cbn [p_type_min p_type_max cell_int64 fmt_s].
    split; [reflexivity |].
    split; assumption. }
  destruct (type_min param) as [tmin|] eqn:Emin;
    [destruct (strtoll tmin =? LLONG_MIN) eqn:Hsmin; [discriminate |] |];
    (destruct (type_max param) as [tmax|] eqn:Emax;
     [destruct (strtoll tmax =? LLONG_MAX) eqn:Hsmax; [discriminate |] |]);
    cbn [bind_early]; intros Hrun.
  - destruct (Hstore (strtoll tmin) (strtoll tmax)
                     (fmt_lli (strtoll tmin)) (fmt_lli (strtoll tmax)))
      as [row [fb [opts [orows H]]]];
      [rewrite (Hmin tmin Hsmin); reflexivity
      | rewrite (Hmax tmax Hsmax); reflexivity
      | exact Hrun |].
    exists row, type_name, fb, opts, (fmt_lli (strtoll tmin)),
      (fmt_lli (strtoll tmax)), orows.
    intuition.
  - destruct (Hstore (strtoll tmin) LLONG_MAX
                     (fmt_lli (strtoll tmin)) "")
      as [row [fb [opts [orows H]]]];
      [rewrite (Hmin tmin Hsmin); reflexivity
      | reflexivity
      | exact Hrun |].
    exists row, type_name, fb, opts, (fmt_lli (strtoll tmin)), "", orows.
    intuition.
  - destruct (Hstore LLONG_MIN (strtoll tmax) "" (fmt_lli (strtoll tmax)))
      as [row [fb [opts [orows H]]]];
      [reflexivity
      | rewrite (Hmax tmax Hsmax); reflexivity
      | exact Hrun |].
    exists row, type_name, fb, opts, "", (fmt_lli (strtoll tmax)), orows.
    intuition.
  - destruct (Hstore LLONG_MIN LLONG_MAX "" "")
      as [row [fb [opts [orows H]]]];
      [reflexivity | reflexivity | exact Hrun |].
    exists row, type_name, fb, opts, "", "", orows.
    intuition.
Qed.

(** The loop that stores the params leaves rows from which
    [verify_report_format_internal] prints what the loop of the
    verification block printed. *)
Lemma add_params_print_back (rowid : Z)
    (options : list (option (list string))) :
  forall ps d d' index,
    add_params d rowid ps options index = inr d' ->
    Forall (fun o => o_report_format_param o <= report_format_params_seq d)
           (report_format_param_options d) ->
    type_names_print_back ps ->
    exists rows body orows,
      report_format_params d' = report_format_params d ++ rows
      /\ Forall (fun r => p_report_format r = rowid) rows
      /\ format_params ps options index = inr body
      /\ String.concat "" (map (Verify.format_param_row d') rows) = body
      /\ resources_predefined d' = resources_predefined d
      /\ report_format_params_seq d <= report_format_params_seq d'
      /\ report_format_param_options d'
         = report_format_param_options d ++ orows
      /\ Forall (fun o => report_format_params_seq d
                          < o_report_format_param o
                          <= report_format_params_seq d') orows.
Proof.
  induction ps as [|p rest IH]; intros d d' index Hrun Hold Htypes;
    cbn [add_params] in Hrun.
  - injection Hrun as <-. exists [], "", [].
    split; [symmetry; apply app_nil_r |].
    split; [constructor |].
    split; [reflexivity |].
    split; [reflexivity |].
    split; [reflexivity |].
    split; [lia |].
    split; [symmetry; apply app_nil_r | constructor].
  - destruct (add_param d rowid p (nth_error options index)) as [c|d1] eqn:Hp;
      [discriminate |].
    cbn [bind_early] in Hrun.
    destruct (add_param_stores d d1 rowid p _ Hp)
      as [row [type_name [fb [opts [min_text [max_text [orows1
         [Hparams1 [Hseq1 [Hpre1 [Hopts1 [Hvalues1 [Hall1
         [Htype [Hfb [Hoptions [Hmin [Hmax [Hrow [Hmin_row Hmax_row
         ]]]]]]]]]]]]]]]]]]]].
    assert (Hold1 : Forall (fun o => o_report_format_param o
                                     <= report_format_params_seq d1)
                           (report_format_param_options d1)).
    { rewrite Hopts1, Hseq1. apply Forall_app. split.
      - eapply Forall_impl; [| exact Hold]. cbn. intros o Ho. lia.
      - eapply Forall_impl; [| exact Hall1]. cbn. intros o Ho. lia. }
    assert (Htypes1 : type_names_print_back rest).
    { intros p0 t0 Hin. apply Htypes. right. exact Hin. }
    destruct (IH d1 d' (S index) Hrun Hold1 Htypes1)
      as [rows [body [orows' [Hparams [Hrows [Hbody [Hprint [Hpre [Hseq
         [Hopts Hall]]]]]]]]]].
    exists (row :: rows),
      (name p +++ type_name +++ min_text +++ max_text +++ fb
       +++ String.concat "" opts +++ body),
      (orows1 ++ orows').
    split; [rewrite Hparams, Hparams1, <- app_assoc; reflexivity |].
    split; [constructor; [rewrite Hrow; reflexivity | exact Hrows] |].
    split.
    { cbn [format_params]. rewrite Hmin, Hmax, Hoptions, Hbody, Htype, Hfb.
      reflexivity. }
    split.
    { cbn [map]. rewrite concat_cons, Hprint.
      assert (Hrow_options :
        options_of d' (p_id row) = orows1).
      { unfold options_of. rewrite Hopts, Hopts1.
        assert (Hid : p_id row = report_format_params_seq d + 1)
          by (rewrite Hrow; reflexivity).
        rewrite Hid. apply filter_app_only.
        - intros o Ho. rewrite Forall_forall in Hold.
          specialize (Hold o Ho). apply Z.eqb_neq. lia.
        - intros o Ho. rewrite Forall_forall in Hall1.
          apply Z.eqb_eq. apply Hall1. exact Ho.
        - intros o Ho. rewrite Forall_forall in Hall.
          specialize (Hall o Ho). apply Z.eqb_neq. lia. }
      unfold Verify.format_param_row at 1.
      rewrite Hrow_options, Hvalues1, Hmin_row, Hmax_row.
      rewrite Hrow. cbn [p_name p_type p_type_regex p_fallback].
      rewrite (Htypes p type_name (or_introl eq_refl) Htype).
      cbn [fmt_s]. change ("" +++ fb) with fb.
      rewrite !append_assoc. reflexivity. }
    split; [congruence |].
    split; [lia |].
    split; [rewrite Hopts, Hopts1, <- app_assoc; reflexivity |].
    apply Forall_app. split.
    + eapply Forall_impl; [| exact Hall1]. cbn. intros o Ho. lia.
    + eapply Forall_impl; [| exact Hall]. cbn. intros o Ho. lia.
Qed.

Lemma create_verify_call (E : env) (q : request) (d : Db.t)
    (tmp : Verifier.tmp_files) :
  res_outcome (create_report_format E q d tmp) = Returned 0 ->
  res_verify_call (create_report_format E q d tmp)
  = verify_call (verify_block E q tmp).
Proof.
  unfold create_report_format.
  destruct (current_credentials_uuid E), (NDEBUG E);
    try (cbn; discriminate).
  all: destruct (block_return _); [reflexivity |].
  all: destruct (transaction _ _ _ _) as [[c|d1]|o]; reflexivity.
Qed.

(** A committed transaction on a UUID that is not in use stored the row
    under the UUID of the request. *)
Lemma transaction_success_same_uuid (E : env) (q : request)
    (v : verified_state) (d d' : Db.t) :
  uuid_unused d (uuid q) ->
  transaction E q v d = inl (inr d') ->
  exists row_name owner,
    add_params
      (fst (insert_report_format d (uuid q) row_name owner q
              (signature_used v) (format_trust v) (time_now E) (m_now E)))
      (report_formats_seq d + 1) (params q) (params_options q) 0
    = inr d'.
Proof.
  intros [Hrows Htrash]. unfold transaction.
  destruct (negb (acl_user_may E "create_report_format")); [discriminate |].
  destruct (negb (global q =? 0) && negb (acl_user_can_everything E _));
    [discriminate |].
  assert (Hfree :
    existsb (fun r => String.eqb (rf_uuid r) (uuid q)) (report_formats d)
    || existsb (String.eqb (uuid q)) (report_formats_trash_original_uuids d)
    = false).
  { apply orb_false_iff. split.
    - destruct (existsb _ (report_formats d)) eqn:Hex; [| reflexivity].
      exfalso. apply existsb_exists in Hex. destruct Hex as [r [Hr Heq]].
      apply String.eqb_eq in Heq. exact (Hrows r Hr Heq).
    - destruct (existsb _ (report_formats_trash_original_uuids d)) eqn:Hex;
        [| reflexivity].
      exfalso. apply existsb_exists in Hex. destruct Hex as [u [Hu Heq]].
      apply String.eqb_eq in Heq. subst u. contradiction. }
  rewrite Hfree.
  destruct (candidate_name _ _ _ _ _) as [row_name|]; [| discriminate].
  destruct (negb (global q =? 0) && negb (NDEBUG E)); [discriminate |].
  destruct (dir_exists E && negb (io_ok E Remove_dir)); [discriminate |].
  destruct (negb (io_ok E Mkdir_dir)); [discriminate |].
  destruct ((global q =? 0) && negb (io_ok E Chmod_owner_dir));
    [discriminate |].
  destruct (negb (io_ok E Chmod_dir)); [discriminate |].
  cbn [bind_early].
  destruct (write_files E (files_after v)); [discriminate |].
  cbn [bind_early insert_report_format].
  intros H. injection H as H.
  eexists _, _. cbn [fst insert_report_format]. exact H.
Qed.

(** What the verification block handed to the verifier. *)
Lemma verify_block_handed_over (E : env) (q : request)
    (tmp : Verifier.tmp_files)
    (format signature_text : string) :
  verify_call (verify_block E q tmp) = Some (format, signature_text) ->
  exists found format_signature uuid_actual body,
    Signature.find_signature (trees E) "report_formats" (uuid q) None
    = (found, format_signature, uuid_actual)
    /\ ((found =? 0)
        || match signature q with Some _ => true | None => false end) = true
    /\ format_params (params q) (params_options q) 0 = inr body
    /\ format
       = (match uuid_actual with Some u => u | None => uuid q end
          +++ fmt_s (extension q) +++ fmt_s (content_type q)
          +++ fmt_lli (Z.land (global q) 1))
         +++ format_files (g_ptr_array_sort (files q)) +++ body
         +++ String "010" ""
    /\ signature_used (verify_block E q tmp)
       = match format_signature with
         | Some s => Some s
         | None => signature q
         end
    /\ signature_text
       = fmt_s match format_signature with
               | Some s => Some s
               | None => signature q
               end.
Proof.
  unfold verify_block.
  destruct (Signature.find_signature _ _ _ _) as [[found fsig] ua].
  destruct ((found =? 0) || _) eqn:Hentered; [| cbn; discriminate].
  unfold canonical_format.
  destruct (format_params (params q) (params_options q) 0) as [c|body];
    [cbn; discriminate |].
  cbn [bind_early].
  destruct (Verifier.verify_signature _ _ _ _ _) as [[ret trust] tmp1].
  cbn [verify_call signature_used]. intros [= <- <-].
  exists found, fsig, ua, body.
  split; [reflexivity |]. split; [exact Hentered |].
  repeat split; reflexivity.
Qed.

(*MORE*)
End ReverifyFacts.

(** [X17] A report format that [create_report_format] stored after it had
    a signature that is not empty checked is checked by
    [verify_report_format_internal] against the same bytes and the same
    signature: the string built from the stored rows and the files on
    disk is the string built from the request.  This needs a UUID that
    was not in use, an extension and a content type, a format that is
    not global, type names that print back as given, tables whose ids
    the sequences have given out, the same signature trees, an iterator
    that yields the row of the UUID, and a file iterator that lists the
    files as the sort at creation left them. *)
Theorem created_report_format_is_verified_against_what_was_signed
    (E : Create.env) (V : Verify.env) (q : Create.request) (d : Db.t)
    (tmp tmp' : Verifier.tmp_files) (id : Z)
    (format signature_text : string) :
  Create.res_outcome (Create.create_report_format E q d tmp) = Returned 0 ->
  Create.res_report_format (Create.create_report_format E q d tmp)
  = Some id ->
  Create.res_verify_call (Create.create_report_format E q d tmp)
  = Some (format, signature_text) ->
  signature_text <> "" ->
  Reverify.ids_given_out d ->
  Reverify.uuid_unused d (Create.uuid q) ->
  Create.extension q <> None ->
  Create.content_type q <> None ->
  Create.global q = 0 ->
  Reverify.type_names_print_back (Create.params q) ->
  Verify.trees V = Create.trees E ->
  Verify.report_format_iterator V
    (Create.res_db (Create.create_report_format E q d tmp))
    (Some (Create.uuid q))
  = match Db.find_report_format_by_uuid
            (Create.res_db (Create.create_report_format E q d tmp))
            (Create.uuid q) with
    | Some row => [row]
    | None => []
    end ->
  Create.terminated (Verify.report_format_file_iterator V id)
  = Create.g_ptr_array_sort (Create.files q) ->
  Verify.res_verify_call
    (Verify.verify_report_format_internal V id
       (Create.res_db (Create.create_report_format E q d tmp)) tmp')
  = Some (format, signature_text).
Proof.
  intros Hok Hid Hcall Hsig [Hrf_ids [Hpre_ids [Hparam_ids Hoption_ids]]]
    Hunused Hext Hct Hglobal Htypes Htrees Hiter Hfiles.
  rewrite (create_verify_call E q d tmp Hok) in Hcall.
  destruct (verify_block_handed_over E q tmp format signature_text Hcall)
    as [found [fsig [ua [body [Hfind [Hentered [Hbody [Hformat
       [Hused Htext]]]]]]]]].
  destruct (create_success E q d tmp Hok) as [_ Htrans].
  pose proof (created_id E q d tmp id Hid) as Hnew.
  set (d' := Create.res_db (Create.create_report_format E q d tmp)) in *.
  destruct (transaction_success_same_uuid E q _ d d' Hunused Htrans)
    as [row_name [owner Hadd]].
  rewrite Hused in Hadd.
  set (chosen := match fsig with
                 | Some s => Some s
                 | None => Create.signature q
                 end) in *.
  set (row := {| Db.rf_id := Db.report_formats_seq d + 1;
                 Db.rf_uuid := Create.uuid q;
                 Db.rf_name := row_name;
                 Db.rf_owner := owner;
                 Db.rf_summary := Create.or_empty (Create.summary q);
                 Db.rf_description :=
                   Create.or_empty (Create.description q);
                 Db.rf_extension := Create.or_empty (Create.extension q);
                 Db.rf_content_type :=
                   Create.or_empty (Create.content_type q);
                 Db.rf_signature := Create.or_empty chosen;
                 Db.rf_trust :=
                   Create.format_trust (Create.verify_block E q tmp);
                 Db.rf_trust_time := Create.time_now E;
                 Db.rf_flags := 0;
                 Db.rf_creation_time := Create.m_now E;
                 Db.rf_modification_time := Create.m_now E |}).
  pose proof (add_params_keep_formats _ _ _ _ _ _ Hadd) as [Hrows Hseq].
  cbn [fst Create.insert_report_format Db.report_formats
       Db.report_formats_seq] in Hrows, Hseq.
  fold row in Hrows.
  assert (Hid' : id = Db.report_formats_seq d + 1) by congruence.
  destruct (add_params_print_back (Db.report_formats_seq d + 1)
              (Create.params_options q) (Create.params q) _ d' 0%nat Hadd)
    as [rows [body' [orows [Hparams [Hrows_of [Hbody' [Hprint [Hpre
       [_ _]]]]]]]]].
  { cbn [fst Create.insert_report_format Db.report_format_param_options
         Db.report_format_params_seq]. exact Hoption_ids. }
  { exact Htypes. }
  cbn [fst Create.insert_report_format Db.report_format_params
       Db.resources_predefined] in Hparams, Hpre.
  assert (body' = body) by congruence. subst body'.
  (* the stored row, by id and by UUID *)
  assert (Hby_id : Db.find_report_format d' id = Some row).
  { unfold Db.find_report_format. rewrite Hrows. apply find_app_last.
    - apply find_none_iff. intros r Hr. rewrite Forall_forall in Hrf_ids.
      specialize (Hrf_ids r Hr). apply Z.eqb_neq. lia.
    - cbn [Db.rf_id row]. apply Z.eqb_eq. symmetry. exact Hid'. }
  assert (Hby_uuid :
    Db.find_report_format_by_uuid d' (Create.uuid q) = Some row).
  { unfold Db.find_report_format_by_uuid. rewrite Hrows.
    apply find_app_last.
    - apply find_none_iff. intros r Hr. apply String.eqb_neq.
      apply (proj1 Hunused). exact Hr.
    - apply String.eqb_refl. }
  (* the params of the row and the predefined mark *)
  assert (Hparams_of : Db.params_of d' id = rows).
  { unfold Db.params_of. rewrite Hparams, filter_app.
    rewrite filter_none, filter_all; [reflexivity | |].
    - intros p Hp. rewrite Forall_forall in Hrows_of.
      apply Z.eqb_eq. rewrite (Hrows_of p Hp). symmetry. exact Hid'.
    - intros p Hp. rewrite Forall_forall in Hparam_ids.
      specialize (Hparam_ids p Hp). apply Z.eqb_neq. cbn beta in Hparam_ids.
      lia. }
  assert (Hnot_predefined : Db.report_format_predefined d' id = 0).
  { unfold Db.report_format_predefined. rewrite Hpre.
    destruct (existsb _ _) eqn:Hex; [| reflexivity]. exfalso.
    apply existsb_exists in Hex. destruct Hex as [x [Hx Heq]].
    apply Z.eqb_eq in Heq. subst x. rewrite Forall_forall in Hpre_ids.
    specialize (Hpre_ids id Hx). cbn beta in Hpre_ids. lia. }
  assert (Hstored : Verify.stored_format V d' id ua row = format).
  { unfold Verify.stored_format.
    rewrite Hnot_predefined, Hparams_of, H, Hformat, Hglobal.
    change (Db.rf_uuid row) with (Create.uuid q).
    change (Db.rf_extension row)
      with (Create.or_empty (Create.extension q)).
    change (Db.rf_content_type row)
      with (Create.or_empty (Create.content_type q)).
    destruct (Create.extension q) as [ext|]; [| contradiction].
    destruct (Create.content_type q) as [ct|]; [| contradiction].
    cbn [fmt_s Create.or_empty].
    rewrite <- Hfiles, format_files_terminated, !append_assoc.
    reflexivity. }
  assert (Hlen : forall text, text <> "" -> (0 <? strlen text) = true).
  { intros text Htext_ne. destruct text as [|c t]; [contradiction |].
    unfold strlen. cbn [String.length]. apply Z.ltb_lt. lia. }
  unfold Verify.verify_report_format_internal, Verify.report_format_uuid.
  rewrite Hby_id.
  change (Db.rf_uuid row) with (Create.uuid q).
  rewrite Hiter, Hby_uuid.
  change (Db.rf_uuid row) with (Create.uuid q).
  rewrite Htrees, Hfind.
  change (Db.rf_signature row) with (Create.or_empty chosen).
  rewrite Hstored.
  destruct fsig as [s0|].
  - subst chosen. cbn [Create.or_empty fmt_s] in *. rewrite orb_true_r.
    destruct (Verifier.verify_signature _ _ _ _ _) as [[ret trust] tmp1].
    rewrite Htext. destruct (negb (ret =? 0)); reflexivity.
  - subst chosen. cbn beta iota in *.
    destruct (Create.signature q) as [sg|].
    + cbn [Create.or_empty fmt_s] in *. subst signature_text.
      rewrite (Hlen sg Hsig). cbn [orb].
      destruct (Verifier.verify_signature _ _ _ _ _) as [[ret trust] tmp1].
      destruct (negb (ret =? 0)); reflexivity.
    + exfalso. rewrite orb_false_r in Hentered.
      apply Z.eqb_eq in Hentered.
      pose proof (find_signature_found (Create.trees E) "report_formats"
                    (Create.uuid q)) as Hfound.
      rewrite Hfind in Hfound. cbn [fst snd] in Hfound.
      exact (Hfound Hentered eq_refl).
Qed.

Lemma created_report_format_is_verified_against_what_was_signed_witness :
  exists format,
    Create.res_verify_call
      (Create.create_report_format (Sample.create_env Sample.no_trees)
         ExtraSample.signed_request Sample.empty_db [])
    = Some (format, "caller-signature")
    /\ Verify.res_verify_call
         (Verify.verify_report_format_internal ExtraSample.reverify_env 1
            (Create.res_db
               (Create.create_report_format
                  (Sample.create_env Sample.no_trees)
                  ExtraSample.signed_request Sample.empty_db [])) [])
       = Some (format, "caller-signature").
Proof.
  eexists. split; [vm_compute; reflexivity |].
  apply (created_report_format_is_verified_against_what_was_signed
           (Sample.create_env Sample.no_trees) ExtraSample.reverify_env
           ExtraSample.signed_request Sample.empty_db [] [] 1).
  - vm_compute. reflexivity.
  - vm_compute. reflexivity.
  - vm_compute. reflexivity.
  - discriminate.
  - repeat split; constructor.
  - split; [intros r [] | intros []].
  - discriminate.
  - discriminate.
  - reflexivity.
  - intros p type_name [<-|[]] [= <-]. reflexivity.
  - reflexivity.
  - vm_compute. reflexivity.
  - vm_compute. reflexivity.
Defined.

(** ** The name a creation stores *)

Section CreatedName.

Import Db Param Create Notions.

(** The loop for a free name ends at the first candidate that is not
    taken. *)
Lemma candidate_name_first_free (taken : string -> bool) (name : string) :
  forall bound candidate num row_name,
    candidate_name bound taken name candidate num = Some row_name ->
    taken row_name = false
    /\ (row_name = candidate
        \/ (taken candidate = true
            /\ exists n,
                 (num < n)%nat
                 /\ row_name = numbered name n
                 /\ forall k, (num < k < n)%nat ->
                              taken (numbered name k) = true)).
Proof.
  induction bound as [|bound IH]; intros candidate num row_name;
    cbn [candidate_name]; [discriminate |].
  destruct (taken candidate) eqn:Htaken; cbn [negb].
  - intros H. apply IH in H. destruct H as [Hfree Hwhich].
    split; [exact Hfree |]. right. split; [reflexivity |].
    destruct Hwhich as [Hnext | [Hnext_taken [n [Hn [Hname Hbefore]]]]].
    + exists (S num). split; [lia |]. split; [exact Hnext |].
      intros k Hk. lia.
    + exists n. split; [lia |]. split; [exact Hname |].
      intros k Hk. destruct (Nat.eq_dec k (S num)) as [->|Hne].
      * exact Hnext_taken.
      * apply Hbefore. lia.
  - intros [= <-]. split; [exact Htaken |]. left. reflexivity.
Qed.

(** A committed transaction stored the row under the name the loop for a
    free name ended at. *)
Lemma transaction_success_name (E : env) (q : request) (v : verified_state)
    (d d' : Db.t) :
  transaction E q v d = inl (inr d') ->
  exists row_uuid row_name owner,
    candidate_name (S (List.length (report_formats d)))
      (resource_with_name_exists d (current_credentials_uuid E))
      (req_name q) (req_name q) 1 = Some row_name
    /\ add_params
         (fst (insert_report_format d row_uuid row_name owner q
                 (signature_used v) (format_trust v) (time_now E) (m_now E)))
         (report_formats_seq d + 1) (params q) (params_options q) 0
       = inr d'.
Proof.
  unfold transaction.
  destruct (negb (acl_user_may E "create_report_format")); [discriminate |].
  destruct (negb (global q =? 0) && negb (acl_user_can_everything E _));
    [discriminate |].
  match goal with
  | |- match ?link with inl _ => _ | inr _ => _ end = _ -> _ =>
      destruct link as [code|new_uuid]; [discriminate |]
  end.
  destruct (candidate_name _ _ _ _ _) as [row_name|]; [| discriminate].
  destruct (negb (global q =? 0) && negb (NDEBUG E)); [discriminate |].
  destruct (dir_exists E && negb (io_ok E Remove_dir)); [discriminate |].
  destruct (negb (io_ok E Mkdir_dir)); [discriminate |].
  destruct ((global q =? 0) && negb (io_ok E Chmod_owner_dir));
    [discriminate |].
  destruct (negb (io_ok E Chmod_dir)); [discriminate |].
  cbn [bind_early].
  destruct (write_files E (files_after v)); [discriminate |].
  cbn [bind_early insert_report_format].
  intros H. injection H as H.
  eexists _, row_name, _. split; [reflexivity |].
  cbn [fst insert_report_format]. exact H.
Qed.

End CreatedName.

(** [X18] The name under which [create_report_format] stores a report
    format, in tables whose ids the sequence has given out, is the first
    candidate that is not taken: the requested name, or the requested
    name followed by a space and the least number from 2 on for which
    the name is free. *)
Theorem created_report_format_bears_the_first_free_name
    (E : Create.env) (q : Create.request) (d : Db.t)
    (tmp : Verifier.tmp_files) (id : Z) :
  Create.res_outcome (Create.create_report_format E q d tmp) = Returned 0 ->
  Create.res_report_format (Create.create_report_format E q d tmp)
  = Some id ->
  Forall (fun r => Db.rf_id r <= Db.report_formats_seq d)
         (Db.report_formats d) ->
  let taken :=
    Create.resource_with_name_exists d (Create.current_credentials_uuid E) in
  exists row,
    Db.find_report_format
      (Create.res_db (Create.create_report_format E q d tmp)) id = Some row
    /\ taken (Db.rf_name row) = false
    /\ (Db.rf_name row = Create.req_name q
        \/ (taken (Create.req_name q) = true
            /\ exists n,
                 (2 <= n)%nat
                 /\ Db.rf_name row = Notions.numbered (Create.req_name q) n
                 /\ forall k, (2 <= k < n)%nat ->
                      taken (Notions.numbered (Create.req_name q) k) = true)).
Proof.
  intros Hok Hid Hseq taken.
  destruct (create_success E q d tmp Hok) as [_ Htrans].
  destruct (transaction_success_name E q _ d _ Htrans)
    as [row_uuid [row_name [owner [Hname Hadd]]]].
  pose proof (add_params_keep_formats _ _ _ _ _ _ Hadd) as [Hrows Hs].
  assert (Hnew : id = Db.report_formats_seq d + 1).
  { rewrite (created_id E q d tmp id Hid), Hs. reflexivity. }
  cbn [fst Create.insert_report_format Db.report_formats] in Hrows.
  eexists. split.
  - unfold Db.find_report_format. rewrite Hrows. apply find_app_last.
    + apply find_none_iff. intros r Hr. rewrite Forall_forall in Hseq.
      specialize (Hseq r Hr). apply Z.eqb_neq. lia.
    + cbn [Db.rf_id]. apply Z.eqb_eq. symmetry. exact Hnew.
  - cbn [Db.rf_name].
    destruct (candidate_name_first_free _ _ _ _ _ _ Hname)
      as [Hfree Hwhich].
    split; [exact Hfree |].
    destruct Hwhich as [Hsame | [Htaken [n [Hn [Hnum Hbefore]]]]].
    + left. exact Hsame.
    + right. split; [exact Htaken |]. exists n.
      split; [lia |]. split; [exact Hnum |].
      intros k Hk. apply Hbefore. lia.
Qed.

Lemma created_report_format_bears_the_first_free_name_witness :
  exists row,
    Db.find_report_format
      (Create.res_db
         (Create.create_report_format (Sample.create_env Sample.no_trees)
            (Sample.create_request None [Sample.integer_param None])
            (Sample.one_format_db (Sample.stored_row "") []) [])) 2
    = Some row
    /\ Db.rf_name row = "PDF 2".
Proof.
  destruct (created_report_format_bears_the_first_free_name
              (Sample.create_env Sample.no_trees)
              (Sample.create_request None [Sample.integer_param None])
              (Sample.one_format_db (Sample.stored_row "") []) [] 2)
    as [row [Hrow _]].
  - vm_compute. reflexivity.
  - vm_compute. reflexivity.
  - repeat constructor. vm_compute. discriminate.
  - exists row. split; [exact Hrow |].
    vm_compute in Hrow. injection Hrow as <-. reflexivity.
Defined.

(** ** The trashcan: deletion and restoration *)

Section TrashFacts.

Import Db Sql Rows Trash.

Lemma filter_key_nodup {A : Type} (key : A -> Z) (l : list A) (p : A) :
  NoDup (map key l) -> In p l ->
  filter (fun x => key x =? key p) l = [p].
Proof.
  induction l as [|a t IH]; intros Hnd Hin; [destruct Hin |].
  cbn [map] in Hnd. inversion Hnd as [|k ks Hnot Hnd']; subst.
  cbn [filter]. destruct Hin as [->|Hin].
  - rewrite Z.eqb_refl. f_equal. apply filter_none.
    intros x Hx. apply Z.eqb_neq. intros Heq. apply Hnot.
    rewrite <- Heq. apply in_map. exact Hx.
  - destruct (Z.eqb_spec (key a) (key p)) as [Heq|Hne].
    + exfalso. apply Hnot. rewrite Heq. apply in_map. exact Hin.
    + apply IH; assumption.
Qed.

(** The options an [INSERT ... SELECT] adds: one for each row selected,
    in order, all under the target. *)
Lemma insert_options_rows (target : Z) :
  forall (selected : list option_row) (to : store),
    exists orows,
      st_options (insert_options selected target to)
      = st_options to ++ orows
      /\ map o_value orows = map o_value selected
      /\ Forall (fun o => o_report_format_param o = target) orows
      /\ st_params (insert_options selected target to) = st_params to
      /\ st_params_seq (insert_options selected target to)
         = st_params_seq to.
Proof.
  induction selected as [|o rest IH]; intros to.
  - exists []. cbn. rewrite app_nil_r. repeat split. constructor.
  - change (insert_options (o :: rest) target to)
      with (insert_options rest target
              {| st_params := st_params to;
                 st_options :=
                   st_options to
                   ++ [ {| o_id := st_options_seq to + 1;
                           o_report_format_param := target;
                           o_value := o_value o |} ];
                 st_params_seq := st_params_seq to;
                 st_options_seq := st_options_seq to + 1 |}).
    match goal with
    | |- context [insert_options rest target ?to1] =>
        destruct (IH to1) as [orows [Ho [Hv [Hall [Hp Hs]]]]]
    end.
    cbn [st_options st_params st_params_seq] in Ho, Hp, Hs.
    eexists (_ :: orows). rewrite Ho, Hp, Hs, <- app_assoc.
    split; [reflexivity |]. cbn [map o_value].
    split; [rewrite Hv; reflexivity |].
    split; [constructor; [reflexivity | exact Hall] |].
    split; reflexivity.
Qed.

(** One round of the loop: the param goes over with a new id, its
    options with it. *)
Lemma move_param_step (from : store) (target : Z) (p : param_row)
    (to : store) :
  NoDup (map p_id (st_params from)) ->
  In p (st_params from) ->
  exists orows,
    st_params (move_param from target (p_id p) to)
    = st_params to
      ++ [ {| p_id := st_params_seq to + 1;
              p_report_format := target;
              p_name := p_name p;
              p_type := p_type p;
              p_value := p_value p;
              p_type_min := p_type_min p;
              p_type_max := p_type_max p;
              p_type_regex := p_type_regex p;
              p_fallback := p_fallback p |} ]
    /\ st_params_seq (move_param from target (p_id p) to)
       = st_params_seq to + 1
    /\ st_options (move_param from target (p_id p) to)
       = st_options to ++ orows
    /\ map o_value orows
       = map o_value
           (filter (fun o => o_report_format_param o =? p_id p)
                   (st_options from))
    /\ Forall (fun o => o_report_format_param o = st_params_seq to + 1)
              orows.
Proof.
  intros Hnd Hin. unfold move_param.
  rewrite (filter_key_nodup p_id (st_params from) p Hnd Hin).
  cbn [insert_params fold_left].
  match goal with
  | |- context [insert_options ?sel ?tgt ?to1] =>
      destruct (insert_options_rows tgt sel to1)
        as [orows [Ho [Hv [Hall [Hp Hs]]]]]
  end.
  exists orows. rewrite Ho, Hp, Hs.
  cbn [st_options st_params st_params_seq] in Hall |- *.
  repeat split; try reflexivity; assumption.
Qed.

(** The loop over the params: what it adds to the target tables holds
    what the params had in the tables they come from. *)
Lemma move_params_loop (from : store) (target : Z) :
  NoDup (map p_id (st_params from)) ->
  forall (ps : list param_row) (to : store),
    (forall p, In p ps -> In p (st_params from)) ->
    target_in_order to ->
    exists news orows,
      st_params
        (fold_left (fun to p => move_param from target (p_id p) to) ps to)
      = st_params to ++ news
      /\ st_options
           (fold_left (fun to p => move_param from target (p_id p) to)
                      ps to)
         = st_options to ++ orows
      /\ st_params_seq to
         <= st_params_seq
              (fold_left (fun to p => move_param from target (p_id p) to)
                         ps to)
      /\ Forall (fun p => p_report_format p = target
                          /\ st_params_seq to < p_id p) news
      /\ Forall (fun o => st_params_seq to < o_report_format_param o
                          /\ In (o_report_format_param o) (map p_id news))
                orows
      /\ target_in_order
           (fold_left (fun to p => move_param from target (p_id p) to)
                      ps to)
      /\ map (fun p =>
                (param_columns p,
                 map o_value
                     (filter (fun o => o_report_format_param o =? p_id p)
                             (st_options
                                (fold_left
                                   (fun to p =>
                                      move_param from target (p_id p) to)
                                   ps to)))))
             news
         = map (fun p =>
                  (param_columns p,
                   map o_value
                       (filter (fun o => o_report_format_param o =? p_id p)
                               (st_options from))))
               ps.
Proof.
  intros Hkeys. induction ps as [|p rest IH]; intros to Hfrom Horder.
  - exists [], []. cbn [fold_left map]. rewrite !app_nil_r.
    repeat split; try reflexivity; try constructor; try apply Horder;
      try lia.
  - cbn [fold_left].
    destruct (move_param_step from target p to Hkeys
                (Hfrom p (or_introl eq_refl)))
      as [orows1 [Hp1 [Hs1 [Ho1 [Hv1 Hall1]]]]].
    set (to1 := move_param from target (p_id p) to) in *.
    destruct Horder as [Hnd [Hids Hrefs]].
    assert (Horder1 : target_in_order to1).
    { split; [| split].
      - rewrite Hp1, map_app. apply NoDup_app; [exact Hnd | |].
        + cbn [map]. constructor; [intros [] | constructor].
        + intros a Ha [<-|[]]. apply in_map_iff in Ha.
          destruct Ha as [x [Hx Hin]]. rewrite Forall_forall in Hids.
          specialize (Hids x Hin). cbn [p_id] in Hx. lia.
      - rewrite Hp1, Hs1. apply Forall_app. split.
        + eapply Forall_impl; [| exact Hids]. cbn. intros x Hx. lia.
        + constructor; [cbn [p_id]; lia | constructor].
      - rewrite Ho1, Hs1. apply Forall_app. split.
        + eapply Forall_impl; [| exact Hrefs]. cbn. intros x Hx. lia.
        + eapply Forall_impl; [| exact Hall1]. cbn. intros x Hx. lia. }
    destruct (IH to1 (fun x Hx => Hfrom x (or_intror Hx)) Horder1)
      as [news [orows [Hp [Ho [Hs [Hnews [Horows [Horder' Hcontents]]]]]]]].
    set (result := fold_left
                     (fun to p => move_param from target (p_id p) to)
                     rest to1) in *.
    eexists (_ :: news), (orows1 ++ orows).
    split; [rewrite Hp, Hp1, <- app_assoc; reflexivity |].
    split; [rewrite Ho, Ho1, <- app_assoc; reflexivity |].
    split; [lia |].
    split.
    { constructor; [cbn [p_report_format p_id]; split; [reflexivity | lia] |].
      eapply Forall_impl; [| exact Hnews]. cbn. intros x [Hx1 Hx2].
      split; [exact Hx1 | lia]. }
    split.
    { apply Forall_app. split.
      - eapply Forall_impl; [| exact Hall1]. cbn. intros x Hx.
        split; [lia | left; symmetry; exact Hx].
      - eapply Forall_impl; [| exact Horows]. cbn. intros x [Hx1 Hx2].
        split; [lia | right; exact Hx2]. }
    split; [exact Horder' |].
    cbn [map]. rewrite Hcontents. f_equal.
    unfold param_columns at 1 2. cbn [p_name p_type p_value p_type_min
                                      p_type_max p_type_regex p_fallback
                                      p_id].
    f_equal. rewrite <- Hv1. f_equal.
    rewrite Ho, Ho1. apply filter_app_only.
    + intros o Hin. rewrite Forall_forall in Hrefs.
      specialize (Hrefs o Hin). apply Z.eqb_neq. lia.
    + intros o Hin. rewrite Forall_forall in Hall1.
      apply Z.eqb_eq. apply Hall1. exact Hin.
    + intros o Hin. rewrite Forall_forall in Horows.
      destruct (Horows o Hin) as [Hlt _]. apply Z.eqb_neq. lia.
Qed.

Lemma move_params_contents (from to : store) (report_format target : Z) :
  NoDup (map p_id (st_params from)) ->
  target_in_order to ->
  Forall (fun p => p_report_format p <> target) (st_params to) ->
  contents (move_params from report_format target to) target
  = contents from report_format
  /\ target_in_order (move_params from report_format target to)
  /\ exists news orows,
       st_params (move_params from report_format target to)
       = st_params to ++ news
       /\ st_options (move_params from report_format target to)
          = st_options to ++ orows
       /\ Forall (fun p => p_report_format p = target
                           /\ st_params_seq to < p_id p) news
       /\ Forall (fun o => st_params_seq to < o_report_format_param o
                           /\ In (o_report_format_param o)
                                 (map p_id news))
                 orows.
Proof.
  intros Hkeys Horder Hfree. unfold move_params.
  destruct (move_params_loop from target Hkeys
              (filter (fun p => p_report_format p =? report_format)
                      (st_params from)) to)
    as [news [orows [Hp [Ho [Hs [Hnews [Horows [Horder' Hcontents]]]]]]]];
    [intros p Hp; apply filter_In in Hp; apply Hp | exact Horder |].
  split; [| split; [exact Horder' |]].
  - assert (Hsel : filter (fun p => p_report_format p =? target)
                          (st_params to ++ news) = news).
    { rewrite filter_app.
      rewrite (filter_none (fun p => p_report_format p =? target)
                           (st_params to)).
      - apply filter_all. intros p Hin. rewrite Forall_forall in Hnews.
        apply Z.eqb_eq. apply (Hnews p Hin).
      - intros p Hin. rewrite Forall_forall in Hfree.
        apply Z.eqb_neq. apply (Hfree p Hin). }
    unfold contents. rewrite Hp, Hsel. exact Hcontents.
  - exists news, orows. repeat split; assumption.
Qed.

Lemma found_with_permission (A : Acl.t) (d : Db.t)
    (uuid permission : string) (id : Z) :
  Acl.find_report_format_with_permission A d uuid permission = (false, id) ->
  id <> 0 ->
  exists r, In r (report_formats d) /\ rf_id r = id /\ rf_uuid r = uuid.
Proof.
  unfold Acl.find_report_format_with_permission, find_report_format_by_uuid.
  destruct (Acl.find_fails A uuid); [discriminate |].
  destruct (find _ (report_formats d)) as [r|] eqn:Hr;
    [| intros [= <-]; contradiction].
  apply find_some in Hr. destruct Hr as [Hin Hu].
  apply String.eqb_eq in Hu.
  destruct (Acl.acl_user_has_access_uuid A uuid permission);
    intros [= <-]; [| contradiction].
  intros _. exists r. repeat split; assumption.
Qed.

(** What a deletion to the trashcan leaves. *)
Lemma delete_to_trash (E : env) (report_format_id : string)
    (s s1 : state) (report_format : Z) :
  NoDup (map rf_id (report_formats (tables s))) ->
  Acl.find_report_format_with_permission
    (acl E) (tables s) report_format_id "delete_report_format"
  = (false, report_format) ->
  report_format <> 0 ->
  delete_report_format E report_format_id 0 s = Return_ok s1 ->
  exists row,
    In row (report_formats (tables s))
    /\ rf_id row = report_format
    /\ report_formats_trash s1
       = report_formats_trash s
         ++ [ {| tr_row :=
                   set_uuid (make_uuid E)
                            (set_id (report_formats_trash_seq s + 1) row);
                 tr_original_uuid := rf_uuid row |} ]
    /\ report_formats_trash_seq s1 = report_formats_trash_seq s + 1
    /\ trash s1
       = move_params (real_store (tables s)) report_format
                     (report_formats_trash_seq s + 1) (trash s)
    /\ report_formats (tables s1)
       = filter (fun r => negb (rf_id r =? report_format))
                (report_formats (tables s))
    /\ real_store (tables s1)
       = real_store
           (Delete.delete_report_format_rows (tables s) report_format)
    /\ report_formats_seq (tables s1) = report_formats_seq (tables s)
    /\ users (tables s1) = users (tables s)
    /\ alert_method_data s1 = alert_method_data s
    /\ alert_method_data_trash s1 = alert_method_data_trash s.
Proof.
  intros Hkeys Hfind Hnonzero.
  destruct (found_with_permission _ _ _ _ _ Hfind Hnonzero)
    as [row [Hin [Hid Huuid]]].
  unfold delete_report_format.
  destruct (negb (Acl.acl_user_may (acl E) "delete_report_format"));
    [discriminate |].
  rewrite Hfind.
  destruct (Z.eqb_spec report_format 0) as [|_]; [contradiction |].
  destruct (negb (report_format_predefined (tables s) report_format =? 0));
    [discriminate |].
  cbn [Z.eqb negb].
  destruct (report_format_in_use s report_format); [discriminate |].
  destruct (negb (g_mkdir_with_parents E _)); [discriminate |].
  rewrite <- Hid.
  rewrite (filter_key_nodup rf_id (report_formats (tables s)) row Hkeys Hin).
  rewrite Hid. cbv zeta.
  destruct (negb (move_report_format_dir E _ _)); [discriminate |].
  intros [= <-]. exists row.
  cbn [insert_trash_rows fold_left with_tables with_trash tables
       report_formats_trash report_formats_trash_seq trash
       alert_method_data alert_method_data_trash].
  repeat split; try assumption; reflexivity.
Qed.

Lemma find_key_nodup {A : Type} (key : A -> Z) (l : list A) (p : A) :
  NoDup (map key l) -> In p l ->
  find (fun x => key x =? key p) l = Some p.
Proof.
  induction l as [|a t IH]; intros Hnd Hin; [destruct Hin |].
  cbn [map] in Hnd. inversion Hnd as [|k ks Hnot Hnd']; subst.
  cbn [find]. destruct Hin as [->|Hin].
  - rewrite Z.eqb_refl. reflexivity.
  - destruct (Z.eqb_spec (key a) (key p)) as [Heq|Hne].
    + exfalso. apply Hnot. rewrite Heq. apply in_map. exact Hin.
    + apply IH; assumption.
Qed.

Lemma NoDup_map_filter {A B : Type} (f : A -> B) (g : A -> bool)
    (l : list A) :
  NoDup (map f l) -> NoDup (map f (filter g l)).
Proof.
  induction l as [|a t IH]; intros Hnd; [constructor |].
  cbn [map] in Hnd. inversion Hnd as [|k ks Hnot Hnd']; subst.
  cbn [filter]. destruct (g a); [| apply IH; exact Hnd'].
  cbn [map]. constructor; [| apply IH; exact Hnd'].
  intros Hin. apply Hnot. apply in_map_iff in Hin.
  destruct Hin as [x [Hx Hin]]. apply filter_In in Hin.
  rewrite <- Hx. apply in_map. apply Hin.
Qed.

Lemma Forall_filter {A : Type} (P : A -> Prop) (g : A -> bool)
    (l : list A) :
  Forall P l -> Forall P (filter g l).
Proof.
  intros H. rewrite Forall_forall in *. intros x Hx.
  apply filter_In in Hx. apply H. apply Hx.
Qed.

Lemma filter_app_old {A : Type} (f : A -> bool) (old new : list A) :
  (forall x, In x old -> f x = false) ->
  (forall x, In x new -> f x = true) ->
  filter (fun x => negb (f x)) (old ++ new) = old.
Proof.
  intros Hold Hnew. rewrite filter_app.
  rewrite (filter_all (fun x => negb (f x)) old).
  - rewrite (filter_none (fun x => negb (f x)) new); [apply app_nil_r |].
    intros x Hx. rewrite (Hnew x Hx). reflexivity.
  - intros x Hx. rewrite (Hold x Hx). reflexivity.
Qed.

Lemma real_store_with_store (d : Db.t) (st : store) (uuids : list string) :
  real_store (with_trash_uuids (with_store d st) uuids) = st.
Proof. destruct st. reflexivity. Qed.

Lemma set_id_restored (row : report_format_row) (uuid : string)
    (trash_id restored : Z) :
  set_uuid (rf_uuid row)
           (set_id restored (set_uuid uuid (set_id trash_id row)))
  = set_id restored row.
Proof. reflexivity. Qed.

End TrashFacts.

(** [X19] A report format that [delete_report_format] moved to the
    trashcan and [restore_report_format] brought back is in the tables
    again under its UUID with every column but the id as before, with
    its params in the same order and with the same options; the trash
    tables hold what they held before, and the other report formats
    stay.  This needs ids that are keys, sequences ahead of the ids in
    use, and a [find_trash] that finds the row just moved. *)
Theorem restore_report_format_gives_back_what_was_deleted
    (E E' : Trash.env) (report_format_id trash_id : string)
    (s s1 s2 : Trash.state) (report_format : Z) :
  Trash.keys_in_order s ->
  Acl.find_report_format_with_permission
    (Trash.acl E) (Trash.tables s) report_format_id "delete_report_format"
  = (false, report_format) ->
  report_format <> 0 ->
  Trash.delete_report_format E report_format_id 0 s = Trash.Return_ok s1 ->
  Trash.find_trash E' s1 trash_id
  = (false, Trash.report_formats_trash_seq s + 1) ->
  Trash.restore_report_format E' trash_id s1 = Trash.Return_ok s2 ->
  (forall row,
      Db.find_report_format (Trash.tables s) report_format = Some row ->
      Db.find_report_format (Trash.tables s2)
        (Db.report_formats_seq (Trash.tables s) + 1)
      = Some (Rows.set_id (Db.report_formats_seq (Trash.tables s) + 1) row))
  /\ Trash.contents (Trash.real_store (Trash.tables s2))
                    (Db.report_formats_seq (Trash.tables s) + 1)
     = Trash.contents (Trash.real_store (Trash.tables s)) report_format
  /\ Trash.report_formats_trash s2 = Trash.report_formats_trash s
  /\ Trash.st_params (Trash.trash s2) = Trash.st_params (Trash.trash s)
  /\ Trash.st_options (Trash.trash s2) = Trash.st_options (Trash.trash s)
  /\ (forall r, In r (Db.report_formats (Trash.tables s)) ->
                Db.rf_id r <> report_format ->
                In r (Db.report_formats (Trash.tables s2))).
Proof.
  intros [Hrf_keys [Hp_keys [Htp_keys [Hrf_ids [Hp_ids [Ho_ids
         [Htr_ids [Htp_ids Hto_ids]]]]]]]] Hfind Hnonzero Hdelete
         Hfind_trash Hrestore.
  destruct (delete_to_trash E report_format_id s s1 report_format
              Hrf_keys Hfind Hnonzero Hdelete)
    as [row [Hin [Hid [Htrash_rows [Htrash_seq [Htrash [Hrows [Hstore
       [Hseq [Husers _]]]]]]]]]].
  set (d := Trash.tables s) in *.
  set (tid := Trash.report_formats_trash_seq s + 1) in *.
  set (restored := Db.report_formats_seq d + 1).
  set (trow := {| Trash.tr_row :=
                    Rows.set_uuid (Trash.make_uuid E) (Rows.set_id tid row);
                  Trash.tr_original_uuid := Db.rf_uuid row |}) in *.
  (* the row in the trashcan *)
  assert (Hold_rows : forall r, In r (Trash.report_formats_trash s) ->
            (Db.rf_id (Trash.tr_row r) =? tid) = false).
  { intros r Hr. rewrite Forall_forall in Htr_ids.
    specialize (Htr_ids r Hr). apply Z.eqb_neq. subst tid. lia. }
  assert (Hfound : find (fun r => Db.rf_id (Trash.tr_row r) =? tid)
                        (Trash.report_formats_trash s1) = Some trow).
  { rewrite Htrash_rows. apply find_app_last.
    - apply find_none_iff. exact Hold_rows.
    - apply Z.eqb_refl. }
  assert (Hselected : filter (fun r => Db.rf_id (Trash.tr_row r) =? tid)
                             (Trash.report_formats_trash s1) = [trow]).
  { rewrite Htrash_rows, filter_app, (filter_none _ _ Hold_rows).
    cbn [filter app Trash.tr_row trow Rows.set_uuid Rows.set_id Db.rf_id].
    rewrite Z.eqb_refl. reflexivity. }
  unfold Trash.restore_report_format in Hrestore.
  rewrite Hfind_trash in Hrestore.
  destruct (tid =? 0); [discriminate |].
  unfold Trash.trash_name, Trash.original_uuid in Hrestore.
  rewrite Hfound, Hselected in Hrestore.
  destruct (Create.resource_with_name_exists _ _ _); [discriminate |].
  destruct (existsb _ (Db.report_formats (Trash.tables s1)));
    [discriminate |].
  cbn [Trash.insert_rows fold_left Db.report_formats_seq] in Hrestore.
  cbv zeta in Hrestore.
  destruct (negb (Trash.move_report_format_dir E' _ _)); [discriminate |].
  injection Hrestore as Hs2.
  assert (Hs2_rows :
    Db.report_formats (Trash.tables s2)
    = Db.report_formats (Trash.tables s1) ++ [Rows.set_id restored row]).
  { subst s2. cbn [Trash.delete_trash_rows Trash.tables Trash.with_tables
                   Trash.with_trash_uuids Trash.with_store
                   Db.report_formats].
    rewrite Hseq. reflexivity. }
  assert (Hs2_store :
    Trash.real_store (Trash.tables s2)
    = Trash.move_params (Trash.trash s1) tid restored
        (Trash.real_store (Trash.tables s1))).
  { subst s2. cbn [Trash.delete_trash_rows Trash.tables Trash.with_tables].
    rewrite real_store_with_store. unfold restored. rewrite <- Hseq.
    reflexivity. }
  assert (Hs2_trash_rows :
    Trash.report_formats_trash s2
    = filter (fun r => negb (Db.rf_id (Trash.tr_row r) =? tid))
             (Trash.report_formats_trash s1)).
  { subst s2. reflexivity. }
  assert (Hs2_trash_params :
    Trash.st_params (Trash.trash s2)
    = filter (fun p => negb (Db.p_report_format p =? tid))
             (Trash.st_params (Trash.trash s1))).
  { subst s2. reflexivity. }
  assert (Hs2_trash_options :
    Trash.st_options (Trash.trash s2)
    = filter (fun o =>
                negb (existsb (fun p => Db.p_id p
                                        =? Db.o_report_format_param o)
                              (filter (fun p => Db.p_report_format p =? tid)
                                      (Trash.st_params (Trash.trash s1)))))
             (Trash.st_options (Trash.trash s1))).
  { subst s2. reflexivity. }
  clear Hs2.
  (* into the trashcan *)
  assert (Horder_trash : Trash.target_in_order (Trash.trash s)).
  { split; [exact Htp_keys | split; [| exact Hto_ids]].
    eapply Forall_impl; [| exact Htp_ids]. cbn. intros p Hp. apply Hp. }
  assert (Hfree_trash :
    Forall (fun p => Db.p_report_format p <> tid)
           (Trash.st_params (Trash.trash s))).
  { eapply Forall_impl; [| exact Htp_ids]. cbn. intros p [Hp _].
    subst tid. lia. }
  destruct (move_params_contents (Trash.real_store d) (Trash.trash s)
              report_format tid Hp_keys Horder_trash Hfree_trash)
    as [Hinto [Horder1 [tnews [torows [Htp [Hto [Htnews Htorows]]]]]]].
  rewrite <- Htrash in Hinto, Horder1, Htp, Hto.
  (* and back *)
  assert (Horder_real :
    Trash.target_in_order (Trash.real_store (Trash.tables s1))).
  { rewrite Hstore. unfold Delete.delete_report_format_rows.
    cbn [Trash.real_store Sql.with_report_formats Sql.with_params
         Sql.with_options Db.report_format_params
         Db.report_format_param_options Db.report_format_params_seq
         Db.report_format_param_options_seq].
    split; [| split];
      cbn [Trash.st_params Trash.st_options Trash.st_params_seq].
    - apply NoDup_map_filter. exact Hp_keys.
    - apply Forall_filter. eapply Forall_impl; [| exact Hp_ids].
      cbn. intros p Hp. apply Hp.
    - apply Forall_filter. exact Ho_ids. }
  assert (Hfree_real :
    Forall (fun p => Db.p_report_format p <> restored)
           (Trash.st_params (Trash.real_store (Trash.tables s1)))).
  { rewrite Hstore. unfold Delete.delete_report_format_rows.
    cbn [Trash.real_store Sql.with_report_formats Sql.with_params
         Sql.with_options Db.report_format_params Trash.st_params].
    apply Forall_filter. eapply Forall_impl; [| exact Hp_ids].
    cbn. intros p [Hp _]. subst restored. lia. }
  destruct (move_params_contents (Trash.trash s1)
              (Trash.real_store (Trash.tables s1)) tid restored
              (proj1 Horder1) Horder_real Hfree_real)
    as [Hback _].
  split; [| split; [| split; [| split; [| split]]]].
  - intros row0 Hrow0.
    assert (row0 = row).
    { unfold Db.find_report_format in Hrow0. rewrite <- Hid in Hrow0.
      rewrite (find_key_nodup Db.rf_id _ row Hrf_keys Hin) in Hrow0.
      congruence. }
    subst row0. unfold Db.find_report_format. rewrite Hs2_rows, Hrows.
    apply find_app_last.
    + apply find_none_iff. intros r Hr. apply filter_In in Hr.
      destruct Hr as [Hr _]. rewrite Forall_forall in Hrf_ids.
      specialize (Hrf_ids r Hr). apply Z.eqb_neq. subst restored. lia.
    + cbn [Rows.set_id Db.rf_id]. apply Z.eqb_refl.
  - rewrite Hs2_store, Hback. exact Hinto.
  - rewrite Hs2_trash_rows, Htrash_rows.
    apply (filter_app_old (fun r => Db.rf_id (Trash.tr_row r) =? tid)).
    + exact Hold_rows.
    + intros r [<-|[]]. apply Z.eqb_refl.
  - rewrite Hs2_trash_params, Htp.
    apply (filter_app_old (fun p => Db.p_report_format p =? tid)).
    + intros p Hp. rewrite Forall_forall in Hfree_trash.
      apply Z.eqb_neq. apply (Hfree_trash p Hp).
    + intros p Hp. rewrite Forall_forall in Htnews.
      apply Z.eqb_eq. apply (Htnews p Hp).
  - rewrite Hs2_trash_options, Htp, Hto.
    assert (Hof : filter (fun p => Db.p_report_format p =? tid)
                         (Trash.st_params (Trash.trash s) ++ tnews)
                  = tnews).
    { rewrite filter_app.
      rewrite (filter_none (fun p => Db.p_report_format p =? tid)
                           (Trash.st_params (Trash.trash s))).
      - apply filter_all. intros p Hp. rewrite Forall_forall in Htnews.
        apply Z.eqb_eq. apply (Htnews p Hp).
      - intros p Hp. rewrite Forall_forall in Hfree_trash.
        apply Z.eqb_neq. apply (Hfree_trash p Hp). }
    rewrite Hof.
    apply (filter_app_old
             (fun o => existsb (fun p => Db.p_id p
                                         =? Db.o_report_format_param o)
                               tnews)).
    + intros o Ho. destruct (existsb _ tnews) eqn:Hex; [| reflexivity].
      exfalso. apply existsb_exists in Hex. destruct Hex as [p [Hp Heq]].
      apply Z.eqb_eq in Heq. rewrite Forall_forall in Htnews, Hto_ids.
      destruct (Htnews p Hp) as [_ Hlt]. specialize (Hto_ids o Ho).
      cbn beta in Hto_ids. lia.
    + intros o Ho. rewrite Forall_forall in Htorows.
      destruct (Htorows o Ho) as [_ Href]. apply in_map_iff in Href.
      destruct Href as [p [Hp Hp_in]]. apply existsb_exists.
      exists p. split; [exact Hp_in | apply Z.eqb_eq; exact Hp].
  - intros r Hr Hne. rewrite Hs2_rows, Hrows. apply in_or_app. left.
    apply filter_In. split; [exact Hr |]. apply negb_true_iff.
    apply Z.eqb_neq. exact Hne.
Qed.

Lemma restore_report_format_gives_back_what_was_deleted_witness :
  Db.find_report_format
    (Trash.tables ExtraSample.trash_state_restored) 3
  = Some (Rows.set_id 3 (Sample.format_row 1 "A" "Alpha"))
  /\ Trash.contents
       (Trash.real_store (Trash.tables ExtraSample.trash_state_restored)) 3
     = Trash.contents
         (Trash.real_store (Trash.tables ExtraSample.trash_state)) 1.
Proof.
  destruct (restore_report_format_gives_back_what_was_deleted
              ExtraSample.trash_env ExtraSample.trash_env "A" "trash-uuid"
              ExtraSample.trash_state ExtraSample.trash_state_deleted
              ExtraSample.trash_state_restored 1)
    as [Hrow [Hcontents _]].
  - unfold Trash.keys_in_order. vm_compute.
    repeat split; repeat constructor; cbn; intuition (try lia; discriminate).
  - vm_compute. reflexivity.
  - lia.
  - vm_compute. reflexivity.
  - vm_compute. reflexivity.
  - vm_compute. reflexivity.
  - split; [apply Hrow; reflexivity | exact Hcontents].
Defined.

(** ** The report formats of a user that is deleted *)

Section UserDeletion.

Import Db Sql Rows Trash.

Lemma owned_by_owner (user : Z) (r : report_format_row) :
  owned_by user r = true <-> rf_owner r = Some user.
Proof.
  unfold owned_by, sql_eq_int. destruct (rf_owner r) as [owner|].
  - rewrite Z.eqb_eq. split; congruence.
  - split; discriminate.
Qed.

End UserDeletion.

(** [X20] [delete_report_formats_user] leaves no report format of the user
    in the tables or in the trashcan and no param of such a report
    format; when ids are keys, the report formats of everybody else are
    in the table as before, each with its params and their options. *)
Theorem delete_report_formats_user_takes_only_what_the_user_owns
    (user : Z) (s : Trash.state) :
  NoDup (map Db.rf_id (Db.report_formats (Trash.tables s))) ->
  NoDup (map Db.p_id (Db.report_format_params (Trash.tables s))) ->
  (forall r,
      In r (Db.report_formats
              (Trash.tables (Trash.delete_report_formats_user user s))) ->
      Db.rf_owner r <> Some user)
  /\ (forall r,
         In r (Trash.report_formats_trash
                 (Trash.delete_report_formats_user user s)) ->
         Db.rf_owner (Trash.tr_row r) <> Some user)
  /\ (forall p r,
         In p (Db.report_format_params
                 (Trash.tables (Trash.delete_report_formats_user user s))) ->
         In r (Db.report_formats (Trash.tables s)) ->
         Db.rf_owner r = Some user ->
         Db.p_report_format p <> Db.rf_id r)
  /\ (forall r,
         In r (Db.report_formats (Trash.tables s)) ->
         Db.rf_owner r <> Some user ->
         In r (Db.report_formats
                 (Trash.tables (Trash.delete_report_formats_user user s)))
         /\ Trash.contents
              (Trash.real_store
                 (Trash.tables (Trash.delete_report_formats_user user s)))
              (Db.rf_id r)
            = Trash.contents (Trash.real_store (Trash.tables s))
                             (Db.rf_id r)).
Proof.
  intros Hrf_keys Hp_keys.
  set (d := Trash.tables s) in *.
  set (of_user := fun report_format =>
         existsb (fun r => Db.rf_id r =? report_format)
                 (filter (Trash.owned_by user) (Db.report_formats d))).
  assert (Hof_user : forall id, of_user id = true ->
            exists r, In r (Db.report_formats d)
                      /\ Db.rf_owner r = Some user /\ Db.rf_id r = id).
  { intros id H. apply existsb_exists in H. destruct H as [r [Hr Heq]].
    apply filter_In in Hr. destruct Hr as [Hr Ho].
    apply owned_by_owner in Ho. apply Z.eqb_eq in Heq.
    exists r. repeat split; assumption. }
  split; [| split; [| split]].
  - intros r Hr.
    cbn [Trash.delete_report_formats_user Trash.tables Db.report_formats]
      in Hr.
    apply filter_In in Hr. destruct Hr as [_ Hr].
    apply negb_true_iff in Hr. intros Ho.
    apply owned_by_owner in Ho. congruence.
  - intros r Hr.
    cbn [Trash.delete_report_formats_user Trash.report_formats_trash] in Hr.
    apply filter_In in Hr. destruct Hr as [_ Hr].
    apply negb_true_iff in Hr. intros Ho.
    apply owned_by_owner in Ho. congruence.
  - intros p r Hp Hr Ho Heq.
    cbn [Trash.delete_report_formats_user Trash.tables
         Db.report_format_params] in Hp.
    apply filter_In in Hp. destruct Hp as [_ Hp].
    change (negb (of_user (Db.p_report_format p)) = true) in Hp.
    apply negb_true_iff in Hp.
    assert (Ht : of_user (Db.p_report_format p) = true).
    { apply existsb_exists. exists r. split.
      - apply filter_In. split; [exact Hr |].
        apply owned_by_owner. exact Ho.
      - apply Z.eqb_eq. symmetry. exact Heq. }
    congruence.
  - intros r Hr Ho.
    assert (Hkept : of_user (Db.rf_id r) = false).
    { destruct (of_user (Db.rf_id r)) eqn:H; [| reflexivity]. exfalso.
      destruct (Hof_user _ H) as [r' [Hr' [Ho' Hid]]].
      assert (r' = r)
        by (apply (NoDup_map_eq Db.rf_id _ _ _ Hrf_keys Hr' Hr Hid)).
      subst r'. contradiction. }
    split.
    + cbn [Trash.delete_report_formats_user Trash.tables Db.report_formats].
      apply filter_In. split; [exact Hr |]. apply negb_true_iff.
      destruct (Trash.owned_by user r) eqn:H; [| reflexivity].
      apply owned_by_owner in H. contradiction.
    + unfold Trash.contents.
      cbn [Trash.delete_report_formats_user Trash.tables Trash.real_store
           Trash.st_params Trash.st_options Db.report_format_params
           Db.report_format_param_options].
      change (Trash.tables s) with d.
      change (fun p : Db.param_row =>
                negb (existsb (fun r => Db.rf_id r =? Db.p_report_format p)
                              (filter (Trash.owned_by user)
                                      (Db.report_formats d))))
        with (fun p : Db.param_row => negb (of_user (Db.p_report_format p))).
      change (fun p : Db.param_row =>
                existsb (fun r => Db.rf_id r =? Db.p_report_format p)
                        (filter (Trash.owned_by user)
                                (Db.report_formats d)))
        with (fun p : Db.param_row => of_user (Db.p_report_format p)).
      rewrite (filter_filter_keeps
                 (fun p => Db.p_report_format p =? Db.rf_id r)
                 (fun p => negb (of_user (Db.p_report_format p)))).
      * apply map_ext_in. intros p Hp. apply filter_In in Hp.
        destruct Hp as [Hp_in Hp_of]. apply Z.eqb_eq in Hp_of.
        f_equal. f_equal. apply filter_filter_keeps.
        intros o Hrefers. apply Z.eqb_eq in Hrefers.
        apply negb_true_iff.
        destruct (existsb _ _) eqn:Hex; [| reflexivity]. exfalso.
        apply existsb_exists in Hex. destruct Hex as [p' [Hp' Heq]].
        apply Z.eqb_eq in Heq. apply filter_In in Hp'.
        destruct Hp' as [Hp'_in Hp'_of].
        assert (p' = p).
        { apply (NoDup_map_eq Db.p_id _ _ _ Hp_keys Hp'_in Hp_in).
          congruence. }
        subst p'. rewrite Hp_of in Hp'_of. congruence.
      * intros p Hp. apply Z.eqb_eq in Hp. rewrite Hp, Hkept. reflexivity.
Qed.

Lemma delete_report_formats_user_takes_only_what_the_user_owns_witness :
  In ExtraSample.beta_row
     (Db.report_formats
        (Trash.tables
           (Trash.delete_report_formats_user 1 ExtraSample.user_state)))
  /\ Trash.contents
       (Trash.real_store
          (Trash.tables
             (Trash.delete_report_formats_user 1 ExtraSample.user_state)))
       (Db.rf_id ExtraSample.beta_row)
     = Trash.contents
         (Trash.real_store (Trash.tables ExtraSample.user_state))
         (Db.rf_id ExtraSample.beta_row).
Proof.
  destruct (delete_report_formats_user_takes_only_what_the_user_owns
              1 ExtraSample.user_state) as [_ [_ [_ H]]].
  - vm_compute. repeat constructor; cbn; intuition (try lia; discriminate).
  - vm_compute. repeat constructor; cbn; intuition (try lia; discriminate).
  - apply H.
    + vm_compute. right. left. reflexivity.
    + discriminate.
Defined.
